(** * ShiTu (pai-smart-go): ingestion-to-retrieval pipeline

    A shallow embedding of the Go sources of the knowledge service and the
    properties its design document states about them.

    Conventions of the embedding:
    - a Go [string] is a Rocq [string]: a sequence of bytes.  Literals are
      UTF-8 encoded by both languages, so a source literal is copied as is;
    - a Go [int], [int64] or [uint] is a [Z]; arithmetic that can leave the
      64-bit range is wrapped with [wrap64];
    - a call that returns [(T, error)] is a [result T]; a loop whose
      termination is not structural takes fuel and yields an [outcome];
    - the relational store, the cache, the object store, the indexer and the
      queue are fields of explicit world records; their failures are the
      fields of a fault record handed to the operation. *)

From Stdlib Require Import ZArith QArith Qround Ascii String.
From stdpp Require Import base gmap strings list pretty.

#[local] Set Warnings "-clear-no-such-hyp".

Local Open Scope string_scope.
Local Open Scope list_scope.
Local Open Scope Z_scope.

(** ** Outcomes of Go calls *)

(** [(T, error)]: the error carries its message. *)
Inductive result (A : Type) : Type :=
| Ok (a : A)
| Err (msg : string).
Arguments Ok {A} a.
Arguments Err {A} msg.

Definition is_ok {A} (r : result A) : bool :=
  match r with Ok _ => true | Err _ => false end.

(** What running a loop yields: a value, a run-time panic (slice bounds), or
    no answer within the fuel given. *)
Inductive outcome (A : Type) : Type :=
| Ret (a : A)
| Panic
| Timeout.
Arguments Ret {A} a.
Arguments Panic {A}.
Arguments Timeout {A}.

(** ** Go primitives used by the sources *)

Module Go.

(** Two's complement wrap-around of a 64-bit [int]. *)
Definition wrap64 (z : Z) : Z := (z + 2 ^ 63) mod 2 ^ 64 - 2 ^ 63.

Definition maxInt : Z := 2 ^ 63 - 1.

Definition byte_of (c : ascii) : Z := Z.of_N (N_of_ascii c).
Definition ascii_of (b : Z) : ascii := ascii_of_N (Z.to_N (b mod 256)).

Fixpoint bytes_of (s : string) : list Z :=
  match s with
  | EmptyString => []
  | String c s' => byte_of c :: bytes_of s'
  end.

Fixpoint string_of_bytes (l : list Z) : string :=
  match l with
  | [] => EmptyString
  | b :: l' => String (ascii_of b) (string_of_bytes l')
  end.

(** [len(s)]: the number of bytes. *)
Definition len (s : string) : Z := Z.of_nat (String.length s).

(** [len(l)] of a slice. *)
Definition slen {A} (l : list A) : Z := Z.of_nat (List.length l).

(** [l[lo:hi]] on a slice whose capacity is its length; out of range
    bounds panic. *)
Definition slice {A} (l : list A) (lo hi : Z) : option (list A) :=
  if (0 <=? lo) && (lo <=? hi) && (hi <=? slen l)
  then Some (take (Z.to_nat (hi - lo)) (drop (Z.to_nat lo) l))
  else None.

(** [s[:hi]] on a string, for [0 <= hi <= len(s)]: every caller guards the
    bound. *)
Definition str_take (s : string) (hi : Z) : string :=
  String.substring 0 (Z.to_nat hi) s.

(** *** UTF-8, as the runtime decodes and encodes it *)

Definition runeError : Z := 65533.
Definition maxRune : Z := 1114111.
Definition surrogateMin : Z := 55296.
Definition surrogateMax : Z := 57343.

Definition is_cont (b : Z) : bool := (128 <=? b) && (b <=? 191).

(** [decoderune]: the code point that starts the string and the number of
    bytes it takes.  An ill-formed sequence yields [runeError] and one
    byte. *)
Definition decoderune (s : string) : Z * nat :=
  match s with
  | EmptyString => (runeError, 1%nat)
  | String c0 s1 =>
    let b0 := byte_of c0 in
    if b0 <? 128 then (b0, 1%nat)
    else if (192 <=? b0) && (b0 <? 224) then
      match s1 with
      | String c1 _ =>
        let b1 := byte_of c1 in
        let r := Z.lor (Z.shiftl (Z.land b0 31) 6) (Z.land b1 63) in
        if is_cont b1 && (127 <? r) then (r, 2%nat) else (runeError, 1%nat)
      | _ => (runeError, 1%nat)
      end
    else if (224 <=? b0) && (b0 <? 240) then
      match s1 with
      | String c1 (String c2 _) =>
        let b1 := byte_of c1 in
        let b2 := byte_of c2 in
        let r := Z.lor (Z.lor (Z.shiftl (Z.land b0 15) 12)
                              (Z.shiftl (Z.land b1 63) 6))
                       (Z.land b2 63) in
        if is_cont b1 && is_cont b2 && (2047 <? r)
           && negb ((surrogateMin <=? r) && (r <=? surrogateMax))
        then (r, 3%nat) else (runeError, 1%nat)
      | _ => (runeError, 1%nat)
      end
    else if (240 <=? b0) && (b0 <? 248) then
      match s1 with
      | String c1 (String c2 (String c3 _)) =>
        let b1 := byte_of c1 in
        let b2 := byte_of c2 in
        let b3 := byte_of c3 in
        let r := Z.lor (Z.lor (Z.lor (Z.shiftl (Z.land b0 7) 18)
                                     (Z.shiftl (Z.land b1 63) 12))
                              (Z.shiftl (Z.land b2 63) 6))
                       (Z.land b3 63) in
        if is_cont b1 && is_cont b2 && is_cont b3
           && (65535 <? r) && (r <=? maxRune)
        then (r, 4%nat) else (runeError, 1%nat)
      | _ => (runeError, 1%nat)
      end
    else (runeError, 1%nat)
  end.

(** [for _, r := range s]: [skip] counts the bytes of the current code
    point that are still to be passed over. *)
Fixpoint range_runes (skip : nat) (s : string) : list Z :=
  match s with
  | EmptyString => []
  | String _ s' =>
    match skip with
    | S k => range_runes k s'
    | O => let '(r, w) := decoderune s in r :: range_runes (w - 1) s'
    end
  end.

(** [[]rune(s)]. *)
Definition runes_of (s : string) : list Z := range_runes 0 s.

(** [encoderune]: the bytes of one code point; surrogates and values out
    of range are written as [runeError]. *)
Definition encoderune (r : Z) : list Z :=
  let enc3 (r : Z) :=
    [Z.lor 224 (Z.shiftr r 12);
     Z.lor 128 (Z.land (Z.shiftr r 6) 63);
     Z.lor 128 (Z.land r 63)] in
  if (0 <=? r) && (r <=? 127) then [r]
  else if (0 <=? r) && (r <=? 2047) then
    [Z.lor 192 (Z.shiftr r 6); Z.lor 128 (Z.land r 63)]
  else if (r <? 0) || (maxRune <? r)
          || ((surrogateMin <=? r) && (r <=? surrogateMax)) then enc3 runeError
  else if r <=? 65535 then enc3 r
  else
    [Z.lor 240 (Z.shiftr r 18);
     Z.lor 128 (Z.land (Z.shiftr r 12) 63);
     Z.lor 128 (Z.land (Z.shiftr r 6) 63);
     Z.lor 128 (Z.land r 63)].

(** [string(runes)]. *)
Fixpoint string_of_runes (l : list Z) : string :=
  match l with
  | [] => EmptyString
  | r :: l' => string_of_bytes (encoderune r) +:+ string_of_runes l'
  end.

(** [utf8.RuneCountInString]. *)
Definition rune_count (s : string) : Z := slen (runes_of s).

(** *** Package [strings] and [strconv] *)

(** [strings.HasPrefix(s, p)]. *)
Fixpoint has_prefix (p s : string) : bool :=
  match p, s with
  | EmptyString, _ => true
  | String a p', String b s' => if Ascii.eqb a b then has_prefix p' s' else false
  | String _ _, EmptyString => false
  end.

(** [strings.Contains(s, substr)]. *)
Fixpoint Contains (s substr : string) : bool :=
  has_prefix substr s
  || match s with
     | EmptyString => false
     | String _ s' => Contains s' substr
     end.

(** [strings.ReplaceAll(s, old, new)] for a non-empty [old]: the
    non-overlapping occurrences of [old], leftmost first, become [new]. *)
Fixpoint replace_from (skip : nat) (s old new : string) : string :=
  match s with
  | EmptyString => EmptyString
  | String c s' =>
    match skip with
    | S k => replace_from k s' old new
    | O =>
      if has_prefix old s
      then new +:+ replace_from (String.length old - 1) s' old new
      else String c (replace_from 0 s' old new)
    end
  end.

Definition ReplaceAll (s old new : string) : string := replace_from 0 s old new.

(** [strings.Split(s, sep)] for a one-byte separator: always at least one
    field. *)
Fixpoint split_on (sep : ascii) (cur : string) (s : string) : list string :=
  match s with
  | EmptyString => [cur]
  | String c s' =>
    if Ascii.eqb c sep then cur :: split_on sep EmptyString s'
    else split_on sep (cur +:+ String c EmptyString) s'
  end.

Definition Split (s : string) (sep : ascii) : list string :=
  split_on sep EmptyString s.

(** [%d] of [fmt.Sprintf] and [strconv.FormatUint(_, 10)]. *)
Definition itoa (z : Z) : string := pretty z.

Definition is_digit (c : ascii) : bool :=
  let b := byte_of c in (48 <=? b) && (b <=? 57).

Fixpoint digits_value (acc : Z) (s : string) : option Z :=
  match s with
  | EmptyString => Some acc
  | String c s' =>
    if is_digit c then digits_value (10 * acc + (byte_of c - 48)) s' else None
  end.

(** [strconv.Atoi]: an optional sign, then one or more decimal digits; a
    value outside the 64-bit range is an error. *)
Definition Atoi (s : string) : result Z :=
  let parse (neg : bool) (ds : string) : result Z :=
    match ds with
    | EmptyString => Err "invalid syntax"
    | _ =>
      match digits_value 0 ds with
      | None => Err "invalid syntax"
      | Some v =>
        let v := if neg then - v else v in
        if (- 2 ^ 63 <=? v) && (v <=? maxInt) then Ok v
        else Err "value out of range"
      end
    end in
  match s with
  | String "+" ds => parse false ds
  | String "-" ds => parse true ds
  | _ => parse false s
  end.

(** [unicode.IsSpace]: the Latin-1 spaces and the White_Space table. *)
Definition IsSpace (r : Z) : bool :=
  ((9 <=? r) && (r <=? 13)) || (r =? 32) || (r =? 133) || (r =? 160)
  || (r =? 5760) || ((8192 <=? r) && (r <=? 8202)) || (r =? 8232)
  || (r =? 8233) || (r =? 8239) || (r =? 8287) || (r =? 12288).

Fixpoint drop_while {A} (f : A → bool) (l : list A) : list A :=
  match l with
  | [] => []
  | x :: l' => if f x then drop_while f l' else l
  end.

(** [strings.TrimSpace] on well-formed UTF-8. *)
Definition TrimSpace (s : string) : string :=
  string_of_runes
    (reverse (drop_while IsSpace (reverse (drop_while IsSpace (runes_of s))))).

(** [regexp.ReplaceAllString] for a pattern of the shape [[class]+] and the
    replacement [" "]: every maximal run of code points of the class
    becomes one space.  The matcher reads an ill-formed byte as
    [runeError]. *)
Fixpoint squeeze (class : Z → bool) (in_run : bool) (l : list Z) : list Z :=
  match l with
  | [] => []
  | r :: l' =>
    if class r
    then if in_run then squeeze class true l' else 32 :: squeeze class true l'
    else r :: squeeze class false l'
  end.

Definition replace_runs (class : Z → bool) (s : string) : string :=
  string_of_runes (squeeze class false (runes_of s)).

(** The Perl class [\s] of the regexp syntax: tab, newline, form feed,
    carriage return, space. *)
Definition re_space (r : Z) : bool :=
  (r =? 9) || (r =? 10) || (r =? 12) || (r =? 13) || (r =? 32).

(** *** [float64]

    A finite [float64] is kept as the rational it stands for.  [round64]
    is the rounding every operation ends with: to the nearest value with
    53 significant bits, a tie to the one whose last bit is zero.  It leaves
    out the exponent range, which the magnitudes of the services (a byte
    count over a part size) stay well within. *)
Definition round64 (q : Q) : Q :=
  let n := Z.abs (Qnum q) in
  let d := Z.pos (Qden q) in
  if n =? 0 then 0%Q
  else
    (* [2^e <= n/d < 2^(e+1)] *)
    let e0 := Z.log2 n - Z.log2 d in
    let e := if n * 2 ^ Z.max 0 (- e0) <? d * 2 ^ Z.max 0 e0 then e0 - 1 else e0 in
    (* the unit in the last place is [2^shift]; [a/b] is [n/d] in that unit *)
    let shift := e - 52 in
    let a := n * 2 ^ Z.max 0 (- shift) in
    let b := d * 2 ^ Z.max 0 shift in
    let m := a / b in
    let r := a mod b in
    let m := if 2 * r <? b then m
             else if b <? 2 * r then m + 1
             else if Z.even m then m else m + 1 in
    let m := if Qnum q <? 0 then - m else m in
    if 0 <=? shift then inject_Z (m * 2 ^ shift)
    else Qmake m (Z.to_pos (2 ^ (- shift))).

(** [float64(z)]. *)
Definition float64_of_int (z : Z) : Q := round64 (inject_Z z).

(** [a / b], for a divisor that is not zero. *)
Definition float64_div (a b : Q) : Q := round64 (a / b).

(** [math.Ceil]. *)
Definition math_Ceil (q : Q) : Q := inject_Z (Qceiling q).

(** [int(q)]: the fraction is dropped; for values in the range of [int]. *)
Definition int_of_float64 (q : Q) : Z :=
  if Qnum q <? 0 then Qceiling q else Qfloor q.

End Go.

(** ** internal/model: the rows and documents *)

Module Model.

(** A [[]float32] element is kept as its IEEE-754 bit pattern: the sources
    move vectors around and never compute on them. *)
Definition float32 : Type := Z.

(** [model.User]: the fields the services read.  [OrgTags] is the
    comma-separated list of the tags assigned to the user. *)
Record User := {
  user_ID : Z;
  user_Username : string;
  user_Role : string;
  user_OrgTags : string;
  user_PrimaryOrg : string
}.

(** [model.OrganizationTag]; [ParentTag] is a [*string], nil for a root. *)
Record OrganizationTag := {
  tag_TagID : string;
  tag_Name : string;
  tag_Description : string;
  tag_ParentTag : option string;
  tag_CreatedBy : Z
}.

(** [model.FileUpload]; [Status]: 0 uploading, 1 completed, 2 failed. *)
Record FileUpload := {
  fu_ID : Z;
  fu_FileMD5 : string;
  fu_FileName : string;
  fu_TotalSize : Z;
  fu_Status : Z;
  fu_UserID : Z;
  fu_OrgTag : string;
  fu_IsPublic : bool
}.

Record ChunkInfo := {
  ci_ID : Z;
  ci_FileMD5 : string;
  ci_ChunkIndex : Z;
  ci_ChunkMD5 : string;
  ci_StoragePath : string
}.

(** [model.DocumentVector], a row of [document_vectors]. *)
Record DocumentVector := {
  dv_VectorID : Z;
  dv_FileMD5 : string;
  dv_ChunkID : Z;
  dv_TextContent : string;
  dv_ModelVersion : string;
  dv_UserID : Z;
  dv_OrgTag : string;
  dv_IsPublic : bool
}.

(** [model.EsDocument], a document of the search index. *)
Record EsDocument := {
  es_VectorID : string;
  es_FileMD5 : string;
  es_ChunkID : Z;
  es_TextContent : string;
  es_Vector : list float32;
  es_ModelVersion : string;
  es_UserID : Z;
  es_OrgTag : string;
  es_IsPublic : bool
}.

(** [model.SearchResponseDTO]; the score is the decimal the indexer
    returned. *)
Record SearchResponseDTO := {
  dto_FileMD5 : string;
  dto_FileName : string;
  dto_ChunkID : Z;
  dto_TextContent : string;
  dto_Score : Q;
  dto_UserID : string;
  dto_OrgTag : string;
  dto_IsPublic : bool
}.

(** [tasks.FileProcessingTask]. *)
Record FileProcessingTask := {
  task_FileMD5 : string;
  task_ObjectUrl : string;
  task_FileName : string;
  task_UserID : Z;
  task_OrgTag : string;
  task_IsPublic : bool
}.

End Model.

(** ** internal/service: the effective tags of a user *)

Module UserService.
Import Go Model.

(** Step 2 of [GetUserEffectiveOrgTags]: [parentMap[tag.TagID] =
    tag.ParentTag] for every tag, in the order the rows were read. *)
Definition build_parentMap (allTags : list OrganizationTag)
    : gmap string (option string) :=
  foldl (fun m tag => <[tag_TagID tag := tag_ParentTag tag]> m) ∅ allTags.

(** Step 4: the declared tags enter the set and the queue once each. *)
Definition enqueue_initial (initialTags : list string)
    : gset string * list string :=
  foldl (fun '(effectiveTags, queue) tagID =>
           if decide (tagID ∈ effectiveTags) then (effectiveTags, queue)
           else ({[tagID]} ∪ effectiveTags, queue ++ [tagID]))
        (∅, []) initialTags.

(** Step 5: [for len(queue) > 0]; one unit of fuel per tag taken off the
    queue. *)
Fixpoint walk_parents (fuel : nat) (parentMap : gmap string (option string))
    (effectiveTags : gset string) (queue : list string)
    : outcome (gset string) :=
  match queue with
  | [] => Ret effectiveTags
  | currentTagID :: queue =>
    match fuel with
    | O => Timeout
    | S fuel' =>
      match parentMap !! currentTagID with
      | Some (Some parentTagID) =>
        if decide (parentTagID ∈ effectiveTags)
        then walk_parents fuel' parentMap effectiveTags queue
        else walk_parents fuel' parentMap ({[parentTagID]} ∪ effectiveTags)
               (queue ++ [parentTagID])
      | _ => walk_parents fuel' parentMap effectiveTags queue
      end
    end
  end.

(** [FindAll] is the answer of the tag repository.  The keys of the Go map
    come back in an order the language leaves open; [elements] fixes one. *)
Definition GetUserEffectiveOrgTags (fuel : nat)
    (FindAll : result (list OrganizationTag)) (user : User)
    : outcome (result (list string)) :=
  if String.eqb (user_OrgTags user) "" then Ret (Ok [])
  else
    match FindAll with
    | Err e => Ret (Err ("无法获取组织标签列表: " +:+ e))
    | Ok allTags =>
      let parentMap := build_parentMap allTags in
      let initialTags := Split (user_OrgTags user) "," in
      let '(effectiveTags, queue) := enqueue_initial initialTags in
      match walk_parents fuel parentMap effectiveTags queue with
      | Ret effectiveTags => Ret (Ok (elements effectiveTags))
      | Panic => Panic
      | Timeout => Timeout
      end
    end.

(** The tags assigned to a user, read off the comma-separated field. *)
Definition declared_tags (user : User) : list string :=
  if String.eqb (user_OrgTags user) "" then []
  else Split (user_OrgTags user) ",".

(** The parent relation of the tag table: a row with this id names that
    parent. *)
Definition parent_of (allTags : list OrganizationTag) (t p : string) : Prop :=
  ∃ tag, tag ∈ allTags ∧ tag_TagID tag = t ∧ tag_ParentTag tag = Some p.

(** Reflexive-transitive closure of a set of tags under a parent
    relation. *)
Inductive closure (parent : string → string → Prop) (declared : list string)
    : string → Prop :=
| closure_declared t : t ∈ declared → closure parent declared t
| closure_parent t p :
    closure parent declared t → parent t p → closure parent declared p.

(** *** The primary organization of a user *)

(** The calls on the user table that can fail. *)
Record faults := { find_fails : bool; update_fails : bool }.

(** [UserRepository.FindByUsername]: the first row with the name, the rows
    being in the order of their keys. *)
Definition FindByUsername (f : faults) (username : string) (users : list User)
    : result User :=
  if find_fails f then Err "database error"
  else match List.find (fun u => String.eqb (user_Username u) username) users with
       | Some user => Ok user
       | None => Err "record not found"
       end.

(** [UserRepository.Update], for a user read from the table: the row with
    the id of the user is written. *)
Definition Update (f : faults) (user : User) (users : list User)
    : result unit * list User :=
  if update_fails f then (Err "database error", users)
  else (Ok (), map (fun u => if user_ID u =? user_ID user then user else u) users).

Definition with_PrimaryOrg (orgTag : string) (user : User) : User :=
  {| user_ID := user_ID user; user_Username := user_Username user;
     user_Role := user_Role user; user_OrgTags := user_OrgTags user;
     user_PrimaryOrg := orgTag |}.

(** [SetUserPrimaryOrg]. *)
Definition SetUserPrimaryOrg (f : faults) (username orgTag : string)
    (users : list User) : result unit * list User :=
  match FindByUsername f username users with
  | Err e => (Err e, users)
  | Ok user =>
    if negb (Contains (user_OrgTags user) orgTag)
    then (Err "user does not belong to this organization", users)
    else Update f (with_PrimaryOrg orgTag user) users
  end.

End UserService.

(** ** internal/service: hybrid search *)

Module SearchService.
Import Go Model.

(** The request body, a tree of [map[string]interface{}] literals.  The
    fields of an object are kept in the order of the source. *)
#[warnings="-register-all"]
Inductive value : Type :=
| VNull
| VBool (b : bool)
| VInt (z : Z)
| VNum (q : Q)
| VStr (s : string)
| VStrs (l : list string)
| VVec (v : list float32)
| VArr (l : list value)
| VObj (fields : list (string * value)).

Fixpoint assoc_get (k : string) (fields : list (string * value)) : option value :=
  match fields with
  | [] => None
  | (k', v) :: fields' => if String.eqb k k' then Some v else assoc_get k fields'
  end.

(** [m[k] = x]. *)
Fixpoint assoc_set (k : string) (x : value) (fields : list (string * value))
    : list (string * value) :=
  match fields with
  | [] => [(k, x)]
  | (k', v) :: fields' =>
    if String.eqb k k' then (k, x) :: fields' else (k', v) :: assoc_set k x fields'
  end.

Definition field (k : string) (v : value) : option value :=
  match v with
  | VObj fields => assoc_get k fields
  | _ => None
  end.

(** [v[k1][k2]...]. *)
Fixpoint at_path (ks : list string) (v : value) : option value :=
  match ks with
  | [] => Some v
  | k :: ks' =>
    match field k v with
    | Some v' => at_path ks' v'
    | None => None
    end
  end.

(** [v[k1].(map)...[kn].(map)[k] = x]; [None] is the panic of a failed
    type assertion. *)
Fixpoint set_at (ks : list string) (k : string) (x : value) (v : value)
    : option value :=
  match v with
  | VObj fields =>
    match ks with
    | [] => Some (VObj (assoc_set k x fields))
    | k0 :: ks' =>
      match assoc_get k0 fields with
      | Some v0 =>
        match set_at ks' k x v0 with
        | Some v0' => Some (VObj (assoc_set k0 v0' fields))
        | None => None
        end
      | None => None
      end
    end
  | _ => None
  end.

Definition stopPhrases : list string :=
  ["是谁"; "是什么"; "是啥"; "请问"; "怎么"; "如何"; "告诉我"; "严格"; "按照";
   "不要补充"; "的区别"; "区别"; "吗"; "呢"; "？"; "?"].

(** [buildPhraseShould]. *)
Definition buildPhraseShould (phrase : string) : value :=
  if String.eqb phrase "" then VNull
  else VArr [VObj [("match_phrase",
               VObj [("text_content",
                 VObj [("query", VStr phrase); ("boost", VNum 3)])])]].

(** One hit of the indexer's answer. *)
Record hit := { hit_Source : EsDocument; hit_Score : Q }.

(** What a search request comes back with: the transport failed, the
    answer has an error status, its body does not decode, or hits.  A body
    that does not decode comes with the hits the decoder had stored by the
    time it reported the error: none after a syntax error, all of them,
    with the offending fields left at zero, after a value of the wrong
    type. *)
Inductive es_reply : Type :=
| EsFail (e : string)
| EsStatus (e : string)
| EsGarbage (e : string) (partial : list hit)
| EsHits (hits : list hit).

(** What one call of [HybridSearch] did: the texts handed to the embedder,
    the bodies sent to the indexer, and what it returned. *)
Record run := {
  embedded : list string;
  sent : list value;
  reply : outcome (result (list SearchResponseDTO))
}.

Section Search.
(** The Unicode tables of the Go library: [unicode.ToLower] above ASCII
    and the script class [\p{Han}]. *)
Variable unicode_ToLower : Z → Z.
Variable unicode_Han : Z → bool.

(** The collaborators of the service: the user service, the embedder,
    the indexer (by request number) and the upload repository. *)
Variable GetUserEffectiveOrgTags : User → result (list string).
Variable CreateEmbedding : string → result (list float32).
Variable Search : nat → value → es_reply.
Variable FindBatchByMD5s : list string → result (list FileUpload).

Definition rune_ToLower (r : Z) : Z :=
  if r <? 128 then (if (65 <=? r) && (r <=? 90) then r + 32 else r)
  else unicode_ToLower r.

(** [strings.ToLower]: every code point mapped, an ill-formed byte
    written back as [runeError]. *)
Definition ToLower (s : string) : string :=
  string_of_runes (map rune_ToLower (runes_of s)).

(** The class [[^\p{Han}a-z0-9\s]]. *)
Definition re_noise (r : Z) : bool :=
  negb (unicode_Han r
        || ((97 <=? r) && (r <=? 122))
        || ((48 <=? r) && (r <=? 57))
        || re_space r).

(** [normalizeQuery]. *)
Definition normalizeQuery (q : string) : string * string :=
  if String.eqb q "" then (q, "")
  else
    let lower := ToLower q in
    let lower := foldl (fun lower sp => ReplaceAll lower sp " ") lower stopPhrases in
    let kept := replace_runs re_noise lower in
    let kept := TrimSpace (replace_runs re_space kept) in
    if String.eqb kept "" then (q, "") else (kept, kept).

(** The map literal [esQuery]. *)
Definition esQuery_of (queryVector : list float32) (topK : Z) (user : User)
    (userEffectiveTags : list string) (normalized phrase : string) : value :=
  VObj [
    ("knn", VObj [
       ("field", VStr "vector");
       ("query_vector", VVec queryVector);
       ("k", VInt (wrap64 (topK * 30)));
       ("num_candidates", VInt (wrap64 (topK * 30)))]);
    ("query", VObj [
       ("bool", VObj [
          ("must", VObj [("match", VObj [("text_content", VStr normalized)])]);
          ("filter", VObj [
             ("bool", VObj [
                ("should", VArr [
                   VObj [("term", VObj [("user_id", VInt (user_ID user))])];
                   VObj [("term", VObj [("is_public", VBool true)])];
                   VObj [("terms", VObj [("org_tag", VStrs userEffectiveTags)])]]);
                ("minimum_should_match", VInt 1)])]);
          ("should", buildPhraseShould phrase)])]);
    ("rescore", VObj [
       ("window_size", VInt (wrap64 (topK * 30)));
       ("query", VObj [
          ("rescore_query", VObj [
             ("match", VObj [
                ("text_content", VObj [
                   ("query", VStr normalized); ("operator", VStr "and")])])]);
          ("query_weight", VNum (2 # 10));
          ("rescore_query_weight", VNum 1)])]);
    ("size", VInt topK)].

(** The retry rewrites [must] and [rescore_query] of the same map. *)
Definition retryQuery_of (esQuery : value) (phrase : string) : option value :=
  match set_at ["query"; "bool"] "must"
          (VObj [("match", VObj [("text_content", VStr phrase)])]) esQuery with
  | Some q =>
    set_at ["rescore"; "query"] "rescore_query"
      (VObj [("match", VObj [("text_content",
         VObj [("query", VStr phrase); ("operator", VStr "and")])])]) q
  | None => None
  end.

(** Steps 7 and 8: file names looked up in one batch, then one DTO per
    hit. *)
Definition assemble (hits : list hit) : result (list SearchResponseDTO) :=
  let fileMD5s := map (fun h => es_FileMD5 (hit_Source h)) hits in
  let uniqueMD5s : gset string := list_to_set fileMD5s in
  let md5List := elements uniqueMD5s in
  match FindBatchByMD5s md5List with
  | Err e => Err ("批量查询文件信息失败: " +:+ e)
  | Ok fileInfos =>
    let fileNameMap : gmap string string :=
      foldl (fun m info => <[fu_FileMD5 info := fu_FileName info]> m) ∅ fileInfos in
    Ok (map (fun h =>
               let src := hit_Source h in
               let fileName := default "" (fileNameMap !! es_FileMD5 src) in
               let fileName :=
                 if String.eqb fileName "" then "未知文件" else fileName in
               {| dto_FileMD5 := es_FileMD5 src;
                  dto_FileName := fileName;
                  dto_ChunkID := es_ChunkID src;
                  dto_TextContent := es_TextContent src;
                  dto_Score := hit_Score h;
                  dto_UserID := itoa (es_UserID src);
                  dto_OrgTag := es_OrgTag src;
                  dto_IsPublic := es_IsPublic src |}) hits)
  end.

(** The tags step 1 leaves the query with: the effective tags of the user,
    or none when the user service failed. *)
Definition tags_used (user : User) : list string :=
  match GetUserEffectiveOrgTags user with
  | Ok tags => tags
  | Err _ => []
  end.

(** [HybridSearch]. *)
Definition HybridSearch (query : string) (topK : Z) (user : User) : run :=
  let userEffectiveTags :=
    match GetUserEffectiveOrgTags user with
    | Ok tags => tags
    | Err _ => []
    end in
  let '(normalized, phrase) := normalizeQuery query in
  match CreateEmbedding query with
  | Err e =>
    {| embedded := [query]; sent := [];
       reply := Ret (Err ("failed to create query embedding: " +:+ e)) |}
  | Ok queryVector =>
    let esQuery :=
      esQuery_of queryVector topK user userEffectiveTags normalized phrase in
    match Search 0 esQuery with
    | EsFail e =>
      {| embedded := [query]; sent := [esQuery];
         reply := Ret (Err ("elasticsearch search failed: " +:+ e)) |}
    | EsStatus e =>
      {| embedded := [query]; sent := [esQuery];
         reply := Ret (Err ("elasticsearch returned an error: " +:+ e)) |}
    | EsGarbage e _ =>
      {| embedded := [query]; sent := [esQuery];
         reply := Ret (Err ("failed to decode es response: " +:+ e)) |}
    | EsHits [] =>
      if negb (String.eqb phrase "") && negb (String.eqb phrase query) then
        match retryQuery_of esQuery phrase with
        | None => {| embedded := [query]; sent := [esQuery]; reply := Panic |}
        | Some retryQuery =>
          let hits :=
            match Search 1 retryQuery with
            | EsHits hits => hits
            | EsGarbage _ partial => partial
            | EsFail _ | EsStatus _ => []
            end in
          {| embedded := [query]; sent := [esQuery; retryQuery];
             reply := match hits with
                      | [] => Ret (Ok [])
                      | _ => Ret (assemble hits)
                      end |}
        end
      else {| embedded := [query]; sent := [esQuery]; reply := Ret (Ok []) |}
    | EsHits hits =>
      {| embedded := [query]; sent := [esQuery]; reply := Ret (assemble hits) |}
    end
  end.

End Search.

(** *** What the indexer does with the filter

    The fragment of the query language the filter uses: a [term] or
    [terms] clause on a keyword field, and a [bool] with [should] clauses
    and [minimum_should_match].  [None]: outside the fragment. *)
Definition leaf_matches (clause : value) (doc : EsDocument) : option bool :=
  match clause with
  | VObj [("term", VObj [(f, VInt z)])] =>
    if String.eqb f "user_id" then Some (es_UserID doc =? z) else None
  | VObj [("term", VObj [(f, VBool b)])] =>
    if String.eqb f "is_public" then Some (Bool.eqb (es_IsPublic doc) b) else None
  | VObj [("terms", VObj [(f, VStrs l)])] =>
    if String.eqb f "org_tag" then Some (bool_decide (es_OrgTag doc ∈ l)) else None
  | _ => None
  end.

Definition filter_matches (flt : value) (doc : EsDocument) : option bool :=
  match flt with
  | VObj [("bool", VObj [("should", VArr clauses); ("minimum_should_match", VInt n)])] =>
    match mapM (fun c => leaf_matches c doc) clauses with
    | Some bs => Some (n <=? slen (List.filter (fun b : bool => b) bs))
    | None => None
    end
  | _ => None
  end.

End SearchService.

(** ** The stores behind the services *)

Module Store.
Import Go Model.

(** A key of the cache: its value and the seconds it has left to live,
    when it expires at all. *)
Record entry := { value : string; ttl : option Z }.

(** The calls on the object store and the queue that the properties speak
    of, in the order they were made. *)
Inductive call : Type :=
| CopyObject (dst src : string)
| ComposeObject (dst : string) (srcs : list string)
| RemoveObject (name : string)
| WriteMessages (task : FileProcessingTask)
| CommitMessages (offset : Z).

(** The tables hold their rows in the order of their keys. *)
Record world := {
  file_upload : list FileUpload;
  chunk_info : list ChunkInfo;
  document_vectors : list DocumentVector;
  next_vector_id : Z;
  rdb : gmap string entry;
  bucket : gmap string string;
  index : gmap string EsDocument;
  topic : list FileProcessingTask;
  log : list call
}.

Definition set_file_upload (x : list FileUpload) (w : world) : world :=
  {| file_upload := x; chunk_info := chunk_info w;
     document_vectors := document_vectors w; next_vector_id := next_vector_id w;
     rdb := rdb w; bucket := bucket w; index := index w; topic := topic w;
     log := log w |}.

Definition set_chunk_info (x : list ChunkInfo) (w : world) : world :=
  {| file_upload := file_upload w; chunk_info := x;
     document_vectors := document_vectors w; next_vector_id := next_vector_id w;
     rdb := rdb w; bucket := bucket w; index := index w; topic := topic w;
     log := log w |}.

Definition set_document_vectors (x : list DocumentVector) (next : Z) (w : world)
    : world :=
  {| file_upload := file_upload w; chunk_info := chunk_info w;
     document_vectors := x; next_vector_id := next;
     rdb := rdb w; bucket := bucket w; index := index w; topic := topic w;
     log := log w |}.

Definition set_rdb (x : gmap string entry) (w : world) : world :=
  {| file_upload := file_upload w; chunk_info := chunk_info w;
     document_vectors := document_vectors w; next_vector_id := next_vector_id w;
     rdb := x; bucket := bucket w; index := index w; topic := topic w;
     log := log w |}.

Definition set_bucket (x : gmap string string) (w : world) : world :=
  {| file_upload := file_upload w; chunk_info := chunk_info w;
     document_vectors := document_vectors w; next_vector_id := next_vector_id w;
     rdb := rdb w; bucket := x; index := index w; topic := topic w;
     log := log w |}.

Definition set_index (x : gmap string EsDocument) (w : world) : world :=
  {| file_upload := file_upload w; chunk_info := chunk_info w;
     document_vectors := document_vectors w; next_vector_id := next_vector_id w;
     rdb := rdb w; bucket := bucket w; index := x; topic := topic w;
     log := log w |}.

Definition set_topic (x : list FileProcessingTask) (w : world) : world :=
  {| file_upload := file_upload w; chunk_info := chunk_info w;
     document_vectors := document_vectors w; next_vector_id := next_vector_id w;
     rdb := rdb w; bucket := bucket w; index := index w; topic := x;
     log := log w |}.

Definition logged (c : call) (w : world) : world :=
  {| file_upload := file_upload w; chunk_info := chunk_info w;
     document_vectors := document_vectors w; next_vector_id := next_vector_id w;
     rdb := rdb w; bucket := bucket w; index := index w; topic := topic w;
     log := log w ++ [c] |}.

(** *** The cache *)

(** [INCR key]: a missing key counts from zero and the time to live is
    kept; a value that is not a 64-bit integer, or that would leave the
    range, is an error. *)
Definition redis_incr (key : string) (db : gmap string entry)
    : result (Z * gmap string entry) :=
  match db !! key with
  | None => Ok (1, <[key := {| value := itoa 1; ttl := None |}]> db)
  | Some e =>
    match Atoi (value e) with
    | Err msg => Err "ERR value is not an integer or out of range"
    | Ok n =>
      if n <? maxInt
      then Ok (n + 1, <[key := {| value := itoa (n + 1); ttl := ttl e |}]> db)
      else Err "ERR increment or decrement would overflow"
    end
  end.

(** [EXPIRE key seconds]. *)
Definition redis_expire (key : string) (seconds : Z) (db : gmap string entry)
    : gmap string entry :=
  match db !! key with
  | None => db
  | Some e => <[key := {| value := value e; ttl := Some seconds |}]> db
  end.

(** *** The relational tables *)

Definition upload_matches (fileMD5 : string) (userID : Z) (r : FileUpload) : bool :=
  String.eqb (fu_FileMD5 r) fileMD5 && (fu_UserID r =? userID).

(** [Where("file_md5 = ? AND user_id = ?").First(&record)]. *)
Definition first_upload (fileMD5 : string) (userID : Z) (w : world)
    : option FileUpload :=
  List.find (upload_matches fileMD5 userID) (file_upload w).

Definition with_status (status : Z) (r : FileUpload) : FileUpload :=
  {| fu_ID := fu_ID r; fu_FileMD5 := fu_FileMD5 r; fu_FileName := fu_FileName r;
     fu_TotalSize := fu_TotalSize r; fu_Status := status; fu_UserID := fu_UserID r;
     fu_OrgTag := fu_OrgTag r; fu_IsPublic := fu_IsPublic r |}.

(** [Model(&FileUpload{}).Where("id = ?", id).Update("status", status)]. *)
Definition update_status (recordID status : Z) (w : world) : world :=
  set_file_upload
    (map (fun r => if fu_ID r =? recordID then with_status status r else r)
         (file_upload w)) w.

Definition vectors_of (fileMD5 : string) (w : world) : list DocumentVector :=
  List.filter (fun v => String.eqb (dv_FileMD5 v) fileMD5) (document_vectors w).

Definition with_vector_id (id : Z) (v : DocumentVector) : DocumentVector :=
  {| dv_VectorID := id; dv_FileMD5 := dv_FileMD5 v; dv_ChunkID := dv_ChunkID v;
     dv_TextContent := dv_TextContent v; dv_ModelVersion := dv_ModelVersion v;
     dv_UserID := dv_UserID v; dv_OrgTag := dv_OrgTag v;
     dv_IsPublic := dv_IsPublic v |}.

(** The rows of one insert get consecutive keys from the counter of the
    table. *)
Fixpoint number_from (next : Z) (vs : list DocumentVector) : list DocumentVector :=
  match vs with
  | [] => []
  | v :: vs' => with_vector_id next v :: number_from (next + 1) vs'
  end.

Definition insert_vectors (vs : list DocumentVector) (w : world) : world :=
  set_document_vectors
    (document_vectors w ++ number_from (next_vector_id w) vs)
    (next_vector_id w + slen vs) w.

Definition delete_vectors (fileMD5 : string) (w : world) : world :=
  set_document_vectors
    (List.filter (fun v => negb (String.eqb (dv_FileMD5 v) fileMD5))
                 (document_vectors w))
    (next_vector_id w) w.

Definition delete_chunk_info (fileMD5 : string) (w : world) : world :=
  set_chunk_info
    (List.filter (fun c => negb (String.eqb (ci_FileMD5 c) fileMD5)) (chunk_info w)) w.

Definition delete_upload (fileMD5 : string) (userID : Z) (w : world) : world :=
  set_file_upload
    (List.filter (fun r => negb (upload_matches fileMD5 userID r)) (file_upload w)) w.

(** *** The object store *)

Fixpoint gather (names : list string) (b : gmap string string) : option string :=
  match names with
  | [] => Some ""
  | n :: names' =>
    match b !! n, gather names' b with
    | Some content, Some rest => Some (content +:+ rest)
    | _, _ => None
    end
  end.

End Store.

(** ** internal/handler: the search endpoint *)

Module SearchHandler.
Import Go Model.

(** What the handler reads of a request: the [query] parameter (empty when
    absent), the [topK] parameter when present, and the user the
    authentication middleware stored in the context. *)
Record request := {
  param_query : string;
  param_topK : option string;
  ctx_user : option User
}.

(** [c.JSON(status, body)]. *)
Inductive body : Type :=
| BError (msg : string)
| BData (code : Z) (data : list SearchResponseDTO) (message : string).

Record response := { status : Z; payload : body }.

Definition StatusOK : Z := 200.
Definition StatusBadRequest : Z := 400.
Definition StatusInternalServerError : Z := 500.

(** The [topK] the handler settles on. *)
Definition parse_topK (param : option string) : Z :=
  let topKStr := default "10" param in
  match Atoi topKStr with
  | Err _ => 10
  | Ok topK => if topK <=? 0 then 10 else topK
  end.

(** The handler [HybridSearch]; [searchService] is the service
    behind the interface. *)
Definition HybridSearch
    (searchService : string → Z → User → result (list SearchResponseDTO))
    (c : request) : response :=
  let query := param_query c in
  if String.eqb query "" then
    {| status := StatusBadRequest; payload := BError "无效的查询参数" |}
  else
    let topK := parse_topK (param_topK c) in
    match ctx_user c with
    | None =>
      {| status := StatusInternalServerError; payload := BError "无法获取用户信息" |}
    | Some user =>
      match searchService query topK user with
      | Err _ =>
        {| status := StatusInternalServerError; payload := BError "搜索失败" |}
      | Ok results =>
        {| status := StatusOK; payload := BData 200 results "success" |}
      end
    end.

End SearchHandler.

(** ** internal/service: the context block of a chat turn *)

Module ChatService.
Import Go Model.

Definition maxSnippetLen : Z := 1000.

Definition newline : string := String (ascii_of 10) EmptyString.

(** The body of the loop of [buildContextText] for the hit at index [i]. *)
Definition context_line (i : Z) (r : SearchResponseDTO) : string :=
  let snippet := dto_TextContent r in
  let snippet :=
    if len snippet >? maxSnippetLen
    then str_take snippet maxSnippetLen +:+ "…"
    else snippet in
  let fileLabel := dto_FileName r in
  let fileLabel := if String.eqb fileLabel "" then "unknown" else fileLabel in
  "[" +:+ itoa (i + 1) +:+ "] (" +:+ fileLabel +:+ ") " +:+ snippet +:+ newline.

Fixpoint context_lines (i : Z) (searchResults : list SearchResponseDTO) : string :=
  match searchResults with
  | [] => ""
  | r :: rest => context_line i r +:+ context_lines (i + 1) rest
  end.

(** [buildContextText]. *)
Definition buildContextText (searchResults : list SearchResponseDTO) : string :=
  match searchResults with
  | [] => ""
  | _ => context_lines 0 searchResults
  end.

(** The snippet as the design document words it: the chunk text cut at
    1000 code points, with an ellipsis when something was cut. *)
Definition spec_snippet (text : string) : string :=
  let runes := runes_of text in
  if slen runes >? maxSnippetLen
  then string_of_runes (take (Z.to_nat maxSnippetLen) runes) +:+ "…"
  else text.

Definition spec_line (i : Z) (r : SearchResponseDTO) : string :=
  let fileLabel := if String.eqb (dto_FileName r) "" then "unknown" else dto_FileName r in
  "[" +:+ itoa (i + 1) +:+ "] (" +:+ fileLabel +:+ ") "
      +:+ spec_snippet (dto_TextContent r) +:+ newline.

End ChatService.

(** ** Conversation history ([internal/repository/conversation_repository.go],
    [chat_service.go], [conversation_service.go]) *)

Module Conversation.
Import Go Model.



(** A key with the seconds it has left to live. *)
Record entry (A : Type) := { content : A; ttl : Z }.
Arguments content {A} _.
Arguments ttl {A} _.


(** The calls on the cache that can fail. *)
Record faults := { get_fails : bool; set_fails : bool }.








End Conversation.

(** ** internal/service: merging the uploaded parts *)

Module UploadService.
Import Go Model Store.

Definition DefaultChunkSize : Z := 5 * 1024 * 1024.

(** [calculateTotalChunks]: the quotient is the one of [float64], so above
    2^53 bytes the result can differ from the ceiling of the exact
    quotient. *)
Definition calculateTotalChunks (totalSize : Z) : Z :=
  if totalSize =? 0 then 0
  else int_of_float64
         (math_Ceil (float64_div (float64_of_int totalSize)
                                 (float64_of_int DefaultChunkSize))).

Definition getRedisUploadKey (fileMD5 : string) (userID : Z) : string :=
  "upload:" +:+ itoa userID +:+ ":" +:+ fileMD5.

(** The collaborators that can fail during a merge. *)
Record faults := {
  db_read_fails : bool;
  redis_fails : bool;
  object_store_fails : bool;
  db_update_fails : bool;
  presign_fails : bool;
  produce_fails : bool
}.

(** [GetFileUploadRecord]. *)
Definition GetFileUploadRecord (f : faults) (fileMD5 : string) (userID : Z)
    (w : world) : result FileUpload :=
  if db_read_fails f then Err "database error"
  else match first_upload fileMD5 userID w with
       | Some record => Ok record
       | None => Err "record not found"
       end.

(** The test of the loop of [GetUploadedChunksFromRedis]. *)
Definition bit_set (bitmap : list Z) (i : Z) : bool :=
  let byteIndex := Z.quot i 8 in
  let bitIndex := Z.rem i 8 in
  (byteIndex <? slen bitmap)
  && (Z.land (Z.shiftr (nth (Z.to_nat byteIndex) bitmap 0) (7 - bitIndex)) 1 =? 1).

(** [GetUploadedChunksFromRedis]. *)
Definition GetUploadedChunksFromRedis (f : faults) (fileMD5 : string)
    (userID totalChunks : Z) (w : world) : result (list Z) :=
  if totalChunks =? 0 then Ok []
  else if redis_fails f then Err "redis error"
  else match rdb w !! getRedisUploadKey fileMD5 userID with
       | None => Ok []
       | Some e =>
         Ok (List.filter (bit_set (bytes_of (value e))) (seqZ 0 totalChunks))
       end.

Definition part_name (fileMD5 : string) (i : Z) : string :=
  "chunks/" +:+ fileMD5 +:+ "/" +:+ itoa i.

(** [MinioClient.CopyObject]: the source has to exist. *)
Definition copy_object (f : faults) (dst src : string) (w : world)
    : result unit * world :=
  let w := logged (CopyObject dst src) w in
  if object_store_fails f then (Err "object store error", w)
  else match bucket w !! src with
       | None => (Err "The specified key does not exist.", w)
       | Some content => (Ok (), set_bucket (<[dst := content]> (bucket w)) w)
       end.

(** The limits of the client library of the object store. *)
Definition absMinPartSize : Z := 1024 * 1024 * 5.
Definition maxPartsCount : Z := 10000.
Definition maxMultipartPutObjectSize : Z := 1024 * 1024 * 1024 * 1024 * 5.

(** [partsRequired]: the number of parts a source of the given size is
    copied in. *)
Definition partsRequired (size : Z) : Z :=
  let maxPartSize := maxMultipartPutObjectSize / (maxPartsCount - 1) in
  let r := size / maxPartSize in
  if 0 <? size mod maxPartSize then r + 1 else r.

(** The loop of [ComposeObject] over its sources, before anything is
    written: source [i] of [n] has to exist, to hold at least
    [absMinPartSize] bytes unless it is the last one, and to keep the total
    size and the number of parts within the limits. *)
Fixpoint compose_sources (b : gmap string string) (n i : Z) (srcs : list string)
    (totalSize totalParts : Z) : result unit :=
  match srcs with
  | [] => Ok ()
  | src :: srcs' =>
    match b !! src with
    | None => Err "The specified key does not exist."
    | Some content =>
      let srcCopySize := len content in
      if (srcCopySize <? absMinPartSize) && (i <? n - 1)
      then Err ("CopySrcOptions " +:+ itoa i +:+ " is too small ("
                +:+ itoa srcCopySize +:+ ") and it is not the last part.")
      else
        let totalSize := totalSize + srcCopySize in
        if maxMultipartPutObjectSize <? totalSize
        then Err ("Cannot compose an object of size " +:+ itoa totalSize
                  +:+ " (> 5TiB)")
        else
          let totalParts := totalParts + partsRequired srcCopySize in
          if maxPartsCount <? totalParts
          then Err ("Your proposed compose object requires more than "
                    +:+ itoa maxPartsCount +:+ " parts")
          else compose_sources b n (i + 1) srcs' totalSize totalParts
    end
  end.

(** [MinioClient.ComposeObject]: between 1 and 10000 sources, which pass
    the checks of [compose_sources]; the destination is their concatenation
    in the order given. *)
Definition compose_object (f : faults) (dst : string) (srcs : list string)
    (w : world) : result unit * world :=
  let w := logged (ComposeObject dst srcs) w in
  if object_store_fails f then (Err "object store error", w)
  else if (slen srcs <? 1) || (maxPartsCount <? slen srcs)
  then (Err "There must be as least one and up to 10000 source objects.", w)
  else match compose_sources (bucket w) (slen srcs) 0 srcs 0 0 with
       | Err e => (Err e, w)
       | Ok _ =>
         match gather srcs (bucket w) with
         | None => (Err "The specified key does not exist.", w)
         | Some content => (Ok (), set_bucket (<[dst := content]> (bucket w)) w)
         end
       end.

(** [kafka.ProduceFileTask]. *)
Definition produce (f : faults) (task : FileProcessingTask) (w : world)
    : result unit * world :=
  let w := logged (WriteMessages task) w in
  if produce_fails f then (Err "kafka error", w)
  else (Ok (), set_topic (topic w ++ [task]) w).

(** [MergeChunks], up to its return.  [presign] stands for the URL
    signer of the object store.  The goroutine started before the return
    is [cleanup] below. *)
Definition MergeChunks (f : faults) (presign : string → string)
    (fileMD5 fileName : string) (userID : Z) (w : world)
    : result string * world :=
  match GetFileUploadRecord f fileMD5 userID w with
  | Err e => (Err e, w)
  | Ok record =>
    let totalChunks := calculateTotalChunks (fu_TotalSize record) in
    match GetUploadedChunksFromRedis f fileMD5 userID totalChunks w with
    | Err e => (Err ("failed to get uploaded chunks from redis: " +:+ e), w)
    | Ok uploadedIndexes =>
      if slen uploadedIndexes <? totalChunks then
        (Err ("分片未全部上传，无法合并 (期望: " +:+ itoa totalChunks
              +:+ ", 实际: " +:+ itoa (slen uploadedIndexes) +:+ ")"), w)
      else
        let destObjectName := "merged/" +:+ fileName in
        let '(merged, w) :=
          if totalChunks =? 1 then
            match copy_object f destObjectName (part_name fileMD5 0) w with
            | (Err e, w) => (Err ("failed to copy single chunk object: " +:+ e), w)
            | (Ok u, w) => (Ok u, w)
            end
          else
            compose_object f destObjectName
              (map (part_name fileMD5) (seqZ 0 totalChunks)) w in
        match merged with
        | Err e => (Err e, w)
        | Ok _ =>
          if db_update_fails f then (Err "database error", w)
          else
            let w := update_status (fu_ID record) 1 w in
            let objectURL := if presign_fails f then "" else presign destObjectName in
            let task :=
              {| task_FileMD5 := fileMD5; task_ObjectUrl := objectURL;
                 task_FileName := fileName; task_UserID := userID;
                 task_OrgTag := fu_OrgTag record;
                 task_IsPublic := fu_IsPublic record |} in
            let '(_, w) := produce f task w in
            (Ok objectURL, w)
        end
    end
  end.


(** [CheckFile]: a missing record is not an error. *)
Definition CheckFile (f : faults) (fileMD5 : string) (userID : Z) (w : world)
    : result (bool * list Z) :=
  if db_read_fails f then Err "database error"
  else match first_upload fileMD5 userID w with
       | None => Ok (false, [])
       | Some record =>
         if fu_Status record =? 1 then Ok (true, [])
         else
           let totalChunks := calculateTotalChunks (fu_TotalSize record) in
           match GetUploadedChunksFromRedis f fileMD5 userID totalChunks w with
           | Err e => Err e
           | Ok uploadedIndexes => Ok (false, uploadedIndexes)
           end
       end.

(** [FastUpload]. *)
Definition FastUpload (f : faults) (fileMD5 : string) (userID : Z) (w : world)
    : result bool :=
  if db_read_fails f then Err "database error"
  else match first_upload fileMD5 userID w with
       | None => Ok false
       | Some record => Ok (fu_Status record =? 1)
       end.

(** The bitmap stored under the upload key, empty when there is none. *)
Definition stored_bitmap (fileMD5 : string) (userID : Z) (w : world) : list Z :=
  match rdb w !! getRedisUploadKey fileMD5 userID with
  | Some e => bytes_of (value e)
  | None => []
  end.

(** [GETBIT] of the cache: bit 0 is the most significant bit of the first
    byte; beyond the end of the value every bit is 0. *)
Definition redis_getbit (bitmap : list Z) (offset : Z) : Z :=
  let byte := Z.shiftr offset 3 in
  let bit := 7 - Z.land offset 7 in
  if byte <? slen bitmap
  then Z.land (Z.shiftr (nth (Z.to_nat byte) bitmap 0) bit) 1
  else 0.

(** [SETBIT key offset 1]: the value grows by zero bytes up to the byte of
    the bit. *)
Definition redis_setbit (bitmap : list Z) (offset : Z) : list Z :=
  let byte := Z.to_nat (Z.shiftr offset 3) in
  let bit := 7 - Z.land offset 7 in
  let padded := bitmap ++ repeat 0 (S byte - List.length bitmap) in
  <[byte := Z.lor (nth byte padded 0) (Z.shiftl 1 bit)]> padded.

(** The offsets the cache accepts. *)
Definition bit_offset_ok (offset : Z) : bool := (0 <=? offset) && (offset <? 2 ^ 32).

(** [IsChunkUploaded]. *)
Definition IsChunkUploaded (f : faults) (fileMD5 : string) (userID chunkIndex : Z)
    (w : world) : result bool :=
  if redis_fails f then Err "redis error"
  else if negb (bit_offset_ok chunkIndex)
  then Err "ERR bit offset is not an integer or out of range"
  else Ok (redis_getbit (stored_bitmap fileMD5 userID w) chunkIndex =? 1).

(** [MarkChunkUploaded]. *)
Definition MarkChunkUploaded (f : faults) (fileMD5 : string) (userID chunkIndex : Z)
    (w : world) : result unit * world :=
  if redis_fails f then (Err "redis error", w)
  else if negb (bit_offset_ok chunkIndex)
  then (Err "ERR bit offset is not an integer or out of range", w)
  else
    let key := getRedisUploadKey fileMD5 userID in
    let bitmap := redis_setbit (stored_bitmap fileMD5 userID w) chunkIndex in
    (Ok (), set_rdb (<[key := {| value := string_of_bytes bitmap;
                                 ttl := rdb w !! key ≫= ttl |}]> (rdb w)) w).

End UploadService.

(** ** pkg/kafka: the consumer of processing tasks *)

Module Kafka.
Import Go Model Store.

(** A fetched [kafka.Message]. *)
Record message := { Offset : Z; Value : string }.

(** The calls on the counter store that can fail. *)
Record faults := {
  incr_fails : bool;
  expire_fails : bool;
  del_fails : bool
}.

Definition attemptsKey (fileMD5 : string) : string :=
  "kafka:attempts:" +:+ fileMD5.

(** [24*time.Hour], in seconds. *)
Definition day : Z := 24 * 3600.

Definition Incr (f : faults) (key : string) (w : world) : result Z * world :=
  if incr_fails f then (Err "redis error", w)
  else match redis_incr key (rdb w) with
       | Err e => (Err e, w)
       | Ok (n, db) => (Ok n, set_rdb db w)
       end.

Definition Expire (f : faults) (key : string) (seconds : Z) (w : world) : world :=
  if expire_fails f then w else set_rdb (redis_expire key seconds (rdb w)) w.

Definition Del (f : faults) (key : string) (w : world) : world :=
  if del_fails f then w else set_rdb (delete key (rdb w)) w.

(** The body of the loop of [StartConsumer] for one fetched message:
    [parsed] is what [json.Unmarshal] made of its value and [Process] the
    processor behind the interface.  An error of [CommitMessages] is only
    logged. *)
Definition consume (f : faults)
    (Process : FileProcessingTask → world → result unit * world)
    (m : message) (parsed : result FileProcessingTask) (w : world) : world :=
  match parsed with
  | Err _ => logged (CommitMessages (Offset m)) w
  | Ok task =>
    match Process task w with
    | (Err _, w) =>
      let key := attemptsKey (task_FileMD5 task) in
      match Incr f key w with
      | (Err _, w) => w
      | (Ok attempts, w) =>
        let w := Expire f key day w in
        if attempts >=? 3 then logged (CommitMessages (Offset m)) w else w
      end
    | (Ok _, w) =>
      let w := Del f (attemptsKey (task_FileMD5 task)) w in
      logged (CommitMessages (Offset m)) w
    end
  end.

(** The offsets the consumer has acknowledged. *)
Definition acknowledged (offset : Z) (w : world) : Prop :=
  CommitMessages offset ∈ log w.

End Kafka.

(** ** internal/service: deleting a document *)

Module DocumentService.
Import Go Model Store.

Record faults := {
  db_read_fails : bool;
  remove_object_fails : bool;
  delete_chunk_info_fails : bool;
  delete_vectors_fails : bool;
  delete_upload_fails : bool
}.

Definition GetFileUploadRecord (f : faults) (fileMD5 : string) (userID : Z)
    (w : world) : result FileUpload :=
  if db_read_fails f then Err "database error"
  else match first_upload fileMD5 userID w with
       | Some record => Ok record
       | None => Err "record not found"
       end.

(** [DeleteFileUploadRecord]: the three deletions are tried in turn and
    their errors joined. *)
Definition DeleteFileUploadRecord (f : faults) (fileMD5 : string) (userID : Z)
    (w : world) : result unit * world :=
  let '(errs, w) :=
    if delete_chunk_info_fails f then (["chunk_info"], w)
    else ([], delete_chunk_info fileMD5 w) in
  let '(errs, w) :=
    if delete_vectors_fails f then (errs ++ ["document_vectors"], w)
    else (errs, delete_vectors fileMD5 w) in
  let '(errs, w) :=
    if delete_upload_fails f then (errs ++ ["file_upload"], w)
    else (errs, delete_upload fileMD5 userID w) in
  if slen errs >? 0
  then (Err ("删除文件记录部分失败（fileMD5=" +:+ fileMD5 +:+ ", userID="
             +:+ itoa userID +:+ "）: " +:+ String.concat (String (ascii_of 10) EmptyString) errs), w)
  else (Ok (), w).

(** [MinioClient.RemoveObject]. *)
Definition remove_object (f : faults) (name : string) (w : world)
    : result unit * world :=
  let w := logged (RemoveObject name) w in
  if remove_object_fails f then (Err "object store error", w)
  else (Ok (), set_bucket (delete name (bucket w)) w).

(** [DeleteDocument]. *)
Definition DeleteDocument (f : faults) (fileMD5 : string) (user : User)
    (w : world) : result unit * world :=
  match GetFileUploadRecord f fileMD5 (user_ID user) w with
  | Err _ => (Err "文件不存在或不属于该用户", w)
  | Ok record =>
    if negb (fu_UserID record =? user_ID user)
       && negb (String.eqb (user_Role user) "ADMIN")
    then (Err "没有权限删除此文件", w)
    else
      let objectName := "merged/" +:+ fu_FileName record in
      let '(_, w) := remove_object f objectName w in
      DeleteFileUploadRecord f fileMD5 (fu_UserID record) w
  end.

(** [FindAccessibleFiles]: [status = 1 AND (user_id = ? OR is_public = true
    OR (org_tag IN ? AND is_public = true))]. *)
Definition FindAccessibleFiles (userID : Z) (orgTags : list string) (w : world)
    : list FileUpload :=
  List.filter
    (fun r => (fu_Status r =? 1)
              && ((fu_UserID r =? userID)
                  || Bool.eqb (fu_IsPublic r) true
                  || (bool_decide (fu_OrgTag r ∈ orgTags)
                      && Bool.eqb (fu_IsPublic r) true)))
    (file_upload w).

(** [ListAccessibleFiles]. *)
Definition ListAccessibleFiles (user : User) (w : world) : list FileUpload :=
  FindAccessibleFiles (user_ID user) (Split (user_OrgTags user) ",") w.

End DocumentService.

(** ** internal/pipeline: splitting, storing and indexing a file *)

Module Pipeline.
Import Go Model Store.

(** The loop of [splitText]: [for i := 0; i < len(runes); i += step]. *)
Fixpoint splitText_loop (fuel : nat) (runes : list Z) (chunkSize step : Z)
    (i : Z) (chunks : list string) : outcome (list string) :=
  match fuel with
  | O => Timeout
  | S fuel' =>
    if i <? slen runes then
      let end_ := wrap64 (i + chunkSize) in
      let end_ := if end_ >? slen runes then slen runes else end_ in
      match slice runes i end_ with
      | None => Panic
      | Some window =>
        let chunks := chunks ++ [string_of_runes window] in
        if end_ =? slen runes then Ret chunks
        else splitText_loop fuel' runes chunkSize step (wrap64 (i + step)) chunks
      end
    else Ret chunks
  end.

(** The loop of [simpleSplit]: the same without the early exit. *)
Fixpoint simpleSplit_loop (fuel : nat) (runes : list Z) (chunkSize : Z)
    (i : Z) (chunks : list string) : outcome (list string) :=
  match fuel with
  | O => Timeout
  | S fuel' =>
    if i <? slen runes then
      let end_ := wrap64 (i + chunkSize) in
      let end_ := if end_ >? slen runes then slen runes else end_ in
      match slice runes i end_ with
      | None => Panic
      | Some window =>
        simpleSplit_loop fuel' runes chunkSize (wrap64 (i + chunkSize))
          (chunks ++ [string_of_runes window])
      end
    else Ret chunks
  end.

Definition simpleSplit (fuel : nat) (text : string) (chunkSize : Z)
    : outcome (list string) :=
  let runes := runes_of text in
  if slen runes =? 0 then Ret []
  else simpleSplit_loop fuel runes chunkSize 0 [].

Definition splitText (fuel : nat) (text : string) (chunkSize chunkOverlap : Z)
    : outcome (list string) :=
  if chunkSize <=? chunkOverlap then simpleSplit fuel text chunkSize
  else
    let runes := runes_of text in
    if slen runes =? 0 then Ret []
    else
      let step := wrap64 (chunkSize - chunkOverlap) in
      splitText_loop fuel runes chunkSize step 0 [].

(** The windows the two loops cut, as a function of the code points that
    are left: one window of at most [size] code points per round, the next
    round [step] code points further, no round after a window that reached
    the end.  [rounds] bounds the number of rounds. *)
Fixpoint windows {A} (rounds size step : nat) (l : list A) : list (list A) :=
  match rounds with
  | O => []
  | S rounds' =>
    match l with
    | [] => []
    | _ =>
      take size l ::
        (if decide (List.length l ≤ size)%nat then []
         else windows rounds' size step (drop step l))
    end
  end.

(** The collaborators that can fail while a task is processed; the
    indexer by the id of the document it is given. *)
Record faults := {
  get_object_fails : bool;
  read_fails : bool;
  delete_fails : bool;
  batch_create_fails : bool;
  find_fails : bool;
  index_fails : string → bool
}.

Section Process.
(** The extractor (content and file name to text), the embedder and the
    configured model name. *)
Variable ExtractText : string → string → result string.
Variable CreateEmbedding : string → result (list float32).
Variable embeddingCfg_Model : string.
Variable f : faults.

(** [es.IndexDocument]: the document is stored under its [VectorID]; a
    document already there is replaced. *)
Definition IndexDocument (doc : EsDocument) (w : world) : result unit * world :=
  if index_fails f (es_VectorID doc) then (Err "failed to index document", w)
  else (Ok (), set_index (<[es_VectorID doc := doc]> (index w)) w).

Definition esDoc_of (docVector : DocumentVector) (vector : list float32)
    : EsDocument :=
  {| es_VectorID := dv_FileMD5 docVector +:+ "_" +:+ itoa (dv_ChunkID docVector);
     es_FileMD5 := dv_FileMD5 docVector;
     es_ChunkID := dv_ChunkID docVector;
     es_TextContent := dv_TextContent docVector;
     es_Vector := vector;
     es_ModelVersion := embeddingCfg_Model;
     es_UserID := dv_UserID docVector;
     es_OrgTag := dv_OrgTag docVector;
     es_IsPublic := dv_IsPublic docVector |}.

(** The document a saved row is indexed as when the embedder answers. *)
Definition doc_of (docVector : DocumentVector) : EsDocument :=
  esDoc_of docVector
    (match CreateEmbedding (dv_TextContent docVector) with
     | Ok vector => vector
     | Err _ => []
     end).

(** Step 4 of [Process]: embed and index the saved rows in turn, stopping
    at the first error. *)
Fixpoint index_all (savedVectors : list DocumentVector) (w : world)
    : result unit * world :=
  match savedVectors with
  | [] => (Ok (), w)
  | docVector :: rest =>
    match CreateEmbedding (dv_TextContent docVector) with
    | Err e =>
      (Err ("块 " +:+ itoa (dv_ChunkID docVector) +:+ " 向量化失败: " +:+ e), w)
    | Ok vector =>
      match IndexDocument (esDoc_of docVector vector) w with
      | (Err e, w) =>
        (Err ("索引块 " +:+ itoa (dv_ChunkID docVector)
              +:+ " 到 Elasticsearch 失败: " +:+ e), w)
      | (Ok _, w) => index_all rest w
      end
    end
  end.

Definition dbVectors_of (task : FileProcessingTask) (chunks : list string)
    : list DocumentVector :=
  imap (fun i chunk =>
          {| dv_VectorID := 0;
             dv_FileMD5 := task_FileMD5 task;
             dv_ChunkID := Z.of_nat i;
             dv_TextContent := chunk;
             dv_ModelVersion := "";
             dv_UserID := task_UserID task;
             dv_OrgTag := task_OrgTag task;
             dv_IsPublic := task_IsPublic task |}) chunks.

(** [DocumentVectorRepository.BatchCreate]. *)
Definition BatchCreate (vectors : list DocumentVector) (w : world)
    : result unit * world :=
  if slen vectors =? 0 then (Ok (), w)
  else if batch_create_fails f then (Err "database error", w)
  else (Ok (), insert_vectors vectors w).

(** Reading the stream of a fetched object: the request goes out with the
    first read, so an object that is not there fails here. *)
Definition read_object (objectName : string) (w : world) : result string :=
  if read_fails f then Err "object store error"
  else match bucket w !! objectName with
       | None => Err "The specified key does not exist."
       | Some content => Ok content
       end.

(** [Process]. *)
Definition Process (fuel : nat) (task : FileProcessingTask) (w : world)
    : outcome (result unit * world) :=
  let objectName := "merged/" +:+ task_FileName task in
  if get_object_fails f
  then Ret (Err ("从 MinIO 下载文件失败: " +:+ "object store error"), w)
  else
  match read_object objectName w with
  | Err e => Ret (Err ("读取MinIO对象流失败: " +:+ e), w)
  | Ok content =>
    if len content =? 0 then Ret (Err "文件内容为空", w)
    else
      match ExtractText content (task_FileName task) with
      | Err e => Ret (Err ("使用 Tika 提取文本失败: " +:+ e), w)
      | Ok textContent =>
        if String.eqb textContent "" then Ret (Err "提取的文本内容为空", w)
        else
          match splitText fuel textContent 1000 100 with
          | Panic => Panic
          | Timeout => Timeout
          | Ret chunks =>
            if slen chunks =? 0 then Ret (Err "未生成任何文本分块", w)
            else
              let w := if delete_fails f then w
                       else delete_vectors (task_FileMD5 task) w in
              let dbVectors := dbVectors_of task chunks in
              match BatchCreate dbVectors w with
              | (Err e, w) => Ret (Err ("批量保存文本分块失败: " +:+ e), w)
              | (Ok _, w) =>
                if find_fails f
                then Ret (Err ("从数据库读取分块失败: " +:+ "database error"), w)
                else
                  let savedVectors := vectors_of (task_FileMD5 task) w in
                  Ret (index_all savedVectors w)
              end
          end
      end
  end.

End Process.

End Pipeline.

(** ** Sample data *)

Module Sample.
Import Go Model.

Definition tag (id : string) (parent : option string) : OrganizationTag :=
  {| tag_TagID := id; tag_Name := id; tag_Description := "";
     tag_ParentTag := parent; tag_CreatedBy := 1 |}.

(** A child tag under a parent tag, and a tag of its own. *)
Definition tags : list OrganizationTag :=
  [tag "T_child" (Some "T_parent"); tag "T_parent" None; tag "T_unrelated" None].

Definition user (id : Z) (role orgTags : string) : User :=
  {| user_ID := id; user_Username := "u" +:+ itoa id; user_Role := role;
     user_OrgTags := orgTags; user_PrimaryOrg := "" |}.

Definition U1 : User := user 1 "USER" "T_child".
Definition U2 : User := user 2 "USER" "T_unrelated".
Definition admin : User := user 9 "ADMIN" "".

(** A search result with the given file name and chunk text. *)
Definition result_of (fileName text : string) : SearchResponseDTO :=
  {| dto_FileMD5 := "d41d8cd98f00b204e9800998ecf8427e"; dto_FileName := fileName;
     dto_ChunkID := 0; dto_TextContent := text; dto_Score := 1;
     dto_UserID := "1"; dto_OrgTag := "T_child"; dto_IsPublic := false |}.

(** [n] times the Han character U+4E2D, three bytes each. *)
Definition han (n : nat) : string := string_of_runes (repeat 20013 n).

(** Collaborators of the search service: the lower-case mapping and the
    Han class restricted to the basic block, a user service that answers
    with the effective tags of [U1], an embedder whose vector is the bytes
    of its input, an indexer without hits and an empty upload table. *)
Definition lower (r : Z) : Z := r.
Definition han_script (r : Z) : bool := (19968 <=? r) && (r <=? 40959).
Definition effective (u : User) : result (list string) := Ok ["T_child"; "T_parent"].
Definition embed (text : string) : result (list float32) := Ok (bytes_of text).
Definition no_hits (n : nat) (body : SearchService.value) : SearchService.es_reply :=
  SearchService.EsHits [].
Definition no_files (md5s : list string) : result (list FileUpload) := Ok [].

(** The question of the fallback scenario and the body it is searched
    with. *)
Definition question : string := "XX 是什么？".
Definition question_body : SearchService.value :=
  SearchService.esQuery_of (bytes_of question) 10 U1 ["T_child"; "T_parent"] "xx" "xx".

(** A private document of another user under the parent tag. *)
Definition parent_doc : EsDocument :=
  {| es_VectorID := "d41d8cd98f00b204e9800998ecf8427e_0";
     es_FileMD5 := "d41d8cd98f00b204e9800998ecf8427e"; es_ChunkID := 0;
     es_TextContent := "xx"; es_Vector := []; es_ModelVersion := "m";
     es_UserID := 3; es_OrgTag := "T_parent"; es_IsPublic := false |}.

(** A world without rows, keys, objects, documents or messages. *)
Definition empty_world : Store.world :=
  {| Store.file_upload := []; Store.chunk_info := []; Store.document_vectors := [];
     Store.next_vector_id := 1; Store.rdb := ∅; Store.bucket := ∅; Store.index := ∅;
     Store.topic := []; Store.log := [] |}.

Definition md5 : string := "d41d8cd98f00b204e9800998ecf8427e".

Definition task : FileProcessingTask :=
  {| task_FileMD5 := md5; task_ObjectUrl := ""; task_FileName := "guide.txt";
     task_UserID := 1; task_OrgTag := "T_child"; task_IsPublic := false |}.

(** The message of the task at offset 7, a processor that always fails, and
    a counter store that works. *)
Definition message : Kafka.message := {| Kafka.Offset := 7; Kafka.Value := "" |}.
Definition failing (t : FileProcessingTask) (w : Store.world)
    : result unit * Store.world := (Err "boom", w).
Definition counter_up : Kafka.faults :=
  {| Kafka.incr_fails := false; Kafka.expire_fails := false; Kafka.del_fails := false |}.

(** The world after the task was delivered twice and failed twice. *)
Definition two_failures : Store.world :=
  Kafka.consume counter_up failing message (Ok task)
    (Kafka.consume counter_up failing message (Ok task) empty_world).

(** An upload of 6 MiB, two parts, both received, of two bytes each; the
    queue is down. *)
Definition upload : FileUpload :=
  {| fu_ID := 5; fu_FileMD5 := md5; fu_FileName := "guide.txt";
     fu_TotalSize := 6 * 1024 * 1024; fu_Status := 0; fu_UserID := 1;
     fu_OrgTag := "T_child"; fu_IsPublic := false |}.

Definition merge_world : Store.world :=
  {| Store.file_upload := [upload]; Store.chunk_info := [];
     Store.document_vectors := []; Store.next_vector_id := 1;
     Store.rdb := {[ UploadService.getRedisUploadKey md5 1 :=
                      {| Store.value := string_of_bytes [192]; Store.ttl := None |} ]};
     Store.bucket := {[ UploadService.part_name md5 0 := "AB";
                        UploadService.part_name md5 1 := "CD" ]};
     Store.index := ∅; Store.topic := []; Store.log := [] |}.

(** The same upload with parts as the client slices them: a first part of
    [DefaultChunkSize] bytes and the rest of the file. *)
Definition full_part : string :=
  string_of_bytes (repeat 65 (Z.to_nat UploadService.DefaultChunkSize)).

Definition sliced_world : Store.world :=
  Store.set_bucket {[ UploadService.part_name md5 0 := full_part;
                      UploadService.part_name md5 1 := "CD" ]} merge_world.

Definition queue_down : UploadService.faults :=
  {| UploadService.db_read_fails := false; UploadService.redis_fails := false;
     UploadService.object_store_fails := false; UploadService.db_update_fails := false;
     UploadService.presign_fails := false; UploadService.produce_fails := true |}.

Definition presign (name : string) : string := "https://minio/" +:+ name.

(** An upload of two bytes whose one part was received, and stores that
    all work. *)
Definition note : FileUpload :=
  {| fu_ID := 6; fu_FileMD5 := md5; fu_FileName := "note.txt";
     fu_TotalSize := 2; fu_Status := 0; fu_UserID := 1;
     fu_OrgTag := "T_child"; fu_IsPublic := false |}.

Definition note_world : Store.world :=
  {| Store.file_upload := [note]; Store.chunk_info := [];
     Store.document_vectors := []; Store.next_vector_id := 1;
     Store.rdb := {[ UploadService.getRedisUploadKey md5 1 :=
                      {| Store.value := string_of_bytes [128]; Store.ttl := Some 3600 |} ]};
     Store.bucket := {[ UploadService.part_name md5 0 := "AB" ]};
     Store.index := ∅; Store.topic := []; Store.log := [] |}.

Definition all_up : UploadService.faults :=
  {| UploadService.db_read_fails := false; UploadService.redis_fails := false;
     UploadService.object_store_fails := false; UploadService.db_update_fails := false;
     UploadService.presign_fails := false; UploadService.produce_fails := false |}.

(** A processed document of [U1]: its upload row, a part row, a chunk row,
    the merged object and the entry of the chunk in the index. *)
Definition chunk_row : DocumentVector :=
  {| dv_VectorID := 1; dv_FileMD5 := md5; dv_ChunkID := 0; dv_TextContent := "xx";
     dv_ModelVersion := ""; dv_UserID := 1; dv_OrgTag := "T_child";
     dv_IsPublic := false |}.

Definition chunk_doc : EsDocument :=
  {| es_VectorID := md5 +:+ "_0"; es_FileMD5 := md5; es_ChunkID := 0;
     es_TextContent := "xx"; es_Vector := bytes_of "xx"; es_ModelVersion := "m";
     es_UserID := 1; es_OrgTag := "T_child"; es_IsPublic := false |}.

Definition stored_world : Store.world :=
  {| Store.file_upload := [Store.with_status 1 upload];
     Store.chunk_info :=
       [{| ci_ID := 1; ci_FileMD5 := md5; ci_ChunkIndex := 0; ci_ChunkMD5 := "";
           ci_StoragePath := UploadService.part_name md5 0 |}];
     Store.document_vectors := [chunk_row]; Store.next_vector_id := 2;
     Store.rdb := ∅;
     Store.bucket := {[ "merged/guide.txt" := "xx" ]};
     Store.index := {[ md5 +:+ "_0" := chunk_doc ]};
     Store.topic := []; Store.log := [] |}.

Definition stores_up : DocumentService.faults :=
  {| DocumentService.db_read_fails := false;
     DocumentService.remove_object_fails := false;
     DocumentService.delete_chunk_info_fails := false;
     DocumentService.delete_vectors_fails := false;
     DocumentService.delete_upload_fails := false |}.

(** A merged text file of 1001 Han characters, an extractor that hands the
    text back, the embedder [embed], and stores that work. *)
Definition extract (content fileName : string) : result string := Ok content.

Definition pipeline_up : Pipeline.faults :=
  {| Pipeline.get_object_fails := false; Pipeline.read_fails := false;
     Pipeline.delete_fails := false;
     Pipeline.batch_create_fails := false; Pipeline.find_fails := false;
     Pipeline.index_fails := fun _ => false |}.

(** The same with a table whose rows cannot be deleted. *)
Definition delete_down : Pipeline.faults :=
  {| Pipeline.get_object_fails := false; Pipeline.read_fails := false;
     Pipeline.delete_fails := true;
     Pipeline.batch_create_fails := false; Pipeline.find_fails := false;
     Pipeline.index_fails := fun _ => false |}.

Definition merged_world : Store.world :=
  {| Store.file_upload := [Store.with_status 1 upload]; Store.chunk_info := [];
     Store.document_vectors := [chunk_row]; Store.next_vector_id := 2;
     Store.rdb := ∅; Store.bucket := {[ "merged/guide.txt" := han 1001 ]};
     Store.index := ∅; Store.topic := []; Store.log := [] |}.

Definition process (w : Store.world) : outcome (result unit * Store.world) :=
  Pipeline.Process extract embed "text-embedding-v4" pipeline_up 1002 task w.

(** The world a run leaves behind. *)
Definition after (w : Store.world) : Store.world :=
  match process w with
  | Ret (_, w') => w'
  | _ => w
  end.




End Sample.

(** * Properties *)

(** ** Go primitives *)

Section GoFacts.
Import Go.

Lemma wrap64_small (z : Z) : - 2 ^ 63 <= z <= maxInt → wrap64 z = z.
Proof.
  unfold wrap64, maxInt. intros H.
  rewrite Z.mod_small by lia. lia.
Qed.

Lemma slen_nonneg {A} (l : list A) : 0 <= slen l.
Proof. unfold slen. lia. Qed.

Lemma append_empty_inv (a b : string) : a +:+ b = "" → a = "".
Proof. destruct a; [done | discriminate]. Qed.

Lemma encoderune_nonempty (r : Z) : encoderune r ≠ [].
Proof.
  unfold encoderune.
  repeat (match goal with |- context [if ?c then _ else _] => destruct c end);
    discriminate.
Qed.

Lemma string_of_runes_nonempty (l : list Z) : l ≠ [] → string_of_runes l ≠ "".
Proof.
  destruct l as [|r l]; [done | intros _ H].
  simpl in H. apply append_empty_inv in H.
  pose proof (encoderune_nonempty r) as Hne.
  destruct (encoderune r); [done | discriminate].
Qed.

Lemma runes_of_nonempty (s : string) : s ≠ "" → runes_of s ≠ [].
Proof.
  destruct s as [|c s]; [done | intros _].
  unfold runes_of. cbn [range_runes].
  destruct (decoderune (String c s)). discriminate.
Qed.

Lemma runes_of_empty : runes_of "" = [].
Proof. reflexivity. Qed.

End GoFacts.

(** ** The text splitter *)

Section Splitter.
Import Go Pipeline.

Lemma windows_enough {A} (size step : nat) (l : list A) :
  ∀ m m' : nat, (0 < step)%nat → (List.length l ≤ m)%nat → (List.length l ≤ m')%nat →
    windows m size step l = windows m' size step l.
Proof.
  intros m. revert l.
  induction m as [|m IH]; intros l m' Hstep Hm Hm'.
  - destruct l; [|simpl in Hm; lia]. by destruct m'.
  - destruct m' as [|m'].
    + destruct l; [done | simpl in Hm'; lia].
    + destruct l as [|x l]; [done|]. cbn [windows].
      f_equal. case_decide; [done|].
      apply IH; [done | |]; rewrite length_drop; simpl in *; lia.
Qed.

Lemma windows_lookup {A} (size step : nat) :
  ∀ (m : nat) (l : list A) (k : nat) (w : list A),
    windows m size step l !! k = Some w →
    (k * step < List.length l)%nat ∧ w = take size (drop (k * step) l).
Proof.
  induction m as [|m IH]; intros l k w Hk; [done|].
  destruct l as [|x l]; [done|]. cbn [windows] in Hk.
  destruct k as [|k].
  - simpl in Hk. injection Hk as <-. simpl. split; [lia | done].
  - rewrite lookup_cons_ne_0 in Hk by done. simpl in Hk.
    case_decide as Hlen; [done|].
    apply IH in Hk as [Hlt ->]. rewrite length_drop in Hlt.
    split; [lia|]. rewrite drop_drop. repeat f_equal; lia.
Qed.

Lemma windows_full {A} (size step : nat) :
  ∀ (m : nat) (l : list A) (k : nat),
    (S k < List.length (windows m size step l))%nat →
    (k * step + size < List.length l)%nat.
Proof.
  induction m as [|m IH]; intros l k Hk; [simpl in Hk; lia|].
  destruct l as [|x l]; [simpl in Hk; lia|]. cbn [windows] in Hk.
  case_decide as Hlen; [simpl in Hk; lia|].
  destruct k as [|k]; [lia|].
  cbn [List.length] in Hk. apply Nat.succ_lt_mono in Hk.
  apply IH in Hk. rewrite length_drop in Hk. lia.
Qed.

Lemma windows_cover {A} (size step : nat) :
  (0 < step ≤ size)%nat →
  ∀ (m : nat) (l : list A),
    l ≠ [] → (List.length l ≤ m)%nat →
    windows m size step l ≠ [] ∧
    (List.length l ≤ (List.length (windows m size step l) - 1) * step + size)%nat.
Proof.
  intros Hstep. induction m as [|m IH]; intros l Hne Hm.
  - destruct l; [done | simpl in Hm; lia].
  - destruct l as [|x l]; [done|]. cbn [windows].
    split; [done|]. case_decide as Hlen; [simpl in *; lia|].
    destruct (IH (drop step (x :: l))) as [Hne' Hcov].
    + intros Hnil. apply (f_equal List.length) in Hnil.
      rewrite length_drop in Hnil. simpl in *. lia.
    + rewrite length_drop. simpl in *. lia.
    + rewrite length_drop in Hcov. cbn [List.length].
      destruct (windows m size step (drop step (x :: l))); [done|].
      simpl in *. lia.
Qed.

Section Loops.
Variable runes : list Z.
Variables chunkSize step : Z.
Hypothesis size_pos : 0 < chunkSize.
Hypothesis step_pos : 0 < step.
Hypothesis size_fits : slen runes + chunkSize <= maxInt.
Hypothesis step_fits : slen runes + step <= maxInt.

Lemma slice_window (i : Z) :
  0 <= i < slen runes →
  let end_ := if i + chunkSize >? slen runes then slen runes else i + chunkSize in
  slice runes i end_ = Some (take (Z.to_nat chunkSize) (drop (Z.to_nat i) runes)).
Proof.
  intros Hi end_. unfold slice, slen in *.
  assert (Hend : i <= end_ <= Z.of_nat (List.length runes)).
  { subst end_. destruct (Z.gtb_spec (i + chunkSize) (Z.of_nat (List.length runes))); lia. }
  destruct (Z.leb_spec 0 i); [|lia].
  destruct (Z.leb_spec i end_); [|lia].
  destruct (Z.leb_spec end_ (Z.of_nat (List.length runes))); [|lia].
  cbn [andb]. f_equal. subst end_.
  destruct (Z.gtb_spec (i + chunkSize) (Z.of_nat (List.length runes))).
  - rewrite !take_ge; [done | |]; rewrite length_drop; lia.
  - f_equal. lia.
Qed.

Lemma splitText_loop_windows :
  ∀ (fuel : nat) (i : Z) (chunks : list string),
    0 <= i →
    (List.length (drop (Z.to_nat i) runes) < fuel)%nat →
    splitText_loop fuel runes chunkSize step i chunks =
    Ret (chunks ++ map string_of_runes
           (windows fuel (Z.to_nat chunkSize) (Z.to_nat step)
                    (drop (Z.to_nat i) runes))).
Proof.
  induction fuel as [|fuel IH]; intros i chunks Hi Hfuel; [lia|].
  cbn [splitText_loop].
  destruct (Z.ltb_spec i (slen runes)) as [Hlt | Hge].
  - rewrite (wrap64_small (i + chunkSize)) by (unfold maxInt in *; lia).
    rewrite slice_window by lia.
    rewrite length_drop in Hfuel. unfold slen in *.
    destruct (drop (Z.to_nat i) runes) as [|x l] eqn:Hdrop.
    { apply (f_equal List.length) in Hdrop. rewrite length_drop in Hdrop.
      simpl in Hdrop. lia. }
    assert (Hlen : List.length (x :: l) = (List.length runes - Z.to_nat i)%nat)
      by (rewrite <- Hdrop, length_drop; done).
    cbn [windows].
    destruct (Z.gtb_spec (i + chunkSize) (Z.of_nat (List.length runes))) as [Hgt | Hle].
    + rewrite Z.eqb_refl. rewrite decide_True by lia. done.
    + destruct (Z.eqb_spec (i + chunkSize) (Z.of_nat (List.length runes))) as [Heq | Hneq].
      * rewrite decide_True by lia. done.
      * rewrite decide_False by lia.
        rewrite (wrap64_small (i + step)) by (unfold maxInt in *; lia).
        rewrite IH; [| lia | rewrite length_drop; lia].
        rewrite <- Hdrop, drop_drop, <- Z2Nat.inj_add by lia.
        rewrite <- app_assoc. done.
  - rewrite drop_ge by (unfold slen in *; lia).
    cbn [windows map]. by rewrite app_nil_r.
Qed.

Lemma simpleSplit_loop_windows :
  ∀ (fuel : nat) (i : Z) (chunks : list string),
    0 <= i →
    (List.length (drop (Z.to_nat i) runes) < fuel)%nat →
    simpleSplit_loop fuel runes chunkSize i chunks =
    Ret (chunks ++ map string_of_runes
           (windows fuel (Z.to_nat chunkSize) (Z.to_nat chunkSize)
                    (drop (Z.to_nat i) runes))).
Proof.
  induction fuel as [|fuel IH]; intros i chunks Hi Hfuel; [lia|].
  cbn [simpleSplit_loop].
  destruct (Z.ltb_spec i (slen runes)) as [Hlt | Hge].
  - rewrite (wrap64_small (i + chunkSize)) by (unfold maxInt in *; lia).
    rewrite slice_window by lia.
    rewrite length_drop in Hfuel. unfold slen in *.
    destruct (drop (Z.to_nat i) runes) as [|x l] eqn:Hdrop.
    { apply (f_equal List.length) in Hdrop. rewrite length_drop in Hdrop.
      simpl in Hdrop. lia. }
    assert (Hlen : List.length (x :: l) = (List.length runes - Z.to_nat i)%nat)
      by (rewrite <- Hdrop, length_drop; done).
    cbn [windows].
    rewrite IH; [| lia | rewrite length_drop; lia].
    rewrite <- Hdrop, drop_drop, <- Z2Nat.inj_add by lia.
    rewrite <- app_assoc. cbn [map app]. do 3 f_equal.
    case_decide as Hshort; [|done].
    rewrite length_drop in Hshort.
    rewrite drop_ge by lia. by destruct fuel.
  - rewrite drop_ge by (unfold slen in *; lia).
    cbn [windows map]. by rewrite app_nil_r.
Qed.

End Loops.

(** With a window of zero code points the fallback never returns: every
    round adds an empty chunk and stays where it is. *)
Remark simpleSplit_zero_diverges (fuel : nat) (text : string) :
  text ≠ "" → simpleSplit fuel text 0 = Timeout.
Proof.
  intros Hne. apply runes_of_nonempty in Hne.
  unfold simpleSplit.
  destruct (runes_of text) as [|r runes] eqn:Hr; [done|].
  assert (Hpos : 0 < slen (r :: runes)) by (unfold slen; simpl; lia).
  destruct (Z.eqb_spec (slen (r :: runes)) 0) as [|_]; [lia|].
  generalize (@nil string).
  induction fuel as [|fuel IH]; intros chunks; [done|].
  cbn [simpleSplit_loop].
  destruct (Z.ltb_spec 0 (slen (r :: runes))); [|lia].
  change (wrap64 (0 + 0)) with 0.
  destruct (Z.gtb_spec 0 (slen (r :: runes))); [lia|].
  unfold slice. destruct (Z.leb_spec 0 (slen (r :: runes))); [|lia].
  cbn [Z.leb andb]. apply IH.
Qed.

End Splitter.


(** C3.  The splitter of the ingestion pipeline works on code points.  For
    a non-empty text, [splitText text 1000 100] returns at least one chunk;
    chunk [k] is the encoding of the window of at most 1000 code points
    that starts at code point [900 * k] and is never empty; every window
    but the last holds 1000 code points and only the last reaches the end
    of the text, so it is the one cut to what remains.  When the window is
    not larger than the overlap the call is the one of [simpleSplit], whose
    chunk [k] is the window of [chunkSize] code points starting at
    [chunkSize * k], the windows covering the text.  An empty text gives no
    chunk. *)
Theorem splitText_windows (text : string) (fuel : nat) :
  let runes := Go.runes_of text in
  let n := List.length runes in
  text ≠ "" →
  Go.slen runes + 1000 <= Go.maxInt →
  (n < fuel)%nat →
  (∃ chunks : list string,
      Pipeline.splitText fuel text 1000 100 = Ret chunks ∧
      chunks ≠ [] ∧
      (∀ (k : nat) (c : string), chunks !! k = Some c →
         (900 * k < n)%nat ∧
         c = Go.string_of_runes (take 1000 (drop (900 * k) runes)) ∧
         c ≠ "") ∧
      (∀ k : nat, (S k < List.length chunks)%nat → (900 * k + 1000 < n)%nat) ∧
      (n ≤ 900 * (List.length chunks - 1) + 1000)%nat)
  ∧ (∀ chunkSize chunkOverlap : Z,
        0 < chunkSize <= chunkOverlap →
        Go.slen runes + chunkSize <= Go.maxInt →
        ∃ chunks : list string,
          Pipeline.splitText fuel text chunkSize chunkOverlap = Ret chunks ∧
          Pipeline.splitText fuel text chunkSize chunkOverlap
            = Pipeline.simpleSplit fuel text chunkSize ∧
          (∀ (k : nat) (c : string), chunks !! k = Some c →
             (Z.to_nat chunkSize * k < n)%nat ∧
             c = Go.string_of_runes
                   (take (Z.to_nat chunkSize) (drop (Z.to_nat chunkSize * k) runes)) ∧
             c ≠ "") ∧
          (n ≤ Z.to_nat chunkSize * List.length chunks)%nat)
  ∧ (∀ (fuel' : nat) (chunkSize chunkOverlap : Z),
        Pipeline.splitText fuel' "" chunkSize chunkOverlap = Ret []).
Proof.
  intros runes n Hne Hfit Hfuel.
  pose proof (runes_of_nonempty text Hne) as Hrunes. fold runes in Hrunes.
  assert (Hn : (0 < n)%nat) by (subst n; destruct runes; [done | simpl; lia]).
  assert (Hzero : (Go.slen runes =? 0) = false).
  { apply Z.eqb_neq. unfold Go.slen. fold n. lia. }
  split; [|split].
  - unfold Pipeline.splitText. change (1000 <=? 100) with false. cbv iota.
    fold runes. rewrite Hzero. change (Go.wrap64 (1000 - 100)) with 900.
    rewrite splitText_loop_windows;
      [| lia | lia | done | unfold Go.maxInt in *; lia | done
       | rewrite drop_0; done ].
    rewrite drop_0. cbn [app].
    change (Z.to_nat 1000) with 1000%nat. change (Z.to_nat 900) with 900%nat.
    set (ws := Pipeline.windows fuel 1000 900 runes).
    destruct (windows_cover 1000 900 ltac:(lia) fuel runes Hrunes ltac:(fold n; lia))
      as [Hws Hcov]. fold ws in Hws, Hcov.
    exists (map Go.string_of_runes ws). rewrite length_map.
    split; [done|]. split; [by destruct ws|]. split; [|split].
    + intros k c Hk. rewrite list_lookup_fmap in Hk.
      destruct (ws !! k) as [w|] eqn:Hw; [|done]. injection Hk as <-.
      apply windows_lookup in Hw as [Hlt ->].
      assert (Hlt' : (900 * k < n)%nat) by (subst n; lia).
      split; [done|]. replace (900 * k)%nat with (k * 900)%nat by lia.
      split; [done|]. apply string_of_runes_nonempty.
      intros Hnil. apply (f_equal List.length) in Hnil.
      rewrite length_take, length_drop in Hnil. cbn [List.length] in Hnil.
      subst n. lia.
    + intros k Hk. apply windows_full in Hk. subst n. lia.
    + subst n. lia.
  - intros chunkSize chunkOverlap Hsize Hfit'.
    unfold Pipeline.splitText.
    destruct (Z.leb_spec chunkSize chunkOverlap); [|lia].
    unfold Pipeline.simpleSplit. fold runes. rewrite Hzero.
    rewrite simpleSplit_loop_windows;
      [| lia | done | done | rewrite drop_0; done ].
    rewrite drop_0. cbn [app].
    set (cs := Z.to_nat chunkSize).
    set (ws := Pipeline.windows fuel cs cs runes).
    assert (Hcs : (0 < cs)%nat) by (subst cs; lia).
    destruct (windows_cover cs cs ltac:(lia) fuel runes Hrunes ltac:(fold n; lia))
      as [Hws Hcov]. fold ws in Hws, Hcov.
    exists (map Go.string_of_runes ws). rewrite length_map.
    split; [done|]. split; [done|]. split.
    + intros k c Hk. rewrite list_lookup_fmap in Hk.
      destruct (ws !! k) as [w|] eqn:Hw; [|done]. injection Hk as <-.
      apply windows_lookup in Hw as [Hlt ->].
      assert (Hlt' : (cs * k < n)%nat) by (subst n; lia).
      split; [done|]. replace (cs * k)%nat with (k * cs)%nat by lia.
      split; [done|]. apply string_of_runes_nonempty.
      intros Hnil. apply (f_equal List.length) in Hnil.
      rewrite length_take, length_drop in Hnil. cbn [List.length] in Hnil.
      subst n. lia.
    + subst n. destruct ws; [done|]. simpl in *. lia.
  - intros fuel' chunkSize chunkOverlap. unfold Pipeline.splitText, Pipeline.simpleSplit.
    by destruct (chunkSize <=? chunkOverlap).
Qed.

Lemma splitText_windows_witness :
  ∃ chunks : list string,
    Pipeline.splitText 8 "检索增强生成" 1000 100 = Ret chunks ∧ chunks ≠ [].
Proof.
  destruct (splitText_windows "检索增强生成" 8) as [(chunks & Hret & Hne & _) _].
  - discriminate.
  - vm_compute. discriminate.
  - vm_compute. lia.
  - by exists chunks.
Defined.

(** A text of 1901 Han characters, three bytes each, is cut after 1000 code
    points, not after 1000 bytes: three chunks of 1000, 1000 and 101 code
    points that start 900 code points apart. *)
Example splitText_han_1901 :
  match Pipeline.splitText 1902 (Go.string_of_runes (repeat 20013 1901)) 1000 100 with
  | Ret chunks => map Go.rune_count chunks = [1000; 1000; 101]
                  ∧ map Go.len chunks = [3000; 3000; 303]
  | _ => False
  end.
Proof. vm_compute. done. Qed.

(** ** The effective tags of a user *)

Section EffectiveTags.
Import Go Model UserService.

Lemma closure_ext (R R' : string → string → Prop) (declared : list string) :
  (∀ t p, R t p → R' t p) →
  ∀ t, closure R declared t → closure R' declared t.
Proof.
  intros HR t Ht.
  induction Ht as [t Ht | t p _ IH Hp]; [by apply closure_declared|].
  eapply closure_parent; [exact IH | by apply HR].
Qed.

Lemma closure_nil (R : string → string → Prop) (t : string) :
  ¬ closure R [] t.
Proof.
  intros Ht. induction Ht as [t Ht | t p _ IH _]; [|done].
  by apply elem_of_nil in Ht.
Qed.

(** Every entry of the map comes from a row. *)
Lemma build_parentMap_row (allTags : list OrganizationTag) (t : string)
    (parent : option string) :
  build_parentMap allTags !! t = Some parent →
  ∃ tag, tag ∈ allTags ∧ tag_TagID tag = t ∧ tag_ParentTag tag = parent.
Proof.
  unfold build_parentMap.
  induction allTags as [|tag allTags IH] using rev_ind; [done|].
  rewrite foldl_snoc. intros Hl.
  destruct (decide (tag_TagID tag = t)) as [<- | Hne].
  - rewrite lookup_insert_eq in Hl. injection Hl as <-.
    exists tag. split; [|done]. apply elem_of_app. right. by apply list_elem_of_singleton.
  - rewrite lookup_insert_ne in Hl by done.
    destruct (IH Hl) as (tag' & Hin & Hid & Hp).
    exists tag'. split; [|done]. apply elem_of_app. by left.
Qed.

(** With the tag id as key of the table, every row is an entry. *)
Lemma build_parentMap_lookup (allTags : list OrganizationTag)
    (tag : OrganizationTag) :
  NoDup (map tag_TagID allTags) →
  tag ∈ allTags →
  build_parentMap allTags !! tag_TagID tag = Some (tag_ParentTag tag).
Proof.
  unfold build_parentMap.
  induction allTags as [|tag' allTags IH] using rev_ind;
    intros Hnd Hin; [by apply elem_of_nil in Hin|].
  rewrite foldl_snoc. rewrite map_app in Hnd.
  apply NoDup_app in Hnd as (Hnd & Hfresh & _).
  apply elem_of_app in Hin as [Hin | Hin].
  - rewrite lookup_insert_ne; [by apply IH|].
    intros Heq. apply (Hfresh (tag_TagID tag)).
    + apply list_elem_of_fmap. by exists tag.
    + rewrite <- Heq. simpl. apply list_elem_of_singleton. done.
  - apply list_elem_of_singleton in Hin as ->. by rewrite lookup_insert_eq.
Qed.

Lemma enqueue_initial_spec (initialTags : list string) :
  ∀ (effectiveTags : gset string) (queue : list string),
    let '(effectiveTags', queue') :=
      foldl (fun '(effectiveTags, queue) tagID =>
               if decide (tagID ∈ effectiveTags) then (effectiveTags, queue)
               else ({[tagID]} ∪ effectiveTags, queue ++ [tagID]))
            (effectiveTags, queue) initialTags in
    (∀ t, t ∈ effectiveTags' ↔ t ∈ effectiveTags ∨ t ∈ initialTags) ∧
    (∀ t, t ∈ queue' ↔ t ∈ queue ∨ (t ∈ initialTags ∧ t ∉ effectiveTags)) ∧
    (List.length queue' ≤ List.length queue + List.length initialTags)%nat.
Proof.
  induction initialTags as [|x l IH]; intros eff q.
  - simpl. split; [|split]; [set_solver | set_solver | lia].
  - cbn [foldl]. case_decide as Hx.
    + specialize (IH eff q).
      destruct (foldl _ (eff, q) l) as [eff' q'].
      destruct IH as (He & Hq & Hlen).
      split; [|split]; [| |simpl; lia].
      * intros t. rewrite He. set_solver.
      * intros t. rewrite Hq. set_solver.
    + specialize (IH ({[x]} ∪ eff) (q ++ [x])).
      destruct (foldl _ ({[x]} ∪ eff, q ++ [x]) l) as [eff' q'].
      destruct IH as (He & Hq & Hlen).
      split; [|split]; [| |rewrite length_app in Hlen; simpl in *; lia].
      * intros t. rewrite He. set_solver.
      * intros t. rewrite Hq.
        destruct (decide (t = x)) as [-> | Hne]; set_solver.
Qed.

Section Walk.
Variable parentMap : gmap string (option string).
Variable parents : gset string.
Variable declared : list string.
Hypothesis parents_all :
  ∀ t p, parentMap !! t = Some (Some p) → p ∈ parents.

Let R (t p : string) : Prop := parentMap !! t = Some (Some p).

Lemma walk_parents_spec :
  ∀ (fuel : nat) (effectiveTags : gset string) (queue : list string),
    (List.length queue + size (parents ∖ effectiveTags) ≤ fuel)%nat →
    (∀ t, t ∈ declared → t ∈ effectiveTags) →
    (∀ t, t ∈ effectiveTags → closure R declared t) →
    (∀ t, t ∈ queue → t ∈ effectiveTags) →
    (∀ t p, t ∈ effectiveTags → R t p → p ∈ effectiveTags ∨ t ∈ queue) →
    ∃ result : gset string,
      walk_parents fuel parentMap effectiveTags queue = Ret result ∧
      ∀ t, t ∈ result ↔ closure R declared t.
Proof.
  induction fuel as [|fuel IH]; intros eff queue Hfuel Hdecl Hsound Hqueue Hclosed.
  - destruct queue as [|c q]; [|simpl in Hfuel; lia].
    exists eff. split; [done|]. intros t. split; [by apply Hsound|].
    intros Ht. induction Ht as [t Ht | t p _ IHt Hp]; [by apply Hdecl|].
    destruct (Hclosed t p IHt Hp) as [|Hin]; [done | by apply elem_of_nil in Hin].
  - destruct queue as [|c q].
    { exists eff. split; [done|]. intros t. split; [by apply Hsound|].
      intros Ht. induction Ht as [t Ht | t p _ IHt Hp]; [by apply Hdecl|].
      destruct (Hclosed t p IHt Hp) as [|Hin]; [done | by apply elem_of_nil in Hin]. }
    cbn [walk_parents]. cbn [List.length] in Hfuel.
    assert (Hc : c ∈ eff) by (apply Hqueue; left).
    destruct (parentMap !! c) as [[p|]|] eqn:Hpc.
    + case_decide as Hp.
      * apply IH; [lia | done | done | |].
        -- intros t Ht. apply Hqueue. by right.
        -- intros t p' Ht Hp'. destruct (Hclosed t p' Ht Hp') as [|Hin]; [by left|].
           apply elem_of_cons in Hin as [-> | Hin]; [|by right].
           left. unfold R in Hp'. rewrite Hpc in Hp'. by injection Hp' as <-.
      * assert (Hlt : (size (parents ∖ ({[p]} ∪ eff)) < size (parents ∖ eff))%nat).
        { apply subset_size. pose proof (parents_all c p Hpc). set_solver. }
        apply IH.
        -- rewrite length_app. simpl. lia.
        -- intros t Ht. apply elem_of_union. right. by apply Hdecl.
        -- intros t Ht. apply elem_of_union in Ht as [Ht | Ht]; [|by apply Hsound].
           apply elem_of_singleton in Ht as ->.
           eapply closure_parent; [apply Hsound, Hc | exact Hpc].
        -- intros t Ht. apply elem_of_app in Ht as [Ht | Ht].
           ++ apply elem_of_union. right. apply Hqueue. by right.
           ++ apply list_elem_of_singleton in Ht as ->. set_solver.
        -- intros t p' Ht Hp'. apply elem_of_union in Ht as [Ht | Ht].
           ++ apply elem_of_singleton in Ht as ->. right.
              apply elem_of_app. right. by apply list_elem_of_singleton.
           ++ destruct (Hclosed t p' Ht Hp') as [|Hin]; [set_solver|].
              apply elem_of_cons in Hin as [-> | Hin].
              ** left. unfold R in Hp'. rewrite Hpc in Hp'. injection Hp' as <-.
                 set_solver.
              ** right. apply elem_of_app. by left.
    + apply IH; [lia | done | done | |].
      * intros t Ht. apply Hqueue. by right.
      * intros t p' Ht Hp'. destruct (Hclosed t p' Ht Hp') as [|Hin]; [by left|].
        apply elem_of_cons in Hin as [-> | Hin]; [|by right].
        unfold R in Hp'. by rewrite Hpc in Hp'.
    + apply IH; [lia | done | done | |].
      * intros t Ht. apply Hqueue. by right.
      * intros t p' Ht Hp'. destruct (Hclosed t p' Ht Hp') as [|Hin]; [by left|].
        apply elem_of_cons in Hin as [-> | Hin]; [|by right].
        unfold R in Hp'. by rewrite Hpc in Hp'.
Qed.

End Walk.

Lemma size_list_to_set_le (l : list string) :
  (size (list_to_set l : gset string) ≤ List.length l)%nat.
Proof.
  induction l as [|x l IH]; [cbn [list_to_set]; by rewrite size_empty|].
  cbn [list_to_set List.length]. rewrite size_union_alt, size_singleton.
  pose proof (subseteq_size (list_to_set l ∖ {[x]}) (list_to_set l : gset string)
                ltac:(set_solver)).
  lia.
Qed.

End EffectiveTags.

(** C2.  The effective tags of a user.  With the tag id as key of the tag
    table and enough fuel for the walk, [GetUserEffectiveOrgTags] returns a
    list without duplicates that holds exactly the tags of the
    reflexive-transitive closure of the declared tags under the parent
    relation of the table: every declared tag is in it, the parent of every
    tag in it is in it, and nothing else is. *)
Theorem GetUserEffectiveOrgTags_closure (user : Model.User)
    (allTags : list Model.OrganizationTag) (fuel : nat) :
  NoDup (map Model.tag_TagID allTags) →
  (List.length (UserService.declared_tags user) + List.length allTags ≤ fuel)%nat →
  ∃ tags : list string,
    UserService.GetUserEffectiveOrgTags fuel (Ok allTags) user = Ret (Ok tags) ∧
    NoDup tags ∧
    (∀ t, t ∈ UserService.declared_tags user → t ∈ tags) ∧
    (∀ t p, t ∈ tags → UserService.parent_of allTags t p → p ∈ tags) ∧
    (∀ t, t ∈ tags ↔
          UserService.closure (UserService.parent_of allTags)
            (UserService.declared_tags user) t).
Proof.
  intros Hkey Hfuel.
  unfold UserService.GetUserEffectiveOrgTags, UserService.declared_tags in *.
  destruct (String.eqb (Model.user_OrgTags user) "") eqn:Hempty.
  { exists []. split; [done|]. split; [constructor|].
    split; [done|]. split; [intros t p Ht; by apply elem_of_nil in Ht|].
    intros t. split; [intros Ht; by apply elem_of_nil in Ht|].
    intros Ht. by apply closure_nil in Ht. }
  set (declared := Go.Split (Model.user_OrgTags user) ",") in *.
  set (parentMap := UserService.build_parentMap allTags).
  pose proof (enqueue_initial_spec declared ∅ []) as Hinit.
  unfold UserService.enqueue_initial.
  destruct (foldl _ (∅, []) declared) as [eff0 queue0].
  destruct Hinit as (Heff0 & Hqueue0 & Hlen0).
  set (parents := list_to_set (omap Model.tag_ParentTag allTags) : gset string).
  assert (Hparents : ∀ t p, parentMap !! t = Some (Some p) → p ∈ parents).
  { intros t p Hl. apply build_parentMap_row in Hl as (tag & Hin & _ & Hp).
    apply elem_of_list_to_set, list_elem_of_omap. by exists tag. }
  assert (Hsize : (size (parents ∖ eff0) ≤ List.length allTags)%nat).
  { etrans; [apply subseteq_size with (Y := parents); set_solver|].
    etrans; [apply size_list_to_set_le|].
    clear. induction allTags as [|tag l IH]; [done|].
    unfold omap in *. cbn [list_omap List.length].
    destruct (Model.tag_ParentTag tag); cbn [List.length]; lia. }
  destruct (walk_parents_spec parentMap parents declared Hparents fuel eff0 queue0)
    as (result & Hwalk & Hresult).
  - simpl in Hlen0. lia.
  - intros t Ht. apply Heff0. by right.
  - intros t Ht. apply UserService.closure_declared.
    apply Heff0 in Ht as [Ht | Ht]; [set_solver | done].
  - intros t Ht. apply Heff0. apply Hqueue0 in Ht as [Ht | [Ht _]]; [|by right].
    by apply elem_of_nil in Ht.
  - intros t p Ht _. right. apply Hqueue0. right.
    apply Heff0 in Ht as [Ht | Ht]; [set_solver|]. split; [done | set_solver].
  - rewrite Hwalk. exists (elements result).
    assert (Hiff : ∀ t, t ∈ elements result ↔
              UserService.closure (UserService.parent_of allTags) declared t).
    { intros t. rewrite elem_of_elements, Hresult. split; apply closure_ext.
      - intros t' p Hl. apply build_parentMap_row in Hl as (tag & Hin & Hid & Hp).
        by exists tag.
      - intros t' p (tag & Hin & <- & <-). by apply build_parentMap_lookup. }
    split; [done|]. split; [apply NoDup_elements|].
    split; [|split; [|done]].
    + intros t Ht. apply Hiff. by apply UserService.closure_declared.
    + intros t p Ht Hp. apply Hiff. eapply UserService.closure_parent; [|exact Hp].
      by apply Hiff.
Qed.

Lemma GetUserEffectiveOrgTags_closure_witness :
  ∃ tags : list string,
    UserService.GetUserEffectiveOrgTags 4 (Ok Sample.tags) Sample.U1 = Ret (Ok tags) ∧
    "T_parent" ∈ tags.
Proof.
  destruct (GetUserEffectiveOrgTags_closure Sample.U1 Sample.tags 4)
    as (tags & Hret & _ & Hdecl & Hparent & _).
  - unfold Sample.tags. cbn [map Model.tag_TagID Sample.tag].
    repeat (apply NoDup_cons; split; [set_solver|]). apply NoDup_nil_2.
  - vm_compute. lia.
  - exists tags. split; [exact Hret|].
    apply (Hparent "T_child").
    + apply Hdecl. vm_compute. left.
    + exists (Sample.tag "T_child" (Some "T_parent")). split; [left|]. split; reflexivity.
Defined.

(** Scenario of the design document: the tags of [U1] are its own tag and
    the parent of that tag; the tag of [U2] has no parent. *)
Example effective_tags_scenario :
  UserService.GetUserEffectiveOrgTags 4 (Ok Sample.tags) Sample.U1
    = Ret (Ok ["T_child"; "T_parent"])
  ∧ UserService.GetUserEffectiveOrgTags 4 (Ok Sample.tags) Sample.U2
    = Ret (Ok ["T_unrelated"]).
Proof. split; vm_compute; reflexivity. Qed.

(** ** The search endpoint *)

Section SearchEndpoint.
Import Go Model SearchHandler.

(** A [topK] parameter that is not a positive number is replaced by 10. *)
Lemma parse_topK_not_positive (topKStr : string) :
  match Atoi topKStr with
  | Ok topK => topK <= 0
  | Err _ => True
  end →
  parse_topK (Some topKStr) = 10.
Proof.
  unfold parse_topK. change (default "10" (Some topKStr)) with topKStr.
  destruct (Atoi topKStr) as [topK|e]; [|reflexivity].
  intros H. destruct (Z.leb_spec topK 0); [reflexivity | lia].
Qed.

End SearchEndpoint.

(** C8, as the code has it.  A search request whose [topK] parameter is a
    number that is not positive, 0 included, is not rejected: the handler
    runs the search with [topK = 10] and answers with what the service
    returned. *)
Theorem HybridSearch_topK_not_positive
    (searchService : string → Z → Model.User → result (list Model.SearchResponseDTO))
    (c : SearchHandler.request) (user : Model.User) (topKStr : string) (topK : Z) :
  SearchHandler.param_query c ≠ "" →
  SearchHandler.ctx_user c = Some user →
  SearchHandler.param_topK c = Some topKStr →
  Go.Atoi topKStr = Ok topK →
  topK <= 0 →
  SearchHandler.HybridSearch searchService c =
  match searchService (SearchHandler.param_query c) 10 user with
  | Err _ => {| SearchHandler.status := 500;
                SearchHandler.payload := SearchHandler.BError "搜索失败" |}
  | Ok results => {| SearchHandler.status := 200;
                     SearchHandler.payload := SearchHandler.BData 200 results "success" |}
  end.
Proof.
  intros Hq Hu Hk Hparse Hle. unfold SearchHandler.HybridSearch.
  destruct (String.eqb_spec (SearchHandler.param_query c) "") as [Heq | _]; [by destruct Hq|].
  rewrite Hu, Hk, parse_topK_not_positive by (rewrite Hparse; exact Hle).
  reflexivity.
Qed.

Lemma HybridSearch_topK_not_positive_witness :
  SearchHandler.HybridSearch (fun _ topK _ => if topK =? 10 then Ok [] else Err "topK")
    {| SearchHandler.param_query := "rag"; SearchHandler.param_topK := Some "0";
       SearchHandler.ctx_user := Some Sample.U1 |}
  = {| SearchHandler.status := 200;
       SearchHandler.payload := SearchHandler.BData 200 [] "success" |}.
Proof.
  rewrite (HybridSearch_topK_not_positive _ _ Sample.U1 "0" 0).
  - reflexivity.
  - discriminate.
  - reflexivity.
  - reflexivity.
  - reflexivity.
  - lia.
Defined.

(** C8, as the design document has it, fails: a request with [topK = 0] is
    answered with status 200, and the search ran. *)
Lemma HybridSearch_topK_zero_not_rejected :
  ¬ (∀ (searchService : string → Z → Model.User → result (list Model.SearchResponseDTO))
       (c : SearchHandler.request),
        SearchHandler.param_topK c = Some "0" →
        SearchHandler.status (SearchHandler.HybridSearch searchService c)
          = SearchHandler.StatusBadRequest).
Proof.
  intros H.
  specialize (H (fun _ _ _ => Ok [])
                {| SearchHandler.param_query := "rag"; SearchHandler.param_topK := Some "0";
                   SearchHandler.ctx_user := Some Sample.U1 |} eq_refl).
  vm_compute in H. discriminate.
Qed.

(** ** The context block of a chat turn *)

(** C9 at a chunk of 334 Han characters.  The text has 334 code points, far
    below the 1000 the snippet may hold, so the design document renders it
    whole.  The code measures and cuts in bytes: the 1002 bytes are cut
    after byte 1000, in the middle of the last character, and the ellipsis
    is appended; the line ends in an ill-formed byte sequence. *)
Theorem buildContextText_cuts_bytes :
  let text := Sample.han 334 in
  let hit := Sample.result_of "guide.pdf" text in
  Go.rune_count text = 334 ∧
  Go.len text = 1002 ∧
  ChatService.buildContextText [hit]
    = "[1] (guide.pdf) " +:+ Go.str_take text 1000 +:+ "…" +:+ ChatService.newline ∧
  ChatService.spec_line 0 hit
    = "[1] (guide.pdf) " +:+ text +:+ ChatService.newline ∧
  ChatService.buildContextText [hit] ≠ ChatService.spec_line 0 hit ∧
  last (Go.runes_of (Go.str_take text 1000)) = Some Go.runeError.
Proof.
  cbv zeta. repeat split; try (vm_compute; reflexivity).
  intros H. apply (f_equal Go.len) in H. vm_compute in H. discriminate.
Qed.

(** ** Hybrid search *)

Section HybridSearchFacts.
Import Go Model SearchService.

Variable unicode_ToLower : Z → Z.
Variable unicode_Han : Z → bool.
Variable GetUserEffectiveOrgTags : User → result (list string).
Variable CreateEmbedding : string → result (list float32).
Variable Search : nat → value → es_reply.
Variable FindBatchByMD5s : list string → result (list FileUpload).

(** The phrase is empty or it is the normalized query. *)
Lemma normalizeQuery_phrase (q : string) :
  let '(normalized, phrase) := normalizeQuery unicode_ToLower unicode_Han q in
  phrase = "" ∨ phrase = normalized.
Proof.
  unfold normalizeQuery.
  destruct (String.eqb q ""); [by left|].
  match goal with |- context [String.eqb ?k ""] => destruct (String.eqb k "") end;
    [by left | by right].
Qed.

(** The rewrite of the retry on the map literal: [must] and the rescore
    query get the new text, every other clause stays. *)
Lemma retryQuery_of_esQuery (queryVector : list float32) (topK : Z) (user : User)
    (tags : list string) (normalized phrase text : string) :
  retryQuery_of (esQuery_of queryVector topK user tags normalized phrase) text
  = Some (esQuery_of queryVector topK user tags text phrase).
Proof. reflexivity. Qed.

(** Every body sent to the indexer is the map literal, built with the
    embedding of the original query and the normalized text. *)
Lemma HybridSearch_sent (query : string) (topK : Z) (user : User) (q : value) :
  q ∈ sent (HybridSearch unicode_ToLower unicode_Han GetUserEffectiveOrgTags
              CreateEmbedding Search FindBatchByMD5s query topK user) →
  ∃ queryVector : list float32,
    CreateEmbedding query = Ok queryVector ∧
    q = esQuery_of queryVector topK user (tags_used GetUserEffectiveOrgTags user)
          (normalizeQuery unicode_ToLower unicode_Han query).1
          (normalizeQuery unicode_ToLower unicode_Han query).2.
Proof.
  unfold HybridSearch. fold (tags_used GetUserEffectiveOrgTags user).
  pose proof (normalizeQuery_phrase query) as Hphrase.
  destruct (normalizeQuery unicode_ToLower unicode_Han query) as [normalized phrase].
  cbn [fst snd].
  destruct (CreateEmbedding query) as [queryVector|e];
    [|intros Hin; by apply elem_of_nil in Hin].
  intros Hin. exists queryVector. split; [reflexivity|].
  set (esQuery := esQuery_of queryVector topK user (tags_used GetUserEffectiveOrgTags user) normalized phrase) in *.
  assert (Hone : ∀ x : value, x ∈ [esQuery] → x = esQuery)
    by (intros x Hx; by apply list_elem_of_singleton in Hx).
  destruct (Search 0 esQuery) as [e|e|e partial|hits]; cbn [sent] in Hin; try by apply Hone.
  destruct hits as [|h hits]; cbn [sent] in Hin; [|by apply Hone].
  destruct (String.eqb_spec phrase "") as [Hempty | Hne]; cbn [negb andb] in Hin;
    [cbn [sent] in Hin; by apply Hone|].
  destruct (negb (String.eqb phrase query)); [|cbn [sent] in Hin; by apply Hone].
  destruct Hphrase as [-> | ->]; [done|].
  subst esQuery. rewrite retryQuery_of_esQuery in Hin. cbn [sent] in Hin.
  apply elem_of_cons in Hin as [-> | Hin]; [reflexivity|].
  by apply list_elem_of_singleton in Hin.
Qed.

(** When the embedder answers, the indexer is asked: the first body sent
    is the map literal. *)
Lemma HybridSearch_first_sent (query : string) (topK : Z) (user : User)
    (queryVector : list float32) :
  CreateEmbedding query = Ok queryVector →
  ∃ rest : list value,
    sent (HybridSearch unicode_ToLower unicode_Han GetUserEffectiveOrgTags
            CreateEmbedding Search FindBatchByMD5s query topK user)
    = esQuery_of queryVector topK user (tags_used GetUserEffectiveOrgTags user)
        (normalizeQuery unicode_ToLower unicode_Han query).1
        (normalizeQuery unicode_ToLower unicode_Han query).2 :: rest.
Proof.
  intros Hemb. unfold HybridSearch. fold (tags_used GetUserEffectiveOrgTags user).
  destruct (normalizeQuery unicode_ToLower unicode_Han query) as [normalized phrase].
  cbn [fst snd]. rewrite Hemb.
  match goal with |- context [Search 0%nat ?b] =>
    destruct (Search 0%nat b) as [e|e|e partial|hits] end;
    try (by eexists).
  destruct hits; [|by eexists].
  destruct (negb (String.eqb phrase "") && negb (String.eqb phrase query));
    [|by eexists].
  rewrite retryQuery_of_esQuery. by eexists.
Qed.

End HybridSearchFacts.

(** C1.  In every call of [HybridSearch] in which the embedder answers, a
    body is sent to the indexer.  Every body sent, the first and the one of
    the retry, carries as the [filter] of its [bool] query a [bool] of
    exactly three [should] clauses with [minimum_should_match = 1]: the
    term [user_id] of the caller, the term [is_public = true], and the
    terms [org_tag] over the tags of step 1.  A document passes it exactly
    when at least one of the three holds for it. *)
Theorem HybridSearch_access_filter
    (unicode_ToLower : Z → Z) (unicode_Han : Z → bool)
    (GetUserEffectiveOrgTags : Model.User → result (list string))
    (CreateEmbedding : string → result (list Model.float32))
    (Search : nat → SearchService.value → SearchService.es_reply)
    (FindBatchByMD5s : list string → result (list Model.FileUpload))
    (query : string) (topK : Z) (user : Model.User) :
  let r := SearchService.HybridSearch unicode_ToLower unicode_Han
             GetUserEffectiveOrgTags CreateEmbedding Search FindBatchByMD5s
             query topK user in
  let tags := SearchService.tags_used GetUserEffectiveOrgTags user in
  let flt :=
    SearchService.VObj [("bool", SearchService.VObj [
      ("should", SearchService.VArr [
         SearchService.VObj [("term", SearchService.VObj [
           ("user_id", SearchService.VInt (Model.user_ID user))])];
         SearchService.VObj [("term", SearchService.VObj [
           ("is_public", SearchService.VBool true)])];
         SearchService.VObj [("terms", SearchService.VObj [
           ("org_tag", SearchService.VStrs tags)])]]);
      ("minimum_should_match", SearchService.VInt 1)])] in
  (∀ queryVector : list Model.float32,
      CreateEmbedding query = Ok queryVector →
      ∃ (first : SearchService.value) (rest : list SearchService.value),
        SearchService.sent r = first :: rest) ∧
  (∀ q : SearchService.value, q ∈ SearchService.sent r →
      SearchService.at_path ["query"; "bool"; "filter"] q = Some flt) ∧
  (∀ doc : Model.EsDocument,
      SearchService.filter_matches flt doc
      = Some ((Model.es_UserID doc =? Model.user_ID user)
              || Model.es_IsPublic doc
              || bool_decide (Model.es_OrgTag doc ∈ tags))).
Proof.
  intros r tags flt. split; [|split].
  - intros queryVector Hemb.
    destruct (HybridSearch_first_sent unicode_ToLower unicode_Han
                GetUserEffectiveOrgTags CreateEmbedding Search FindBatchByMD5s
                query topK user queryVector Hemb) as [rest Hsent].
    eexists _, rest. exact Hsent.
  - intros q Hin.
    apply HybridSearch_sent in Hin as (queryVector & _ & ->). reflexivity.
  - intros doc. subst flt tags. cbn.
    destruct (Model.es_UserID doc =? Model.user_ID user);
      destruct (Model.es_IsPublic doc);
      destruct (bool_decide
                  (Model.es_OrgTag doc ∈ SearchService.tags_used GetUserEffectiveOrgTags user));
      reflexivity.
Qed.

(** C10.  [HybridSearch] hands the embedder the query as the user wrote it
    and nothing else.  When the embedder answers, a body is sent to the
    indexer, and in every body sent the vector of the [knn] clause is the
    embedding of that original query, while the [match] clause, the phrase
    clause and the rescore query carry the text [normalizeQuery] made of
    it. *)
Theorem HybridSearch_embeds_original_query
    (unicode_ToLower : Z → Z) (unicode_Han : Z → bool)
    (GetUserEffectiveOrgTags : Model.User → result (list string))
    (CreateEmbedding : string → result (list Model.float32))
    (Search : nat → SearchService.value → SearchService.es_reply)
    (FindBatchByMD5s : list string → result (list Model.FileUpload))
    (query : string) (topK : Z) (user : Model.User) :
  let r := SearchService.HybridSearch unicode_ToLower unicode_Han
             GetUserEffectiveOrgTags CreateEmbedding Search FindBatchByMD5s
             query topK user in
  let normalized := (SearchService.normalizeQuery unicode_ToLower unicode_Han query).1 in
  let phrase := (SearchService.normalizeQuery unicode_ToLower unicode_Han query).2 in
  SearchService.embedded r = [query] ∧
  (∀ queryVector : list Model.float32,
      CreateEmbedding query = Ok queryVector →
      ∃ (first : SearchService.value) (rest : list SearchService.value),
        SearchService.sent r = first :: rest) ∧
  ∀ q : SearchService.value, q ∈ SearchService.sent r →
    ∃ queryVector : list Model.float32,
      CreateEmbedding query = Ok queryVector ∧
      SearchService.at_path ["knn"; "query_vector"] q
        = Some (SearchService.VVec queryVector) ∧
      SearchService.at_path ["query"; "bool"; "must"; "match"; "text_content"] q
        = Some (SearchService.VStr normalized) ∧
      SearchService.at_path ["query"; "bool"; "should"] q
        = Some (SearchService.buildPhraseShould phrase) ∧
      SearchService.at_path
        ["rescore"; "query"; "rescore_query"; "match"; "text_content"; "query"] q
        = Some (SearchService.VStr normalized).
Proof.
  intros r normalized phrase. split; [|split].
  - subst r. unfold SearchService.HybridSearch.
    destruct (SearchService.normalizeQuery unicode_ToLower unicode_Han query) as [n p].
    destruct (CreateEmbedding query) as [queryVector|e]; [|reflexivity].
    match goal with |- context [Search 0%nat ?b] =>
      destruct (Search 0%nat b) as [e|e|e partial|hits] end;
      try reflexivity.
    destruct hits; [|reflexivity].
    destruct (negb (String.eqb p "") && negb (String.eqb p query)); [|reflexivity].
    rewrite retryQuery_of_esQuery. reflexivity.
  - intros queryVector Hemb.
    destruct (HybridSearch_first_sent unicode_ToLower unicode_Han
                GetUserEffectiveOrgTags CreateEmbedding Search FindBatchByMD5s
                query topK user queryVector Hemb) as [rest Hsent].
    eexists _, rest. exact Hsent.
  - intros q Hin. apply HybridSearch_sent in Hin as (queryVector & Hemb & ->).
    exists queryVector. split; [exact Hemb|]. repeat split; reflexivity.
Qed.

Lemma HybridSearch_access_filter_witness :
  ∃ (q : SearchService.value) (rest : list SearchService.value)
    (flt : SearchService.value),
    SearchService.sent
      (SearchService.HybridSearch Sample.lower Sample.han_script Sample.effective
         Sample.embed Sample.no_hits Sample.no_files Sample.question 10 Sample.U1)
    = q :: rest ∧
    SearchService.at_path ["query"; "bool"; "filter"] q = Some flt ∧
    SearchService.filter_matches flt Sample.parent_doc = Some true.
Proof.
  destruct (HybridSearch_access_filter Sample.lower Sample.han_script Sample.effective
              Sample.embed Sample.no_hits Sample.no_files Sample.question 10 Sample.U1)
    as (Hsends & Hfilter & Hmatch).
  destruct (Hsends (Go.bytes_of Sample.question) eq_refl) as (q & rest & Hsent).
  exists q, rest. eexists. split; [exact Hsent|]. split.
  - apply Hfilter. rewrite Hsent. left.
  - rewrite Hmatch. vm_compute. reflexivity.
Defined.

Lemma HybridSearch_embeds_original_query_witness :
  SearchService.normalizeQuery Sample.lower Sample.han_script Sample.question
    = ("xx", "xx") ∧
  ∃ (q : SearchService.value) (rest : list SearchService.value),
    SearchService.sent
      (SearchService.HybridSearch Sample.lower Sample.han_script Sample.effective
         Sample.embed Sample.no_hits Sample.no_files Sample.question 10 Sample.U1)
    = q :: rest ∧
    SearchService.at_path ["knn"; "query_vector"] q
      = Some (SearchService.VVec (Go.bytes_of Sample.question)) ∧
    SearchService.at_path ["query"; "bool"; "must"; "match"; "text_content"] q
      = Some (SearchService.VStr "xx").
Proof.
  destruct (HybridSearch_embeds_original_query Sample.lower Sample.han_script
              Sample.effective Sample.embed Sample.no_hits Sample.no_files
              Sample.question 10 Sample.U1) as (_ & Hsends & Hsent).
  destruct (Hsends (Go.bytes_of Sample.question) eq_refl) as (q & rest & Hq).
  destruct (Hsent q) as (queryVector & Hemb & Hknn & Hmust & _).
  { rewrite Hq. left. }
  split; [vm_compute; reflexivity|].
  exists q, rest. split; [exact Hq|]. split.
  - rewrite Hknn. injection Hemb as <-. reflexivity.
  - rewrite Hmust. vm_compute. reflexivity.
Defined.

(** ** The consumer of processing tasks *)

Section Consumer.
Import Go Model Store Kafka.

(** What [INCR] leaves under the key is the number it answers with, and the
    time to live of the key is the one it had. *)
Lemma redis_incr_value (key : string) (db db' : gmap string entry) (n : Z) :
  redis_incr key db = Ok (n, db') →
  db' = <[key := {| value := itoa n; ttl := db !! key ≫= ttl |}]> db.
Proof.
  unfold redis_incr. destruct (db !! key) as [e|]; cbn [mbind option_bind].
  - destruct (Atoi (value e)) as [m|]; [|discriminate].
    destruct (m <? maxInt); [|discriminate]. intros [= <- <-]. reflexivity.
  - intros [= <- <-]. reflexivity.
Qed.

End Consumer.

(** C6.  One delivered task.  When processing fails and the counter store
    answers the increment with [attempts], the counter
    [kafka:attempts:<md5>] holds that number, it expires after 24 hours
    unless the [EXPIRE] call failed, and the offset is committed exactly
    when [attempts >= 3]; when the increment fails nothing is committed and
    the counter is not touched.  When processing succeeds the offset is
    committed and the counter is deleted unless the [DEL] call failed. *)
Theorem consume_retry_policy (f : Kafka.faults)
    (Process : Model.FileProcessingTask → Store.world → result unit * Store.world)
    (m : Kafka.message) (task : Model.FileProcessingTask) (w : Store.world) :
  let key := Kafka.attemptsKey (Model.task_FileMD5 task) in
  let w1 := (Process task w).2 in
  let w2 := Kafka.consume f Process m (Ok task) w in
  match (Process task w).1 with
  | Err _ =>
    match Kafka.Incr f key w1 with
    | (Err _, _) => w2 = w1
    | (Ok attempts, _) =>
      (∃ e : Store.entry,
          Store.rdb w2 !! key = Some e ∧
          Store.value e = Go.itoa attempts ∧
          (Kafka.expire_fails f = false → Store.ttl e = Some (24 * 3600))) ∧
      Store.log w2 =
        (if 3 <=? attempts
         then Store.log w1 ++ [Store.CommitMessages (Kafka.Offset m)]
         else Store.log w1)
    end
  | Ok _ =>
    Store.log w2 = Store.log w1 ++ [Store.CommitMessages (Kafka.Offset m)] ∧
    (Kafka.del_fails f = false → Store.rdb w2 !! key = None)
  end.
Proof.
  intros key w1 w2. subst w1 w2. unfold Kafka.consume. fold key.
  destruct (Process task w) as [[u|e] w1]; cbn [fst snd].
  - unfold Kafka.Del. split.
    + destruct (Kafka.del_fails f); reflexivity.
    + intros ->. apply lookup_delete_eq.
  - unfold Kafka.Incr.
    destruct (Kafka.incr_fails f); [reflexivity|].
    destruct (Store.redis_incr key (Store.rdb w1)) as [[attempts db]|e'] eqn:Hincr;
      [|reflexivity].
    apply redis_incr_value in Hincr. subst db.
    split.
    + exists {| Store.value := Go.itoa attempts;
                Store.ttl := if Kafka.expire_fails f
                             then Store.rdb w1 !! key ≫= Store.ttl
                             else Some (24 * 3600) |}.
      split; [|split; [reflexivity | by intros ->]].
      unfold Kafka.Expire, Store.redis_expire.
      destruct (attempts >=? 3), (Kafka.expire_fails f); cbn;
        rewrite ?lookup_insert_eq; cbn; rewrite ?lookup_insert_eq; reflexivity.
    + rewrite Z.geb_leb. destruct (3 <=? attempts); unfold Kafka.Expire;
        destruct (Kafka.expire_fails f); reflexivity.
Qed.

(** The retry ceiling of the design document: two failures leave the offset
    uncommitted, the third one commits it. *)
Lemma consume_retry_policy_witness :
  Store.log Sample.two_failures = [] ∧
  Store.log (Kafka.consume Sample.counter_up Sample.failing Sample.message
               (Ok Sample.task) Sample.two_failures)
    = [Store.CommitMessages 7].
Proof.
  split; [vm_compute; reflexivity|].
  pose proof (consume_retry_policy Sample.counter_up Sample.failing Sample.message
                Sample.task Sample.two_failures) as H.
  revert H. vm_compute. intros [_ Hlog]. exact Hlog.
Defined.

(** ** Merging the uploaded parts *)

Section Merge.
Import Go Model Store UploadService.

Lemma append_nil_r (s : string) : s +:+ "" = s.
Proof.
  induction s as [|c s IH]; [reflexivity|].
  change (String c (s +:+ "") = String c s). by rewrite IH.
Qed.

Lemma find_map_preserved {A} (p : A → bool) (g : A → A) (l : list A) :
  (∀ x, p (g x) = p x) →
  List.find p (map g l) = g <$> List.find p l.
Proof.
  intros Hp. induction l as [|x l IH]; [reflexivity|].
  cbn. rewrite Hp. destruct (p x); [reflexivity | exact IH].
Qed.

(** The row a status update was aimed at is found again, with the new
    status. *)
Lemma first_upload_update_status (fileMD5 : string) (userID status : Z)
    (w : world) (record : FileUpload) :
  first_upload fileMD5 userID w = Some record →
  first_upload fileMD5 userID (update_status (fu_ID record) status w)
  = Some (with_status status record).
Proof.
  unfold first_upload, update_status. cbn [file_upload set_file_upload].
  intros Hfind. rewrite find_map_preserved.
  - rewrite Hfind. cbn. by rewrite Z.eqb_refl.
  - intros x. by destruct (fu_ID x =? fu_ID record).
Qed.

End Merge.

Section MergeFacts.
Import Go Model Store UploadService.

Lemma len_string_of_bytes (l : list Z) : len (string_of_bytes l) = slen l.
Proof.
  unfold len, slen. f_equal.
  induction l as [|b l IH]; cbn [string_of_bytes String.length List.length]; congruence.
Qed.

Lemma len_nonneg (s : string) : 0 <= len s.
Proof. unfold len. lia. Qed.

(** Every source of a concatenation is there. *)
Lemma gather_lookup (names : list string) (b : gmap string string) (content : string) :
  gather names b = Some content →
  ∀ (k : nat) (name : string), names !! k = Some name → is_Some (b !! name).
Proof.
  revert content. induction names as [|n names IH]; intros content Hg k name Hk;
    [done|].
  cbn [gather] in Hg.
  destruct (b !! n) as [c|] eqn:Hn; [|discriminate].
  destruct (gather names b) as [rest|] eqn:Hrest; [|discriminate].
  destruct k as [|k]; cbn in Hk.
  - injection Hk as <-. by rewrite Hn.
  - by eapply IH.
Qed.

(** Sources of at most the 10000th of the largest object, all but the last
    of at least the smallest part, pass the checks of the compose. *)
Lemma compose_sources_ok (b : gmap string string) (n : Z) (srcs : list string) :
  ∀ i totalSize totalParts : Z,
    0 <= i →
    i + slen srcs <= maxPartsCount →
    0 <= totalSize <= i * (maxMultipartPutObjectSize / maxPartsCount) →
    0 <= totalParts <= i →
    (∀ (k : nat) (src : string), srcs !! k = Some src →
       ∃ c, b !! src = Some c ∧
            len c <= maxMultipartPutObjectSize / maxPartsCount ∧
            (i + Z.of_nat k < n - 1 → absMinPartSize <= len c)) →
    compose_sources b n i srcs totalSize totalParts = Ok ().
Proof.
  change (maxMultipartPutObjectSize / maxPartsCount) with 549755813.
  induction srcs as [|src srcs IH]; intros i totalSize totalParts Hi Hcount Hsize Hparts Hall;
    [reflexivity|].
  cbn [compose_sources].
  destruct (Hall 0%nat src eq_refl) as (c & Hc & Hmax & Hmin).
  rewrite Hc. pose proof (len_nonneg c) as Hpos.
  unfold slen in Hcount. cbn [List.length] in Hcount.
  assert (Hsmall : (len c <? absMinPartSize) && (i <? n - 1) = false).
  { destruct (Z.ltb_spec i (n - 1)) as [Hlt|Hge]; [|by rewrite andb_false_r].
    rewrite andb_true_r. apply Z.ltb_ge. apply Hmin. lia. }
  rewrite Hsmall.
  assert (Htotal : (maxMultipartPutObjectSize <? totalSize + len c) = false).
  { apply Z.ltb_ge. change maxMultipartPutObjectSize with 5497558138880.
    change maxPartsCount with 10000 in Hcount. nia. }
  rewrite Htotal.
  assert (Hone : 0 <= partsRequired (len c) <= 1).
  { unfold partsRequired.
    change (maxMultipartPutObjectSize / (maxPartsCount - 1)) with 549810794.
    rewrite Z.div_small by lia.
    destruct (0 <? len c mod 549810794); lia. }
  assert (Hmany : (maxPartsCount <? totalParts + partsRequired (len c)) = false).
  { apply Z.ltb_ge. lia. }
  rewrite Hmany.
  apply IH; try lia.
  - unfold slen. lia.
  - intros k src' Hk. destruct (Hall (S k) src' Hk) as (c' & Hc' & Hmax' & Hmin').
    exists c'. split; [exact Hc'|]. split; [exact Hmax'|]. intros Hlt. apply Hmin'. lia.
Qed.

(** A merge that fails has not touched the upload records or the queue. *)
Lemma MergeChunks_failure (f : faults) (presign : string → string)
    (fileMD5 fileName : string) (userID : Z) (w w' : world) (e : string) :
  MergeChunks f presign fileMD5 fileName userID w = (Err e, w') →
  file_upload w' = file_upload w ∧ topic w' = topic w ∧ rdb w' = rdb w.
Proof.
  unfold MergeChunks.
  destruct (GetFileUploadRecord f fileMD5 userID w) as [record|e0];
    [|by intros [= _ <-]].
  destruct (GetUploadedChunksFromRedis _ _ _ _ _) as [uploaded|e0];
    [|by intros [= _ <-]].
  destruct (_ <? _); [by intros [= _ <-]|].
  destruct (_ =? 1).
  - unfold copy_object.
    destruct (object_store_fails f); [by intros [= _ <-]|].
    cbn [logged bucket].
    destruct (bucket w !! _); [|by intros [= _ <-]].
    destruct (db_update_fails f); [by intros [= _ <-]|].
    unfold produce. by destruct (produce_fails f).
  - unfold compose_object.
    destruct (object_store_fails f); [by intros [= _ <-]|].
    destruct (_ || _); [by intros [= _ <-]|].
    cbn [logged bucket].
    destruct (compose_sources _ _ _ _ _ _); [|by intros [= _ <-]].
    destruct (gather _ _); [|by intros [= _ <-]].
    destruct (db_update_fails f); [by intros [= _ <-]|].
    unfold produce. by destruct (produce_fails f).
Qed.

End MergeFacts.

(** C5.  [MergeChunks] on an upload whose record and progress bitmap can be
    read.  With fewer recorded parts than [total_chunks] it fails and
    leaves the world as it was: nothing is composed and the status is not
    touched.  With all parts recorded, the object store and the status
    update working, and parts the object store accepts (all but the last of
    at least 5 MiB, none above the 10000th of 5 TiB), it makes one call on
    the object store, a copy of part 0 when there is one part and else a
    compose of the parts 0..N-1 in order, the merged object holds the parts
    in that order, the record is COMPLETE and the call returns the URL; this
    holds whether publishing the task failed or not.  Whenever the call
    fails, the upload records and the queue are as they were. *)
Theorem MergeChunks_all_or_nothing (f : UploadService.faults)
    (presign : string → string) (fileMD5 fileName : string) (userID : Z)
    (w : Store.world) (record : Model.FileUpload) (uploaded : list Z) :
  let total := UploadService.calculateTotalChunks (Model.fu_TotalSize record) in
  let dest := "merged/" +:+ fileName in
  let parts := map (UploadService.part_name fileMD5) (seqZ 0 total) in
  UploadService.GetFileUploadRecord f fileMD5 userID w = Ok record →
  UploadService.GetUploadedChunksFromRedis f fileMD5 userID total w = Ok uploaded →
  (Go.slen uploaded < total →
     ∃ e : string,
       UploadService.MergeChunks f presign fileMD5 fileName userID w = (Err e, w))
  ∧ (total <= Go.slen uploaded →
     UploadService.object_store_fails f = false →
     UploadService.db_update_fails f = false →
     1 <= total <= 10000 →
     (∀ (i : Z) (c : string), 0 <= i < total - 1 →
        Store.bucket w !! UploadService.part_name fileMD5 i = Some c →
        UploadService.absMinPartSize <= Go.len c) →
     (∀ (i : Z) (c : string), 0 <= i < total →
        Store.bucket w !! UploadService.part_name fileMD5 i = Some c →
        Go.len c
        <= UploadService.maxMultipartPutObjectSize / UploadService.maxPartsCount) →
     ∀ content : string,
       Store.gather parts (Store.bucket w) = Some content →
       ∃ (url : string) (w' : Store.world),
         UploadService.MergeChunks f presign fileMD5 fileName userID w = (Ok url, w') ∧
         Store.log w' =
           Store.log w ++
             [ (if total =? 1
                then Store.CopyObject dest (UploadService.part_name fileMD5 0)
                else Store.ComposeObject dest parts);
               Store.WriteMessages
                 {| Model.task_FileMD5 := fileMD5; Model.task_ObjectUrl := url;
                    Model.task_FileName := fileName; Model.task_UserID := userID;
                    Model.task_OrgTag := Model.fu_OrgTag record;
                    Model.task_IsPublic := Model.fu_IsPublic record |} ] ∧
         Store.bucket w' !! dest = Some content ∧
         Store.first_upload fileMD5 userID w' = Some (Store.with_status 1 record) ∧
         (UploadService.produce_fails f = true → Store.topic w' = Store.topic w))
  ∧ (∀ (e : string) (w' : Store.world),
       UploadService.MergeChunks f presign fileMD5 fileName userID w = (Err e, w') →
       Store.file_upload w' = Store.file_upload w ∧ Store.topic w' = Store.topic w).
Proof.
  intros total dest parts Hrecord Huploaded.
  assert (Hfind : Store.first_upload fileMD5 userID w = Some record).
  { unfold UploadService.GetFileUploadRecord in Hrecord.
    destruct (UploadService.db_read_fails f); [discriminate|].
    destruct (Store.first_upload fileMD5 userID w); [|discriminate].
    by injection Hrecord as ->. }
  split; [|split];
    [| |intros e w' Hfail;
        destruct (MergeChunks_failure _ _ _ _ _ _ _ _ Hfail) as (Hrows & Htopic & _);
        by split].
  all: unfold UploadService.MergeChunks; rewrite Hrecord; fold total; rewrite Huploaded.
  - intros Hlt. destruct (Z.ltb_spec (Go.slen uploaded) total); [|lia].
    eexists. reflexivity.
  - intros Hle Hstore Hupdate Htotal Hmin Hmax content Hgather.
    destruct (Z.ltb_spec (Go.slen uploaded) total); [lia|].
    fold dest. fold parts. rewrite Hupdate.
    destruct (Z.eqb_spec total 1) as [Hone | Hmany].
    + unfold UploadService.copy_object. rewrite Hstore. cbn [Store.logged Store.bucket].
      subst parts. rewrite Hone in Hgather.
      change (seqZ 0 1) with [0] in Hgather. cbn [map Store.gather] in Hgather.
      destruct (Store.bucket w !! UploadService.part_name fileMD5 0) as [c|] eqn:Hpart;
        [|discriminate].
      injection Hgather as <-. rewrite append_nil_r.
      unfold UploadService.produce.
      destruct (UploadService.produce_fails f); cbv beta iota zeta;
        (eexists _, _; split; [reflexivity|]);
        cbn [Store.log Store.logged Store.set_topic Store.update_status
             Store.set_file_upload Store.set_bucket Store.bucket Store.topic];
        rewrite <- app_assoc;
        (split; [reflexivity|]); (split; [apply lookup_insert_eq|]);
        (split; [|done]);
        by apply (first_upload_update_status fileMD5 userID 1 _ record).
    + unfold UploadService.compose_object. rewrite Hstore.
      cbn [Store.logged Store.bucket].
      assert (Hlen : Go.slen parts = total).
      { subst parts. unfold Go.slen. rewrite length_map, length_seqZ. lia. }
      rewrite Hlen. change UploadService.maxPartsCount with 10000 at 1.
      destruct (Z.ltb_spec total 1); [lia|].
      destruct (Z.ltb_spec 10000 total); [lia|]. cbn [orb].
      rewrite (compose_sources_ok (Store.bucket w) total parts 0 0 0); try lia.
      * rewrite Hgather.
        unfold UploadService.produce.
        destruct (UploadService.produce_fails f); cbv beta iota zeta;
          (eexists _, _; split; [reflexivity|]);
          cbn [Store.log Store.logged Store.set_topic Store.update_status
               Store.set_file_upload Store.set_bucket Store.bucket Store.topic];
          rewrite <- app_assoc;
          (split; [reflexivity|]); (split; [apply lookup_insert_eq|]);
          (split; [|done]);
          by apply (first_upload_update_status fileMD5 userID 1 _ record).
      * rewrite Hlen. change UploadService.maxPartsCount with 10000. lia.
      * intros k src Hk.
        destruct (gather_lookup _ _ _ Hgather k src Hk) as [c Hc].
        subst parts. rewrite list_lookup_fmap in Hk.
        destruct (seqZ 0 total !! k) as [i|] eqn:Hi; [|discriminate].
        apply lookup_seqZ in Hi as [-> Hk']. injection Hk as <-.
        rewrite Z.add_0_l in *.
        exists c. split; [exact Hc|]. split.
        -- apply (Hmax (Z.of_nat k)); [lia | exact Hc].
        -- intros Hlt. apply (Hmin (Z.of_nat k)); [lia | exact Hc].
Qed.

Lemma MergeChunks_all_or_nothing_witness :
  ∃ (url : string) (w' : Store.world),
    UploadService.MergeChunks Sample.queue_down Sample.presign Sample.md5 "guide.txt" 1
      Sample.sliced_world = (Ok url, w') ∧
    Store.bucket w' !! "merged/guide.txt" = Some (Sample.full_part +:+ "CD") ∧
    Store.first_upload Sample.md5 1 w' = Some (Store.with_status 1 Sample.upload) ∧
    Store.topic w' = [].
Proof.
  assert (Htotal : UploadService.calculateTotalChunks (Model.fu_TotalSize Sample.upload) = 2)
    by (vm_compute; reflexivity).
  assert (Hfull : Go.len Sample.full_part = UploadService.DefaultChunkSize).
  { unfold Sample.full_part. rewrite len_string_of_bytes. unfold Go.slen.
    rewrite repeat_length. apply Z2Nat.id. discriminate. }
  assert (H0 : Store.bucket Sample.sliced_world !! UploadService.part_name Sample.md5 0
               = Some Sample.full_part) by reflexivity.
  assert (H1 : Store.bucket Sample.sliced_world !! UploadService.part_name Sample.md5 1
               = Some "CD") by reflexivity.
  destruct (MergeChunks_all_or_nothing Sample.queue_down Sample.presign Sample.md5
              "guide.txt" 1 Sample.sliced_world Sample.upload [0; 1])
    as (_ & Hmerge & _).
  - reflexivity.
  - rewrite Htotal. reflexivity.
  - rewrite Htotal in Hmerge.
    destruct (Hmerge ltac:(vm_compute; discriminate) eq_refl eq_refl ltac:(lia))
      with (content := Sample.full_part +:+ "CD")
      as (url & w' & Hrun & _ & Hbucket & Hstatus & Htopic).
    + intros i c Hi Hc. assert (i = 0) as -> by lia.
      rewrite H0 in Hc. apply (inj Some) in Hc as <-. rewrite Hfull. reflexivity.
    + intros i c Hi Hc. assert (i = 0 ∨ i = 1) as [-> | ->] by lia.
      * rewrite H0 in Hc. apply (inj Some) in Hc as <-. rewrite Hfull. discriminate.
      * rewrite H1 in Hc. apply (inj Some) in Hc as <-. discriminate.
    + change (seqZ 0 2) with [0; 1]. cbn [map Store.gather].
      rewrite H0, H1. reflexivity.
    + exists url, w'. split; [exact Hrun|]. split; [exact Hbucket|].
      split; [exact Hstatus|]. exact (Htopic eq_refl).
Defined.

(** Two recorded parts of two bytes each: the object store refuses to
    compose them, the merge fails and the record stays as it was. *)
Example MergeChunks_undersized_part :
  ∃ w' : Store.world,
    UploadService.MergeChunks Sample.queue_down Sample.presign Sample.md5 "guide.txt" 1
      Sample.merge_world
    = (Err "CopySrcOptions 0 is too small (2) and it is not the last part.", w') ∧
    Store.file_upload w' = [Sample.upload] ∧ Store.topic w' = [].
Proof. eexists. split; [vm_compute; reflexivity|]. split; reflexivity. Qed.

(** ** Deleting a document *)

Section Delete.
Import Go Model Store DocumentService.

Lemma filter_negb_absent {A} (p : A → bool) (l : list A) (x : A) :
  x ∈ List.filter (fun y => negb (p y)) l → p x = false.
Proof.
  intros Hin. apply list_elem_of_In, filter_In in Hin as [_ Hp].
  by apply negb_true_iff in Hp.
Qed.

Lemma find_filter_negb {A} (p : A → bool) (l : list A) :
  List.find p (List.filter (fun y => negb (p y)) l) = None.
Proof.
  induction l as [|x l IH]; [reflexivity|].
  cbn. destruct (p x) eqn:Hp; cbn; [exact IH|]. by rewrite Hp.
Qed.

(** The record found for a user belongs to that user and has the
    fingerprint asked for. *)
Lemma first_upload_matches (fileMD5 : string) (userID : Z) (w : world)
    (record : FileUpload) :
  first_upload fileMD5 userID w = Some record →
  fu_FileMD5 record = fileMD5 ∧ fu_UserID record = userID.
Proof.
  intros Hfind. apply find_some in Hfind as [_ Hp].
  unfold upload_matches in Hp. apply andb_true_iff in Hp as [Hmd5 Huser].
  split; [by apply String.eqb_eq | by apply Z.eqb_eq].
Qed.

End Delete.

(** C7, as the code has it.  A caller who is not an administrator and has
    no upload record of his own for the fingerprint is refused, and nothing
    is changed; such a caller succeeds exactly when he has a record and the
    three row deletions work.  For a caller who has a record,
    [DeleteDocument] asks the object store to remove the merged object,
    whatever the answer, and then tries the three row deletions one after
    the other: each one that works removes its rows (the part rows and the
    chunk rows of the fingerprint, the upload row of the caller) whether
    the others work or not, and the call succeeds exactly when all three
    work.  The search index is left as it is. *)
Theorem DeleteDocument_owner (f : DocumentService.faults) (fileMD5 : string)
    (user : Model.User) (w : Store.world) :
  let r := (DocumentService.DeleteDocument f fileMD5 user w).1 in
  let w' := (DocumentService.DeleteDocument f fileMD5 user w).2 in
  (Model.user_Role user ≠ "ADMIN" →
     Store.first_upload fileMD5 (Model.user_ID user) w = None →
     r = Err "文件不存在或不属于该用户" ∧ w' = w) ∧
  (Model.user_Role user ≠ "ADMIN" →
     (r = Ok () ↔
        (∃ record : Model.FileUpload,
            Store.first_upload fileMD5 (Model.user_ID user) w = Some record) ∧
        DocumentService.db_read_fails f = false ∧
        DocumentService.delete_chunk_info_fails f = false ∧
        DocumentService.delete_vectors_fails f = false ∧
        DocumentService.delete_upload_fails f = false)) ∧
  (∀ record : Model.FileUpload,
     DocumentService.GetFileUploadRecord f fileMD5 (Model.user_ID user) w = Ok record →
     (r = Ok () ↔
        DocumentService.delete_chunk_info_fails f = false ∧
        DocumentService.delete_vectors_fails f = false ∧
        DocumentService.delete_upload_fails f = false) ∧
     Store.log w'
       = Store.log w ++ [Store.RemoveObject ("merged/" +:+ Model.fu_FileName record)] ∧
     (DocumentService.remove_object_fails f = false →
        Store.bucket w' !! ("merged/" +:+ Model.fu_FileName record) = None) ∧
     (DocumentService.delete_chunk_info_fails f = false →
        ∀ c, c ∈ Store.chunk_info w' → Model.ci_FileMD5 c ≠ fileMD5) ∧
     (DocumentService.delete_vectors_fails f = false →
        ∀ v, v ∈ Store.document_vectors w' → Model.dv_FileMD5 v ≠ fileMD5) ∧
     (DocumentService.delete_upload_fails f = false →
        Store.first_upload fileMD5 (Model.user_ID user) w' = None) ∧
     Store.index w' = Store.index w).
Proof.
  intros r w'.
  assert (Hrefused :
    Store.first_upload fileMD5 (Model.user_ID user) w = None →
    r = Err "文件不存在或不属于该用户" ∧ w' = w).
  { intros Hnone. subst r w'.
    unfold DocumentService.DeleteDocument, DocumentService.GetFileUploadRecord.
    rewrite Hnone. by destruct (DocumentService.db_read_fails f). }
  assert (Howned : ∀ record : Model.FileUpload,
    DocumentService.GetFileUploadRecord f fileMD5 (Model.user_ID user) w = Ok record →
    (r = Ok () ↔
       DocumentService.delete_chunk_info_fails f = false ∧
       DocumentService.delete_vectors_fails f = false ∧
       DocumentService.delete_upload_fails f = false) ∧
    Store.log w'
      = Store.log w ++ [Store.RemoveObject ("merged/" +:+ Model.fu_FileName record)] ∧
    (DocumentService.remove_object_fails f = false →
       Store.bucket w' !! ("merged/" +:+ Model.fu_FileName record) = None) ∧
    (DocumentService.delete_chunk_info_fails f = false →
       ∀ c, c ∈ Store.chunk_info w' → Model.ci_FileMD5 c ≠ fileMD5) ∧
    (DocumentService.delete_vectors_fails f = false →
       ∀ v, v ∈ Store.document_vectors w' → Model.dv_FileMD5 v ≠ fileMD5) ∧
    (DocumentService.delete_upload_fails f = false →
       Store.first_upload fileMD5 (Model.user_ID user) w' = None) ∧
    Store.index w' = Store.index w).
  { intros record Hrecord. subst r w'.
    assert (Hfind : Store.first_upload fileMD5 (Model.user_ID user) w = Some record).
    { unfold DocumentService.GetFileUploadRecord in Hrecord.
      destruct (DocumentService.db_read_fails f); [discriminate|].
      destruct (Store.first_upload fileMD5 (Model.user_ID user) w); [|discriminate].
      by injection Hrecord as ->. }
    destruct (first_upload_matches _ _ _ _ Hfind) as [_ Howner].
    unfold DocumentService.DeleteDocument. rewrite Hrecord, Howner, Z.eqb_refl.
    cbn [negb andb].
    unfold DocumentService.remove_object, DocumentService.DeleteFileUploadRecord.
    destruct (DocumentService.remove_object_fails f);
      destruct (DocumentService.delete_chunk_info_fails f);
      destruct (DocumentService.delete_vectors_fails f);
      destruct (DocumentService.delete_upload_fails f);
      cbn;
      (split; [split; [first [discriminate | done] | first [done | intros (? & ? & ?); discriminate]]|]);
      (split; [reflexivity|]);
      (split; [first [discriminate | intros _; apply lookup_delete_eq]|]);
      (split; [first [discriminate
                     | intros _ c Hc Heq; apply filter_negb_absent in Hc;
                       apply String.eqb_neq in Hc; done]|]);
      (split; [first [discriminate
                     | intros _ v Hv Heq; apply filter_negb_absent in Hv;
                       apply String.eqb_neq in Hv; done]|]);
      (split; [first [discriminate | intros _; apply find_filter_negb]|]);
      reflexivity. }
  split; [intros _; exact Hrefused|]. split; [|exact Howned].
  intros _.
  destruct (Store.first_upload fileMD5 (Model.user_ID user) w) as [record|] eqn:Hfind.
  - destruct (DocumentService.db_read_fails f) eqn:Hread.
    + split.
      * subst r. unfold DocumentService.DeleteDocument,
          DocumentService.GetFileUploadRecord. rewrite Hread. discriminate.
      * intros (_ & Hup & _). discriminate.
    + destruct (Howned record) as [Hiff _].
      { unfold DocumentService.GetFileUploadRecord. by rewrite Hread, Hfind. }
      split.
      * intros Hok. split; [by exists record|]. split; [reflexivity|]. by apply Hiff.
      * intros (_ & _ & Hdel). by apply Hiff.
  - destruct (Hrefused eq_refl) as [Herr _]. split.
    + intros Hok. rewrite Hok in Herr. discriminate.
    + intros ([record Hrecord] & _). discriminate.
Qed.

Lemma DeleteDocument_owner_witness :
  ((DocumentService.DeleteDocument Sample.stores_up Sample.md5 Sample.U1
      Sample.stored_world).1 = Ok () ∧
   Store.bucket (DocumentService.DeleteDocument Sample.stores_up Sample.md5 Sample.U1
                   Sample.stored_world).2 !! "merged/guide.txt" = None) ∧
  ((DocumentService.DeleteDocument Sample.stores_up Sample.md5 Sample.U2
      Sample.stored_world).1 = Err "文件不存在或不属于该用户" ∧
   (DocumentService.DeleteDocument Sample.stores_up Sample.md5 Sample.U2
      Sample.stored_world).2 = Sample.stored_world).
Proof.
  split.
  - destruct (DeleteDocument_owner Sample.stores_up Sample.md5 Sample.U1
                Sample.stored_world) as (_ & _ & Howned).
    destruct (Howned (Store.with_status 1 Sample.upload)) as (Hok & _ & Hobject & _).
    + vm_compute. reflexivity.
    + split.
      * apply Hok. repeat split; reflexivity.
      * exact (Hobject eq_refl).
  - destruct (DeleteDocument_owner Sample.stores_up Sample.md5 Sample.U2
                Sample.stored_world) as (Hrefused & _).
    apply Hrefused.
    + discriminate.
    + vm_compute. reflexivity.
Defined.

(** C7, as the design document has it, fails: the owner deletes the
    document, the call succeeds, and the entry of its chunk, whose
    [file_md5] is the fingerprint, is still in the index. *)
Lemma DeleteDocument_leaves_index_entries :
  (DocumentService.DeleteDocument Sample.stores_up Sample.md5 Sample.U1
     Sample.stored_world).1 = Ok () ∧
  ∃ doc : Model.EsDocument,
    Store.index (DocumentService.DeleteDocument Sample.stores_up Sample.md5 Sample.U1
                   Sample.stored_world).2 !! (Sample.md5 +:+ "_0") = Some doc ∧
    Model.es_FileMD5 doc = Sample.md5.
Proof.
  split; [vm_compute; reflexivity|].
  exists Sample.chunk_doc. split; vm_compute; reflexivity.
Qed.

(** The record is looked up under the id of the caller, so the role check
    that follows never sees the record of another user: an administrator
    who asks for the document of [U1] is told that it does not exist, and
    nothing is deleted. *)
Example DeleteDocument_admin_foreign_record :
  DocumentService.DeleteDocument Sample.stores_up Sample.md5 Sample.admin
    Sample.stored_world
  = (Err "文件不存在或不属于该用户", Sample.stored_world).
Proof. vm_compute. reflexivity. Qed.

(** ** Processing a task *)

Section ProcessFacts.
Import Go Model Store Pipeline.

Variable ExtractText : string → string → result string.
Variable CreateEmbedding : string → result (list float32).
Variable embeddingCfg_Model : string.
Variable f : faults.

Local Abbreviation doc := (doc_of CreateEmbedding embeddingCfg_Model).
Local Abbreviation put :=
  (fun (idx : gmap string EsDocument) (row : DocumentVector) =>
     <[es_VectorID (doc row) := doc row]> idx).

(** Indexing touches the index and nothing else; when it succeeds every row
    was put under its document id, in turn. *)
Lemma index_all_spec (rows : list DocumentVector) :
  ∀ (w w' : world) (r : result unit),
    index_all CreateEmbedding embeddingCfg_Model f rows w = (r, w') →
    file_upload w' = file_upload w ∧ chunk_info w' = chunk_info w ∧
    document_vectors w' = document_vectors w ∧
    next_vector_id w' = next_vector_id w ∧ rdb w' = rdb w ∧
    bucket w' = bucket w ∧ topic w' = topic w ∧ log w' = log w ∧
    (r = Ok () → index w' = foldl put (index w) rows).
Proof.
  induction rows as [|row rows IH]; intros w w' r Hrun; cbn [index_all] in Hrun.
  - injection Hrun as <- <-. done.
  - unfold doc_of in *. 
    destruct (CreateEmbedding (dv_TextContent row)) as [vector|e] eqn:Hemb.
    + unfold IndexDocument in Hrun.
      destruct (index_fails f (es_VectorID (esDoc_of embeddingCfg_Model row vector))).
      * injection Hrun as <- <-. repeat split; try reflexivity. discriminate.
      * apply IH in Hrun. cbn [foldl]. unfold doc_of. rewrite Hemb.
        exact Hrun.
    + injection Hrun as <- <-. repeat split; try reflexivity. discriminate.
Qed.

Lemma doc_of_with_vector_id (id : Z) (row : DocumentVector) :
  doc (with_vector_id id row) = doc row.
Proof. reflexivity. Qed.

Lemma foldl_put_number_from (rows : list DocumentVector) :
  ∀ (next : Z) (idx : gmap string EsDocument),
    foldl put idx (number_from next rows) = foldl put idx rows.
Proof.
  induction rows as [|row rows IH]; intros next idx; [reflexivity|].
  cbn [number_from foldl]. rewrite doc_of_with_vector_id. apply IH.
Qed.

(** When the rows have different document ids, each of them is found in the
    index afterwards. *)
Lemma foldl_put_lookup (rows : list DocumentVector) :
  ∀ (idx : gmap string EsDocument),
    NoDup (map (fun row => es_VectorID (doc row)) rows) →
    ∀ row, row ∈ rows →
      foldl put idx rows !! es_VectorID (doc row) = Some (doc row).
Proof.
  induction rows as [|row0 rows IH] using rev_ind; intros idx Hnd row Hin;
    [by apply elem_of_nil in Hin|].
  rewrite foldl_snoc. rewrite map_app in Hnd.
  apply NoDup_app in Hnd as (Hnd & Hfresh & _).
  apply elem_of_app in Hin as [Hin | Hin].
  - rewrite lookup_insert_ne; [by apply IH|].
    intros Heq. apply (Hfresh (es_VectorID (doc row))).
    + apply list_elem_of_fmap. by exists row.
    + rewrite <- Heq. apply list_elem_of_singleton. reflexivity.
  - apply list_elem_of_singleton in Hin as ->. apply lookup_insert_eq.
Qed.


Lemma dbVectors_of_lookup (task : FileProcessingTask) (chunks : list string)
    (k : nat) (row : DocumentVector) :
  dbVectors_of task chunks !! k = Some row →
  ∃ chunk, chunks !! k = Some chunk ∧
    dv_FileMD5 row = task_FileMD5 task ∧ dv_ChunkID row = Z.of_nat k ∧
    dv_TextContent row = chunk.
Proof.
  unfold dbVectors_of. rewrite list_lookup_imap.
  destruct (chunks !! k) as [chunk|]; [|discriminate].
  cbn. intros [= <-]. by exists chunk.
Qed.

(** The document ids of the rows of one file differ: the decimal chunk
    numbers do. *)
Lemma dbVectors_of_ids_NoDup (task : FileProcessingTask) (chunks : list string) :
  NoDup (map (fun row => es_VectorID (doc row)) (dbVectors_of task chunks)).
Proof.
  apply NoDup_alt. intros i j id Hi Hj.
  rewrite list_lookup_fmap in Hi, Hj.
  destruct (dbVectors_of task chunks !! i) as [ri|] eqn:Hri; [|discriminate].
  destruct (dbVectors_of task chunks !! j) as [rj|] eqn:Hrj; [|discriminate].
  apply dbVectors_of_lookup in Hri as (_ & _ & Hmi & Hci & _).
  apply dbVectors_of_lookup in Hrj as (_ & _ & Hmj & Hcj & _).
  cbn in Hi, Hj. injection Hi as Hi. injection Hj as Hj. subst id.
  unfold doc_of, esDoc_of in Hj. cbn [es_VectorID] in Hj.
  rewrite Hmi, Hmj, Hci, Hcj in Hj.
  apply String.app_inj, String.app_inj in Hj.
  apply (inj pretty) in Hj. lia.
Qed.

Lemma filter_filter_negb {A} (p : A → bool) (l : list A) :
  List.filter p (List.filter (fun x => negb (p x)) l) = [].
Proof.
  induction l as [|x l IH]; [reflexivity|].
  cbn. destruct (p x) eqn:Hp; cbn; [exact IH|]. by rewrite Hp.
Qed.

Lemma filter_all {A} (p : A → bool) (l : list A) :
  (∀ x, x ∈ l → p x = true) → List.filter p l = l.
Proof.
  induction l as [|x l IH]; intros Hall; [reflexivity|].
  cbn. rewrite (Hall x) by left. f_equal. apply IH. intros y Hy. apply Hall. by right.
Qed.

Lemma number_from_elem (rows : list DocumentVector) :
  ∀ (next : Z) (row : DocumentVector),
    row ∈ number_from next rows →
    ∃ id row0, row0 ∈ rows ∧ row = with_vector_id id row0.
Proof.
  induction rows as [|row0 rows IH]; intros next row Hin;
    [by apply elem_of_nil in Hin|].
  cbn [number_from] in Hin. apply elem_of_cons in Hin as [-> | Hin].
  - exists next, row0. split; [left | reflexivity].
  - apply IH in Hin as (id & r & Hr & ->). exists id, r. split; [by right | reflexivity].
Qed.

Lemma length_number_from (rows : list DocumentVector) (next : Z) :
  List.length (number_from next rows) = List.length rows.
Proof. revert next. induction rows as [|r rows IH]; intros next; cbn; [done | by rewrite IH]. Qed.

(** After the old rows of the file were deleted and the new ones inserted,
    the rows of the file are the new ones. *)
Lemma vectors_of_fresh (task : FileProcessingTask) (chunks : list string) (w : world) :
  vectors_of (task_FileMD5 task)
    (insert_vectors (dbVectors_of task chunks) (delete_vectors (task_FileMD5 task) w))
  = number_from (next_vector_id w) (dbVectors_of task chunks).
Proof.
  unfold vectors_of, insert_vectors, delete_vectors.
  cbn [document_vectors set_document_vectors next_vector_id].
  rewrite List.filter_app, filter_filter_negb. cbn [app].
  apply filter_all. intros row Hin.
  apply number_from_elem in Hin as (id & row0 & Hin & ->).
  apply list_elem_of_lookup in Hin as [k Hk].
  apply dbVectors_of_lookup in Hk as (_ & _ & Hmd5 & _).
  cbn. rewrite Hmd5. apply String.eqb_refl.
Qed.




Lemma filter_none {A} (p : A → bool) (l : list A) :
  (∀ x, x ∈ l → p x = false) → List.filter p l = [].
Proof.
  induction l as [|x l IH]; intros Hall; [reflexivity|].
  cbn. rewrite (Hall x) by left. apply IH. intros y Hy. apply Hall. by right.
Qed.


(** The chunk numbers and texts of the rows of a task, in order. *)
Lemma chunk_view_dbVectors (task : FileProcessingTask) (chunks : list string)
    (next : Z) :
  map (fun v => (dv_ChunkID v, dv_TextContent v))
      (number_from next (dbVectors_of task chunks))
  = imap (fun i chunk => (Z.of_nat i, chunk)) chunks.
Proof.
  apply list_eq. intros k. rewrite list_lookup_fmap, list_lookup_imap.
  destruct (number_from next (dbVectors_of task chunks) !! k) as [row|] eqn:Hrow.
  - assert (Hin : ∃ id row0, dbVectors_of task chunks !! k = Some row0
                    ∧ row = with_vector_id id row0).
    { clear -Hrow. revert next k Hrow.
      induction (dbVectors_of task chunks) as [|r rows IH]; intros next k Hrow;
        [done|].
      destruct k as [|k]; cbn in Hrow.
      - injection Hrow as <-. by exists next, r.
      - apply IH in Hrow as (id & r0 & Hr0 & ->). by exists id, r0. }
    destruct Hin as (id & row0 & Hrow0 & ->).
    apply dbVectors_of_lookup in Hrow0 as (chunk & Hchunk & _ & Hid & Htext).
    rewrite Hchunk. cbn. by rewrite Hid, Htext.
  - apply lookup_ge_None in Hrow.
    rewrite length_number_from in Hrow. unfold dbVectors_of in Hrow.
    rewrite length_imap in Hrow. apply lookup_ge_None in Hrow. by rewrite Hrow.
Qed.

End ProcessFacts.



(** The rows after the first run: the stale row of the file is gone and the
    two chunks of the text are numbered 0 and 1. *)
Example Process_rows_renumbered :
  map Model.dv_ChunkID (Store.document_vectors (Sample.after Sample.merged_world)) = [0; 1]
  ∧ map Go.rune_count
      (map Model.dv_TextContent (Store.document_vectors (Sample.after Sample.merged_world)))
    = [1000; 101].
Proof. split; vm_compute; reflexivity. Qed.

(** When the deletion of the old rows fails, the run only logs it: both
    runs succeed and each adds the two chunks to the rows of the file. *)
Example Process_failed_deletion_adds_rows :
  ∃ w1 w2 : Store.world,
    Pipeline.Process Sample.extract Sample.embed "text-embedding-v4" Sample.delete_down
      1002 Sample.task Sample.merged_world = Ret (Ok (), w1) ∧
    Pipeline.Process Sample.extract Sample.embed "text-embedding-v4" Sample.delete_down
      1002 Sample.task w1 = Ret (Ok (), w2) ∧
    map Model.dv_ChunkID (Store.document_vectors Sample.merged_world) = [0] ∧
    map Model.dv_ChunkID (Store.document_vectors w1) = [0; 0; 1] ∧
    map Model.dv_ChunkID (Store.document_vectors w2) = [0; 0; 1; 0; 1].
Proof.
  eexists _, _. split; [vm_compute; reflexivity|].
  split; [vm_compute; reflexivity|].
  split; [reflexivity|]. split; vm_compute; reflexivity.
Qed.

(** ** Further properties of the search service *)

(** The normalized query of a query that is not empty is not empty: when
    nothing is left of the query it is kept as it is, and then there is no
    phrase; otherwise the phrase is the normalized query. *)
Theorem normalizeQuery_keeps_something (unicode_ToLower : Z → Z)
    (unicode_Han : Z → bool) (q : string) :
  q ≠ "" →
  let normalized := (SearchService.normalizeQuery unicode_ToLower unicode_Han q).1 in
  let phrase := (SearchService.normalizeQuery unicode_ToLower unicode_Han q).2 in
  normalized ≠ "" ∧ ((phrase = "" ∧ normalized = q) ∨ (phrase = normalized)).
Proof.
  intros Hq. unfold SearchService.normalizeQuery.
  destruct (String.eqb_spec q "") as [|_]; [done|].
  match goal with |- context [String.eqb ?k ""] => destruct (String.eqb_spec k "") as [Hk|Hk] end;
    cbn [fst snd].
  - split; [exact Hq | by left].
  - split; [exact Hk | by right].
Qed.

Lemma normalizeQuery_keeps_something_witness :
  (SearchService.normalizeQuery Sample.lower Sample.han_script "?").1 ≠ "".
Proof.
  destruct (normalizeQuery_keeps_something Sample.lower Sample.han_script "?") as [Hne _].
  - discriminate.
  - exact Hne.
Defined.

(** The bodies [HybridSearch] sends to the indexer.  None when the embedder
    fails.  Otherwise the map literal, once, and a second time when the
    first answer has no hit and there is a phrase that differs from the
    query: the body of the retry is the body of the first request, since
    the phrase the retry writes into it is the normalized query, which is
    there already. *)
Theorem HybridSearch_retry_resends
    (unicode_ToLower : Z → Z) (unicode_Han : Z → bool)
    (GetUserEffectiveOrgTags : Model.User → result (list string))
    (CreateEmbedding : string → result (list Model.float32))
    (Search : nat → SearchService.value → SearchService.es_reply)
    (FindBatchByMD5s : list string → result (list Model.FileUpload))
    (query : string) (topK : Z) (user : Model.User) :
  let r := SearchService.HybridSearch unicode_ToLower unicode_Han
             GetUserEffectiveOrgTags CreateEmbedding Search FindBatchByMD5s
             query topK user in
  let normalized := (SearchService.normalizeQuery unicode_ToLower unicode_Han query).1 in
  let phrase := (SearchService.normalizeQuery unicode_ToLower unicode_Han query).2 in
  match CreateEmbedding query with
  | Err _ => SearchService.sent r = []
  | Ok queryVector =>
    let q := SearchService.esQuery_of queryVector topK user
               (SearchService.tags_used GetUserEffectiveOrgTags user)
               normalized phrase in
    SearchService.sent r =
      match Search 0%nat q with
      | SearchService.EsHits [] =>
        if negb (String.eqb phrase "") && negb (String.eqb phrase query)
        then [q; q] else [q]
      | _ => [q]
      end
  end.
Proof.
  intros r normalized phrase. subst r normalized phrase.
  unfold SearchService.HybridSearch.
  fold (SearchService.tags_used GetUserEffectiveOrgTags user).
  pose proof (normalizeQuery_phrase unicode_ToLower unicode_Han query) as Hphrase.
  destruct (SearchService.normalizeQuery unicode_ToLower unicode_Han query) as [n p].
  cbn [fst snd].
  destruct (CreateEmbedding query) as [queryVector|e]; [|reflexivity].
  cbv zeta.
  match goal with |- context [Search 0%nat ?b] =>
    destruct (Search 0%nat b) as [e|e|e partial|hits] end;
    try reflexivity.
  destruct hits; [|reflexivity].
  destruct (String.eqb_spec p "") as [Hempty | Hne]; cbn [negb andb]; [reflexivity|].
  destruct (negb (String.eqb p query)); [|reflexivity].
  destruct Hphrase as [-> | ->]; [done|].
  rewrite retryQuery_of_esQuery. reflexivity.
Qed.

(** [HybridSearch] does not panic: the two assignments of the retry find
    the maps they assert. *)
Theorem HybridSearch_returns
    (unicode_ToLower : Z → Z) (unicode_Han : Z → bool)
    (GetUserEffectiveOrgTags : Model.User → result (list string))
    (CreateEmbedding : string → result (list Model.float32))
    (Search : nat → SearchService.value → SearchService.es_reply)
    (FindBatchByMD5s : list string → result (list Model.FileUpload))
    (query : string) (topK : Z) (user : Model.User) :
  ∃ answer : result (list Model.SearchResponseDTO),
    SearchService.reply
      (SearchService.HybridSearch unicode_ToLower unicode_Han
         GetUserEffectiveOrgTags CreateEmbedding Search FindBatchByMD5s
         query topK user) = Ret answer.
Proof.
  unfold SearchService.HybridSearch.
  destruct (SearchService.normalizeQuery unicode_ToLower unicode_Han query) as [n p].
  destruct (CreateEmbedding query) as [queryVector|e]; [|eexists; reflexivity].
  match goal with |- context [Search 0%nat ?b] =>
    destruct (Search 0%nat b) as [e|e|e partial|hits] end;
    try (eexists; reflexivity).
  destruct hits; [|eexists; reflexivity].
  destruct (negb (String.eqb p "") && negb (String.eqb p query)); [|eexists; reflexivity].
  rewrite retryQuery_of_esQuery. cbn [SearchService.reply].
  match goal with |- context [Search 1%nat ?b] =>
    destruct (Search 1%nat b) as [e|e|e [|h partial]|[|h hits]] end;
    eexists; reflexivity.
Qed.

(** When the first request has no hit, a retry that fails or finds nothing
    is not an error: the search returns the empty list. *)
Theorem HybridSearch_no_hits
    (unicode_ToLower : Z → Z) (unicode_Han : Z → bool)
    (GetUserEffectiveOrgTags : Model.User → result (list string))
    (CreateEmbedding : string → result (list Model.float32))
    (Search : nat → SearchService.value → SearchService.es_reply)
    (FindBatchByMD5s : list string → result (list Model.FileUpload))
    (query : string) (topK : Z) (user : Model.User)
    (queryVector : list Model.float32) :
  CreateEmbedding query = Ok queryVector →
  (∀ body, Search 0%nat body = SearchService.EsHits []) →
  (∀ body hits, Search 1%nat body = SearchService.EsHits hits → hits = []) →
  (∀ body e partial,
      Search 1%nat body = SearchService.EsGarbage e partial → partial = []) →
  SearchService.reply
    (SearchService.HybridSearch unicode_ToLower unicode_Han
       GetUserEffectiveOrgTags CreateEmbedding Search FindBatchByMD5s
       query topK user) = Ret (Ok []).
Proof.
  intros Hemb Hfirst Hretry Hgarbage. unfold SearchService.HybridSearch.
  destruct (SearchService.normalizeQuery unicode_ToLower unicode_Han query) as [n p].
  rewrite Hemb, Hfirst.
  destruct (negb (String.eqb p "") && negb (String.eqb p query)); [|reflexivity].
  rewrite retryQuery_of_esQuery. cbn [SearchService.reply].
  match goal with |- context [Search 1%nat ?b] =>
    destruct (Search 1%nat b) as [e|e|e partial|hits] eqn:Hsecond end; try reflexivity.
  - apply Hgarbage in Hsecond as ->. reflexivity.
  - apply Hretry in Hsecond as ->. reflexivity.
Qed.

Lemma HybridSearch_no_hits_witness :
  SearchService.reply
    (SearchService.HybridSearch Sample.lower Sample.han_script Sample.effective
       Sample.embed (fun n body => match n with
                                   | O => SearchService.EsHits []
                                   | _ => SearchService.EsFail "connection refused"
                                   end)
       Sample.no_files Sample.question 10 Sample.U1) = Ret (Ok []).
Proof.
  apply (HybridSearch_no_hits _ _ _ _ _ _ _ _ _ (Go.bytes_of Sample.question)).
  - reflexivity.
  - reflexivity.
  - intros body hits H. discriminate H.
  - intros body e partial H. discriminate H.
Defined.

(** The results of a search are the hits of the indexer, one for one and in
    their order, when the upload table answers the one batch query for the
    file names: each result carries the fingerprint, chunk number, text,
    score and tag of its hit, and a file name that is never empty.  When
    the table fails, so does the search. *)
Theorem assemble_one_per_hit
    (FindBatchByMD5s : list string → result (list Model.FileUpload))
    (hits : list SearchService.hit) :
  let md5List :=
    elements (list_to_set (map (fun h => Model.es_FileMD5 (SearchService.hit_Source h))
                               hits) : gset string) in
  (∀ e : string, FindBatchByMD5s md5List = Err e →
     SearchService.assemble FindBatchByMD5s hits = Err ("批量查询文件信息失败: " +:+ e)) ∧
  (∀ fileInfos : list Model.FileUpload, FindBatchByMD5s md5List = Ok fileInfos →
     ∃ results : list Model.SearchResponseDTO,
       SearchService.assemble FindBatchByMD5s hits = Ok results ∧
       List.length results = List.length hits ∧
       ∀ (k : nat) (h : SearchService.hit), hits !! k = Some h →
         ∃ d : Model.SearchResponseDTO,
           results !! k = Some d ∧
           Model.dto_FileMD5 d = Model.es_FileMD5 (SearchService.hit_Source h) ∧
           Model.dto_ChunkID d = Model.es_ChunkID (SearchService.hit_Source h) ∧
           Model.dto_TextContent d = Model.es_TextContent (SearchService.hit_Source h) ∧
           Model.dto_Score d = SearchService.hit_Score h ∧
           Model.dto_OrgTag d = Model.es_OrgTag (SearchService.hit_Source h) ∧
           Model.dto_IsPublic d = Model.es_IsPublic (SearchService.hit_Source h) ∧
           Model.dto_FileName d ≠ "").
Proof.
  intros md5List. unfold SearchService.assemble. fold md5List.
  split.
  - intros e ->. reflexivity.
  - intros fileInfos ->. eexists. split; [reflexivity|].
    split; [by rewrite length_map|].
    intros k h Hk. rewrite list_lookup_fmap, Hk. cbn [fmap option_fmap option_map].
    eexists. split; [reflexivity|]. cbn.
    repeat (split; [reflexivity|]).
    match goal with |- context [String.eqb ?name ""] =>
      destruct (String.eqb_spec name "") as [Hname|Hname] end;
      [discriminate | exact Hname].
Qed.

Lemma assemble_one_per_hit_witness :
  ∃ results : list Model.SearchResponseDTO,
    SearchService.assemble Sample.no_files
      [{| SearchService.hit_Source := Sample.chunk_doc; SearchService.hit_Score := 1 |}]
    = Ok results ∧
    map Model.dto_FileName results = ["未知文件"].
Proof.
  destruct (assemble_one_per_hit Sample.no_files
              [{| SearchService.hit_Source := Sample.chunk_doc;
                  SearchService.hit_Score := 1 |}]) as [_ Hok].
  destruct (Hok [] eq_refl) as (results & Hrun & _).
  exists results. split; [exact Hrun|].
  revert Hrun. vm_compute. intros [= <-]. reflexivity.
Defined.
(** ** The progress bitmap of an upload *)

Section Bitmap.
Import Go Model Store UploadService.

Lemma byte_of_range (c : ascii) : 0 <= byte_of c < 256.
Proof.
  unfold byte_of. pose proof (N_ascii_bounded c). lia.
Qed.

Lemma byte_of_ascii_of (b : Z) : 0 <= b < 256 → byte_of (ascii_of b) = b.
Proof.
  intros Hb. unfold byte_of, ascii_of.
  rewrite Z.mod_small by lia.
  rewrite N_ascii_embedding by lia. lia.
Qed.

Lemma bytes_of_range (s : string) : Forall (fun b => 0 <= b < 256) (bytes_of s).
Proof.
  induction s as [|c s IH]; cbn [bytes_of]; constructor; auto using byte_of_range.
Qed.

Lemma bytes_of_string_of_bytes (l : list Z) :
  Forall (fun b => 0 <= b < 256) l → bytes_of (string_of_bytes l) = l.
Proof.
  induction 1 as [|b l Hb _ IH]; cbn [string_of_bytes bytes_of]; [done|].
  by rewrite byte_of_ascii_of, IH.
Qed.

Lemma land_shiftr_1 (x k : Z) : 0 <= k → Z.land (Z.shiftr x k) 1 = Z.b2z (Z.testbit x k).
Proof.
  intros Hk. change 1 with (Z.ones 1). rewrite Z.land_ones by lia.
  change (2 ^ 1) with 2. rewrite <- Z.bit0_mod, Z.shiftr_spec by lia.
  by rewrite Z.add_0_l.
Qed.

Lemma land_7 (x : Z) : Z.land x 7 = x mod 8.
Proof. change 7 with (Z.ones 3). by rewrite Z.land_ones by lia. Qed.

Lemma shiftr_3 (x : Z) : Z.shiftr x 3 = x / 8.
Proof. by rewrite Z.shiftr_div_pow2 by lia. Qed.

Lemma redis_getbit_testbit (bitmap : list Z) (j : Z) :
  0 <= j →
  redis_getbit bitmap j
  = Z.b2z (Z.testbit (nth (Z.to_nat (j / 8)) bitmap 0) (7 - j mod 8)).
Proof.
  intros Hj. unfold redis_getbit.
  rewrite shiftr_3, land_7.
  pose proof (Z.mod_pos_bound j 8 ltac:(lia)).
  pose proof (Z.div_pos j 8 Hj ltac:(lia)).
  destruct (Z.ltb_spec (j / 8) (slen bitmap)) as [Hlt|Hge].
  - apply land_shiftr_1. lia.
  - rewrite nth_overflow by (unfold slen in Hge; lia).
    by rewrite Z.testbit_0_l.
Qed.

Lemma bit_set_getbit (bitmap : list Z) (i : Z) :
  0 <= i → bit_set bitmap i = (redis_getbit bitmap i =? 1).
Proof.
  intros Hi. unfold bit_set, redis_getbit.
  rewrite Z.quot_div_nonneg, Z.rem_mod_nonneg by lia.
  rewrite shiftr_3, land_7.
  by destruct (i / 8 <? slen bitmap).
Qed.

Lemma nth_redis_setbit (bitmap : list Z) (i : Z) (k : nat) :
  nth k (redis_setbit bitmap i) 0
  = if decide (k = Z.to_nat (Z.shiftr i 3))
    then Z.lor (nth k bitmap 0) (Z.shiftl 1 (7 - Z.land i 7))
    else nth k bitmap 0.
Proof.
  unfold redis_setbit.
  set (B := Z.to_nat (Z.shiftr i 3)).
  set (padded := bitmap ++ repeat 0 (S B - List.length bitmap)).
  assert (Hpad : ∀ n, nth n padded 0 = nth n bitmap 0).
  { intros n. unfold padded.
    destruct (decide (n < List.length bitmap)%nat) as [Hn|Hn].
    - by rewrite app_nth1.
    - rewrite app_nth2 by lia. rewrite (nth_overflow bitmap) by lia.
      by rewrite nth_repeat. }
  assert (HB : (B < List.length padded)%nat).
  { unfold padded. rewrite length_app, repeat_length. lia. }
  rewrite (nth_lookup (<[_ := _]> _)).
  destruct (decide (k = B)) as [->|Hk].
  - rewrite list_lookup_insert_eq by done. cbn. by rewrite Hpad.
  - rewrite list_lookup_insert_ne by done. by rewrite <- nth_lookup, Hpad.
Qed.

Lemma redis_getbit_setbit (bitmap : list Z) (i j : Z) :
  0 <= i → 0 <= j →
  redis_getbit (redis_setbit bitmap i) j
  = if j =? i then 1 else redis_getbit bitmap j.
Proof.
  intros Hi Hj. rewrite !redis_getbit_testbit by done.
  rewrite nth_redis_setbit.
  rewrite shiftr_3, land_7.
  pose proof (Z.mod_pos_bound j 8 ltac:(lia)).
  pose proof (Z.mod_pos_bound i 8 ltac:(lia)).
  pose proof (Z.div_pos j 8 Hj ltac:(lia)).
  pose proof (Z.div_pos i 8 Hi ltac:(lia)).
  pose proof (Z.div_mod j 8 ltac:(lia)).
  pose proof (Z.div_mod i 8 ltac:(lia)).
  destruct (decide _) as [Heq|Hne].
  - assert (Hdiv : j / 8 = i / 8) by lia.
    rewrite Z.lor_spec, Z.shiftl_spec by lia.
    destruct (Z.eqb_spec j i) as [->|Hji].
    + replace (7 - i mod 8 - (7 - i mod 8)) with 0 by lia.
      cbn. by rewrite orb_true_r.
    + destruct (Z.ltb_spec (7 - j mod 8 - (7 - i mod 8)) 0) as [Hneg|Hpos].
      * rewrite (Z.testbit_neg_r 1) by lia. by rewrite orb_false_r.
      * rewrite (Z.bits_above_log2 1) by (cbn; lia). by rewrite orb_false_r.
  - destruct (Z.eqb_spec j i) as [->|Hji]; [done|done].
Qed.

Lemma redis_setbit_range (bitmap : list Z) (i : Z) :
  0 <= i →
  Forall (fun b => 0 <= b < 256) bitmap →
  Forall (fun b => 0 <= b < 256) (redis_setbit bitmap i).
Proof.
  intros Hi Hall. unfold redis_setbit.
  set (B := Z.to_nat (Z.shiftr i 3)).
  set (padded := bitmap ++ repeat 0 (S B - List.length bitmap)).
  assert (Hpad : Forall (fun b => 0 <= b < 256) padded).
  { apply Forall_app. split; [done|]. apply Forall_forall.
    intros x Hx. apply list_elem_of_In, repeat_spec in Hx. lia. }
  apply Forall_insert; [done|].
  assert (Hnth : 0 <= nth B padded 0 < 256).
  { rewrite nth_lookup. destruct (padded !! B) as [x|] eqn:Hx; cbn; [|lia].
    by eapply (Forall_lookup_1 _ _ _ _ Hpad). }
  rewrite land_7.
  pose proof (Z.mod_pos_bound i 8 ltac:(lia)).
  split.
  - apply Z.lor_nonneg. split; [lia|]. apply Z.shiftl_nonneg. lia.
  - change 256 with (2 ^ 8). apply Z.log2_lt_pow2.
    + assert (0 <= Z.lor (nth B padded 0) (Z.shiftl 1 (7 - i mod 8))).
      { apply Z.lor_nonneg. split; [lia|]. apply Z.shiftl_nonneg. lia. }
      assert (Z.lor (nth B padded 0) (Z.shiftl 1 (7 - i mod 8)) ≠ 0); [|lia].
      intros Hz. apply Z.lor_eq_0_iff in Hz as [_ Hz].
      rewrite Z.shiftl_eq_0_iff in Hz by lia. lia.
    + rewrite Z.log2_lor by (try lia; apply Z.shiftl_nonneg; lia).
      apply Z.max_lub_lt.
      * destruct (decide (nth B padded 0 = 0)) as [->|Hnz]; [cbn; lia|].
        apply Z.log2_lt_pow2; [lia|]. change (2 ^ 8) with 256. lia.
      * rewrite Z.shiftl_1_l, Z.log2_pow2 by lia. lia.
Qed.
End Bitmap.

Lemma filter_sublist {A} (p : A → bool) (l : list A) :
  List.filter p l `sublist_of` l.
Proof.
  induction l as [|x l IH]; cbn [List.filter]; [constructor|].
  destruct (p x); by constructor.
Qed.

Lemma filter_full {A} (p : A → bool) (l : list A) :
  (List.length l ≤ List.length (List.filter p l))%nat → List.filter p l = l.
Proof.
  induction l as [|x l IH]; cbn [List.filter]; [done|].
  pose proof (List.filter_length_le p l).
  destruct (p x); cbn [List.length]; intros Hlen; [|lia].
  f_equal. apply IH. lia.
Qed.

Lemma stored_bitmap_lookup (fileMD5 : string) (userID : Z) (w : Store.world) :
  UploadService.stored_bitmap fileMD5 userID w
  = match Store.rdb w !! UploadService.getRedisUploadKey fileMD5 userID with
    | Some e => Go.bytes_of (Store.value e)
    | None => []
    end.
Proof. reflexivity. Qed.

Lemma redis_getbit_nil (i : Z) : UploadService.redis_getbit [] i = 0.
Proof.
  unfold UploadService.redis_getbit.
  destruct (Z.shiftr i 3 <? Go.slen []); [|reflexivity].
  destruct (Z.to_nat (Z.shiftr i 3)); cbn [nth]; by rewrite Z.shiftr_0_l.
Qed.

Lemma GetUploadedChunksFromRedis_filter (f : UploadService.faults)
    (fileMD5 : string) (userID total : Z) (w : Store.world) (uploaded : list Z) :
  UploadService.GetUploadedChunksFromRedis f fileMD5 userID total w = Ok uploaded →
  uploaded
  = List.filter
      (fun i => UploadService.redis_getbit
                  (UploadService.stored_bitmap fileMD5 userID w) i =? 1)
      (seqZ 0 total)
  ∧ (0 < total → UploadService.redis_fails f = false).
Proof.
  unfold UploadService.GetUploadedChunksFromRedis. rewrite stored_bitmap_lookup.
  destruct (Z.eqb_spec total 0) as [->|Hne].
  { intros [= <-]. split; [done|lia]. }
  destruct (UploadService.redis_fails f); [done|].
  destruct (Store.rdb w !! _) as [e|].
  - intros [= <-]. split; [|done].
    apply List.filter_ext_in. intros i Hi%list_elem_of_In%elem_of_seqZ.
    apply bit_set_getbit. lia.
  - intros [= <-]. split; [|done].
    symmetry. apply filter_none. intros i _. by rewrite redis_getbit_nil.
Qed.

(** The list that [GetUploadedChunksFromRedis] reads off the bitmap holds
    the indexes below [totalChunks] whose bit [IsChunkUploaded] reports as
    set, each once and in ascending order; it has [totalChunks] entries
    exactly when no index is missing. *)
Theorem GetUploadedChunksFromRedis_lists_marked (f : UploadService.faults)
    (fileMD5 : string) (userID total : Z) (w : Store.world) (uploaded : list Z) :
  total <= 2 ^ 32 →
  UploadService.GetUploadedChunksFromRedis f fileMD5 userID total w = Ok uploaded →
  (∀ i, i ∈ uploaded ↔
        0 <= i < total ∧
        UploadService.IsChunkUploaded f fileMD5 userID i w = Ok true) ∧
  uploaded `sublist_of` seqZ 0 total ∧
  (total <= Go.slen uploaded ↔ uploaded = seqZ 0 total).
Proof.
  intros Htotal Hget.
  apply GetUploadedChunksFromRedis_filter in Hget as [-> Hredis].
  split; [|split].
  - intros i. rewrite list_elem_of_In, List.filter_In, <- list_elem_of_In, elem_of_seqZ.
    unfold UploadService.IsChunkUploaded, UploadService.bit_offset_ok.
    split.
    + intros [Hi Hbit]. split; [lia|].
      rewrite Hredis by lia.
      destruct (Z.leb_spec 0 i); [|lia]. destruct (Z.ltb_spec i (2 ^ 32)); [|lia].
      cbn. by rewrite Hbit.
    + intros [Hi Hup]. split; [lia|].
      rewrite Hredis in Hup by lia.
      destruct (Z.leb_spec 0 i); [|lia]. destruct (Z.ltb_spec i (2 ^ 32)); [|lia].
      cbn in Hup. by injection Hup.
  - apply filter_sublist.
  - split.
    + intros Hlen. apply filter_full. rewrite length_seqZ.
      unfold Go.slen in Hlen. lia.
    + intros ->. unfold Go.slen. rewrite length_seqZ. lia.
Qed.

Lemma GetUploadedChunksFromRedis_lists_marked_witness :
  (∀ i, i ∈ [0; 1] ↔
        0 <= i < 2 ∧
        UploadService.IsChunkUploaded Sample.queue_down Sample.md5 1 i
          Sample.merge_world = Ok true) ∧
  [0; 1] `sublist_of` seqZ 0 2 ∧
  (2 <= Go.slen [0; 1] ↔ [0; 1] = seqZ 0 2).
Proof.
  apply (GetUploadedChunksFromRedis_lists_marked Sample.queue_down Sample.md5 1 2
           Sample.merge_world [0; 1]).
  - lia.
  - vm_compute. reflexivity.
Defined.

Lemma GetUploadedChunksFromRedis_ok (f : UploadService.faults)
    (fileMD5 : string) (userID total : Z) (w : Store.world) :
  UploadService.redis_fails f = false →
  UploadService.GetUploadedChunksFromRedis f fileMD5 userID total w
  = Ok (List.filter
          (fun i => UploadService.redis_getbit
                      (UploadService.stored_bitmap fileMD5 userID w) i =? 1)
          (seqZ 0 total)).
Proof.
  intros Hredis.
  destruct (UploadService.GetUploadedChunksFromRedis f fileMD5 userID total w)
    as [uploaded|e] eqn:Hget.
  - by apply GetUploadedChunksFromRedis_filter in Hget as [-> _].
  - unfold UploadService.GetUploadedChunksFromRedis in Hget.
    destruct (total =? 0); [discriminate|]. rewrite Hredis in Hget.
    by destruct (Store.rdb w !! _).
Qed.

Lemma stored_bitmap_range (fileMD5 : string) (userID : Z) (w : Store.world) :
  Forall (fun b => 0 <= b < 256) (UploadService.stored_bitmap fileMD5 userID w).
Proof.
  unfold UploadService.stored_bitmap.
  destruct (Store.rdb w !! _); [apply bytes_of_range | constructor].
Qed.

(** Marking a chunk sets its bit in the bitmap the list is read from: after
    [MarkChunkUploaded] the list of [GetUploadedChunksFromRedis] is the one
    from before with the chunk added, when its index is below
    [totalChunks].  The call writes the one key of the upload, keeps the
    time the key has left to live, and touches nothing else. *)
Theorem MarkChunkUploaded_listed (f : UploadService.faults)
    (fileMD5 : string) (userID chunkIndex total : Z) (w w' : Store.world)
    (before : list Z) :
  UploadService.MarkChunkUploaded f fileMD5 userID chunkIndex w = (Ok (), w') →
  UploadService.GetUploadedChunksFromRedis f fileMD5 userID total w = Ok before →
  let key := UploadService.getRedisUploadKey fileMD5 userID in
  (∃ after : list Z,
      UploadService.GetUploadedChunksFromRedis f fileMD5 userID total w' = Ok after ∧
      ∀ j, j ∈ after ↔ j ∈ before ∨ (j = chunkIndex ∧ 0 <= j < total)) ∧
  UploadService.IsChunkUploaded f fileMD5 userID chunkIndex w' = Ok true ∧
  (∀ k : string, k ≠ key → Store.rdb w' !! k = Store.rdb w !! k) ∧
  Store.rdb w' !! key ≫= Store.ttl = Store.rdb w !! key ≫= Store.ttl ∧
  Store.set_rdb (Store.rdb w) w' = w.
Proof.
  intros Hmark Hbefore key.
  unfold UploadService.MarkChunkUploaded in Hmark.
  destruct (UploadService.redis_fails f) eqn:Hredis; [discriminate|].
  destruct (UploadService.bit_offset_ok chunkIndex) eqn:Hoffset; [|discriminate].
  cbn [negb] in Hmark. injection Hmark as <-.
  unfold UploadService.bit_offset_ok in Hoffset.
  apply andb_true_iff in Hoffset as [Hlo%Z.leb_le Hhi%Z.ltb_lt].
  fold key.
  set (bitmap := UploadService.stored_bitmap fileMD5 userID w).
  set (w' := Store.set_rdb _ w).
  assert (Hstored : UploadService.stored_bitmap fileMD5 userID w'
                    = UploadService.redis_setbit bitmap chunkIndex).
  { unfold UploadService.stored_bitmap at 1. subst w'.
    cbn [Store.rdb Store.set_rdb]. fold key. rewrite lookup_insert_eq.
    cbn [Store.value]. apply bytes_of_string_of_bytes.
    apply redis_setbit_range; [exact Hlo | apply stored_bitmap_range]. }
  rewrite (GetUploadedChunksFromRedis_ok f fileMD5 userID total w Hredis) in Hbefore.
  injection Hbefore as <-.
  split; [|split; [|split; [|split]]].
  - eexists. split; [apply GetUploadedChunksFromRedis_ok; exact Hredis|].
    intros j. rewrite Hstored.
    rewrite !list_elem_of_In, !List.filter_In, <- !list_elem_of_In, !elem_of_seqZ.
    fold bitmap.
    split.
    + intros [Hj Hbit]. rewrite redis_getbit_setbit in Hbit by lia.
      destruct (Z.eqb_spec j chunkIndex) as [->|Hne]; [right; lia | left; done].
    + intros [[Hj Hbit] | [-> Hj]].
      * split; [exact Hj|]. rewrite redis_getbit_setbit by lia.
        by destruct (j =? chunkIndex).
      * split; [lia|]. rewrite redis_getbit_setbit by lia.
        by rewrite Z.eqb_refl.
  - unfold UploadService.IsChunkUploaded, UploadService.bit_offset_ok.
    rewrite Hredis.
    destruct (Z.leb_spec 0 chunkIndex); [|lia].
    destruct (Z.ltb_spec chunkIndex (2 ^ 32)); [|lia]. cbn [andb negb].
    rewrite Hstored, redis_getbit_setbit by lia. by rewrite Z.eqb_refl.
  - intros k Hk. subst w'. cbn [Store.rdb Store.set_rdb].
    by rewrite lookup_insert_ne.
  - subst w'. cbn [Store.rdb Store.set_rdb]. by rewrite lookup_insert_eq.
  - subst w'. by destruct w.
Qed.

Lemma MarkChunkUploaded_listed_witness :
  ∃ (w1 w2 : Store.world) (after : list Z),
    UploadService.MarkChunkUploaded Sample.queue_down Sample.md5 1 0 Sample.empty_world
      = (Ok (), w1) ∧
    UploadService.MarkChunkUploaded Sample.queue_down Sample.md5 1 9 w1 = (Ok (), w2) ∧
    UploadService.GetUploadedChunksFromRedis Sample.queue_down Sample.md5 1 12 w2
      = Ok after ∧
    (∀ j, j ∈ after ↔ j ∈ [0] ∨ (j = 9 ∧ 0 <= j < 12)).
Proof.
  eexists _, _.
  assert (H1 : UploadService.MarkChunkUploaded Sample.queue_down Sample.md5 1 0
                 Sample.empty_world
               = (Ok (), (UploadService.MarkChunkUploaded Sample.queue_down Sample.md5 1 0
                            Sample.empty_world).2)) by (vm_compute; reflexivity).
  set (w1 := (UploadService.MarkChunkUploaded Sample.queue_down Sample.md5 1 0
                Sample.empty_world).2) in *.
  assert (H2 : UploadService.MarkChunkUploaded Sample.queue_down Sample.md5 1 9 w1
               = (Ok (), (UploadService.MarkChunkUploaded Sample.queue_down Sample.md5 1 9
                            w1).2)) by (vm_compute; reflexivity).
  destruct (MarkChunkUploaded_listed Sample.queue_down Sample.md5 1 9 12 w1 _ [0] H2)
    as ((after & Hafter & Hiff) & _).
  - vm_compute. reflexivity.
  - exists after. split; [exact H1|]. split; [exact H2|]. split; [exact Hafter | exact Hiff].
Defined.

(** The files a user can list are the completed uploads that are the
    user's own or public.  The tags of the user play no part: the clause
    on them asks for a public file, which the clause before it admits
    already, so a private file of one of the user's organizations is not
    listed. *)
Theorem ListAccessibleFiles_own_or_public (user : Model.User) (w : Store.world) :
  (∀ r : Model.FileUpload,
      r ∈ DocumentService.ListAccessibleFiles user w ↔
      r ∈ Store.file_upload w ∧ Model.fu_Status r = 1 ∧
      (Model.fu_UserID r = Model.user_ID user ∨ Model.fu_IsPublic r = true)) ∧
  (∀ orgTags : list string,
      DocumentService.FindAccessibleFiles (Model.user_ID user) orgTags w
      = DocumentService.ListAccessibleFiles user w) ∧
  DocumentService.ListAccessibleFiles user w `sublist_of` Store.file_upload w.
Proof.
  assert (Hmem : ∀ (orgTags : list string) (r : Model.FileUpload),
            ((Model.fu_Status r =? 1)
             && ((Model.fu_UserID r =? Model.user_ID user)
                 || Bool.eqb (Model.fu_IsPublic r) true
                 || (bool_decide (Model.fu_OrgTag r ∈ orgTags)
                     && Bool.eqb (Model.fu_IsPublic r) true)))
            = ((Model.fu_Status r =? 1)
               && ((Model.fu_UserID r =? Model.user_ID user) || Model.fu_IsPublic r))).
  { intros orgTags r.
    destruct (Model.fu_Status r =? 1), (Model.fu_UserID r =? Model.user_ID user),
      (Model.fu_IsPublic r), (bool_decide (Model.fu_OrgTag r ∈ orgTags)); reflexivity. }
  split; [|split].
  - intros r. unfold DocumentService.ListAccessibleFiles, DocumentService.FindAccessibleFiles.
    rewrite list_elem_of_In, List.filter_In, <- list_elem_of_In, Hmem.
    rewrite andb_true_iff, orb_true_iff, !Z.eqb_eq. tauto.
  - intros orgTags.
    unfold DocumentService.ListAccessibleFiles, DocumentService.FindAccessibleFiles.
    apply List.filter_ext. intros r. by rewrite !Hmem.
  - apply filter_sublist.
Qed.

(** ** After the merge *)

(** What a merge that succeeds went through. *)
Lemma MergeChunks_success (f : UploadService.faults) (presign : string → string)
    (fileMD5 fileName : string) (userID : Z) (w w' : Store.world) (url : string) :
  UploadService.MergeChunks f presign fileMD5 fileName userID w = (Ok url, w') →
  ∃ record : Model.FileUpload,
    UploadService.db_read_fails f = false ∧
    Store.first_upload fileMD5 userID w = Some record ∧
    Store.file_upload w' = Store.file_upload (Store.update_status (Model.fu_ID record) 1 w) ∧
    Store.rdb w' = Store.rdb w ∧
    is_Some (Store.bucket w' !! ("merged/" +:+ fileName)).
Proof.
  unfold UploadService.MergeChunks, UploadService.GetFileUploadRecord.
  destruct (UploadService.db_read_fails f); [discriminate|].
  destruct (Store.first_upload fileMD5 userID w) as [record|]; [|discriminate].
  destruct (UploadService.GetUploadedChunksFromRedis _ _ _ _ _) as [uploaded|e0];
    [|discriminate].
  destruct (_ <? _); [discriminate|].
  intros Hrun. exists record. split; [reflexivity|]. split; [reflexivity|].
  revert Hrun. destruct (_ =? 1).
  - unfold UploadService.copy_object.
    destruct (UploadService.object_store_fails f); [discriminate|].
    cbn [Store.logged Store.bucket].
    destruct (Store.bucket w !! _); [|discriminate].
    destruct (UploadService.db_update_fails f); [discriminate|].
    unfold UploadService.produce.
    destruct (UploadService.produce_fails f); intros [= _ <-]; cbn;
      (split; [reflexivity|]); (split; [reflexivity|]);
      by rewrite lookup_insert_eq.
  - unfold UploadService.compose_object.
    destruct (UploadService.object_store_fails f); [discriminate|].
    destruct (_ || _); [discriminate|].
    cbn [Store.logged Store.bucket].
    destruct (UploadService.compose_sources _ _ _ _ _ _); [|discriminate].
    destruct (Store.gather _ _); [|discriminate].
    destruct (UploadService.db_update_fails f); [discriminate|].
    unfold UploadService.produce.
    destruct (UploadService.produce_fails f); intros [= _ <-]; cbn;
      (split; [reflexivity|]); (split; [reflexivity|]);
      by rewrite lookup_insert_eq.
Qed.

(** After a merge that succeeded, the two checks for an instant upload
    report the file as complete, whatever became of the task for the
    queue. *)
Theorem MergeChunks_then_FastUpload (f : UploadService.faults)
    (presign : string → string) (fileMD5 fileName : string) (userID : Z)
    (w w' : Store.world) (url : string) :
  UploadService.MergeChunks f presign fileMD5 fileName userID w = (Ok url, w') →
  UploadService.FastUpload f fileMD5 userID w' = Ok true ∧
  UploadService.CheckFile f fileMD5 userID w' = Ok (true, []).
Proof.
  intros Hrun.
  apply MergeChunks_success in Hrun as (record & Hread & Hfind & Hrows & _).
  assert (Hfind' : Store.first_upload fileMD5 userID w'
                   = Some (Store.with_status 1 record)).
  { unfold Store.first_upload. rewrite Hrows.
    by apply (first_upload_update_status fileMD5 userID 1 w record). }
  unfold UploadService.FastUpload, UploadService.CheckFile.
  by rewrite Hread, Hfind'.
Qed.

Lemma MergeChunks_then_FastUpload_witness :
  ∃ (url : string) (w' : Store.world),
    UploadService.MergeChunks Sample.all_up Sample.presign Sample.md5 "note.txt" 1
      Sample.note_world = (Ok url, w') ∧
    UploadService.FastUpload Sample.all_up Sample.md5 1 Sample.note_world = Ok false ∧
    UploadService.FastUpload Sample.all_up Sample.md5 1 w' = Ok true.
Proof.
  assert (Hrun : UploadService.MergeChunks Sample.all_up Sample.presign Sample.md5
                   "note.txt" 1 Sample.note_world
                 = (Ok "https://minio/merged/note.txt",
                    (UploadService.MergeChunks Sample.all_up Sample.presign Sample.md5
                       "note.txt" 1 Sample.note_world).2))
    by (vm_compute; reflexivity).
  eexists _, _. split; [exact Hrun|]. split; [reflexivity|].
  apply (MergeChunks_then_FastUpload _ _ _ _ _ _ _ _ Hrun).
Defined.







(** ** What a deletion leaves alone *)

(** [DeleteDocument] removes nothing but the merged object of the record it
    found, the part rows and chunk rows of the fingerprint, and the upload
    row of the caller.  The upload rows of other users stay, also those for
    the same fingerprint, whose chunk rows are deleted with the caller's;
    the cache, the queue and the index are not touched. *)
Theorem DeleteDocument_frame (f : DocumentService.faults) (fileMD5 : string)
    (user : Model.User) (w : Store.world) :
  let w' := (DocumentService.DeleteDocument f fileMD5 user w).2 in
  (∀ r : Model.FileUpload, r ∈ Store.file_upload w →
     ¬ (Model.fu_FileMD5 r = fileMD5 ∧ Model.fu_UserID r = Model.user_ID user) →
     r ∈ Store.file_upload w') ∧
  (∀ c : Model.ChunkInfo, c ∈ Store.chunk_info w →
     Model.ci_FileMD5 c ≠ fileMD5 → c ∈ Store.chunk_info w') ∧
  (∀ v : Model.DocumentVector, v ∈ Store.document_vectors w →
     Model.dv_FileMD5 v ≠ fileMD5 → v ∈ Store.document_vectors w') ∧
  (∀ name : string,
     (∀ record, Store.first_upload fileMD5 (Model.user_ID user) w = Some record →
                name ≠ "merged/" +:+ Model.fu_FileName record) →
     Store.bucket w' !! name = Store.bucket w !! name) ∧
  Store.rdb w' = Store.rdb w ∧
  Store.index w' = Store.index w ∧
  Store.topic w' = Store.topic w.
Proof.
  intros w'. subst w'.
  unfold DocumentService.DeleteDocument, DocumentService.GetFileUploadRecord.
  destruct (DocumentService.db_read_fails f); [by repeat split|].
  destruct (Store.first_upload fileMD5 (Model.user_ID user) w) as [record|] eqn:Hfind;
    [|by repeat split].
  destruct (negb _ && negb _); [by repeat split|].
  unfold DocumentService.remove_object, DocumentService.DeleteFileUploadRecord.
  assert (Hkeep : ∀ {A} (p : A → bool) (l : list A) (x : A),
            x ∈ l → p x = false → x ∈ List.filter (fun y => negb (p y)) l).
  { intros A p l x Hin Hp. apply list_elem_of_In, List.filter_In.
    split; [by apply list_elem_of_In | by rewrite Hp]. }
  assert (Hrow : ∀ r : Model.FileUpload, r ∈ Store.file_upload w →
            ¬ (Model.fu_FileMD5 r = fileMD5 ∧ Model.fu_UserID r = Model.user_ID user) →
            Store.upload_matches fileMD5 (Model.fu_UserID record) r = false).
  { intros r _ Hother. destruct (first_upload_matches _ _ _ _ Hfind) as [_ ->].
    unfold Store.upload_matches.
    destruct (String.eqb_spec (Model.fu_FileMD5 r) fileMD5);
      destruct (Z.eqb_spec (Model.fu_UserID r) (Model.user_ID user)); try done.
    by destruct Hother. }
  assert (Hobject : ∀ name : string,
            (∀ record0, Some record = Some record0 →
                        name ≠ "merged/" +:+ Model.fu_FileName record0) →
            delete ("merged/" +:+ Model.fu_FileName record) (Store.bucket w) !! name
            = Store.bucket w !! name).
  { intros name Hname. apply lookup_delete_ne. intros Heq.
    by apply (Hname record eq_refl). }
  destruct (DocumentService.remove_object_fails f);
    destruct (DocumentService.delete_chunk_info_fails f);
    destruct (DocumentService.delete_vectors_fails f);
    destruct (DocumentService.delete_upload_fails f);
    cbn;
    (split; [first [done | intros r Hr Hother; apply Hkeep; [done | by apply Hrow]]|]);
    (split; [first [done | intros c Hc Hne; apply Hkeep; [done | by apply String.eqb_neq]]|]);
    (split; [first [done | intros v Hv Hne; apply Hkeep; [done | by apply String.eqb_neq]]|]);
    (split; [first [done | exact Hobject]|]);
    done.
Qed.

(** Two users uploaded the same file: when the first deletes it, the record
    of the second stays complete, while the merged object and the chunk
    rows the two shared are gone. *)
Example DeleteDocument_shared_file :
  let other := {| Model.fu_ID := 8; Model.fu_FileMD5 := Sample.md5;
                  Model.fu_FileName := "guide.txt"; Model.fu_TotalSize := 2;
                  Model.fu_Status := 1; Model.fu_UserID := 2;
                  Model.fu_OrgTag := "T_unrelated"; Model.fu_IsPublic := false |} in
  let w := Store.set_file_upload (Store.file_upload Sample.stored_world ++ [other])
             Sample.stored_world in
  let w' := (DocumentService.DeleteDocument Sample.stores_up Sample.md5 Sample.U1 w).2 in
  Store.file_upload w' = [other] ∧
  Store.vectors_of Sample.md5 w' = [] ∧
  Store.bucket w' !! "merged/guide.txt" = None.
Proof. repeat split; vm_compute; reflexivity. Qed.

(** ** The search handler *)

(** The handler calls the service only with a query that is not empty and a
    [topK] above zero: two services that agree on such calls get the same
    response for every request. *)
Theorem SearchHandler_valid_calls
    (searchService searchService' :
       string → Z → Model.User → result (list Model.SearchResponseDTO))
    (c : SearchHandler.request) :
  (∀ (query : string) (topK : Z) (user : Model.User),
      query ≠ "" → 0 < topK →
      searchService query topK user = searchService' query topK user) →
  SearchHandler.HybridSearch searchService c
  = SearchHandler.HybridSearch searchService' c.
Proof.
  intros Hagree. unfold SearchHandler.HybridSearch.
  destruct (String.eqb_spec (SearchHandler.param_query c) "") as [|Hquery]; [done|].
  destruct (SearchHandler.ctx_user c) as [user|]; [|done].
  rewrite Hagree; [done | exact Hquery |].
  unfold SearchHandler.parse_topK.
  destruct (Go.Atoi _) as [topK|]; [|lia].
  destruct (Z.leb_spec topK 0); lia.
Qed.

Lemma SearchHandler_valid_calls_witness :
  let strict := fun (query : string) (topK : Z) (_ : Model.User) =>
                  if String.eqb query "" || (topK <=? 0)
                  then Err "invalid argument" else Ok [] in
  let request := {| SearchHandler.param_query := "rag";
                    SearchHandler.param_topK := Some "-3";
                    SearchHandler.ctx_user := Some Sample.U1 |} in
  SearchHandler.HybridSearch strict request
  = {| SearchHandler.status := 200;
       SearchHandler.payload := SearchHandler.BData 200 [] "success" |}.
Proof.
  intros strict request.
  rewrite (SearchHandler_valid_calls strict (fun _ _ _ => Ok []) request).
  - reflexivity.
  - intros query topK user Hquery HtopK. subst strict. cbv beta.
    destruct (String.eqb_spec query "") as [|_]; [done|].
    destruct (Z.leb_spec topK 0); [lia | reflexivity].
Defined.

(** ** What the consumer leaves alone *)

(** Beyond what the processor did, the consumer changes one key of the
    cache, the failure counter of the file of the task, and adds at most
    the commit of the message to the log; the tables, the object store, the
    index and the queue are as the processor left them.  A message that
    does not decode is committed without being processed. *)
Theorem consume_frame (f : Kafka.faults)
    (Process : Model.FileProcessingTask → Store.world → result unit * Store.world)
    (m : Kafka.message) (parsed : result Model.FileProcessingTask) (w : Store.world) :
  let w1 := match parsed with
            | Ok task => (Process task w).2
            | Err _ => w
            end in
  let w2 := Kafka.consume f Process m parsed w in
  (Store.file_upload w2 = Store.file_upload w1 ∧
   Store.chunk_info w2 = Store.chunk_info w1 ∧
   Store.document_vectors w2 = Store.document_vectors w1 ∧
   Store.bucket w2 = Store.bucket w1 ∧
   Store.index w2 = Store.index w1 ∧
   Store.topic w2 = Store.topic w1) ∧
  (Store.log w2 = Store.log w1
   ∨ Store.log w2 = Store.log w1 ++ [Store.CommitMessages (Kafka.Offset m)]) ∧
  (∀ k : string,
     (∀ task, parsed = Ok task → k ≠ Kafka.attemptsKey (Model.task_FileMD5 task)) →
     Store.rdb w2 !! k = Store.rdb w1 !! k) ∧
  (∀ e : string, parsed = Err e →
     w2 = Store.logged (Store.CommitMessages (Kafka.Offset m)) w).
Proof.
  intros w1 w2. subst w1 w2. unfold Kafka.consume.
  destruct parsed as [task|e].
  2: { split; [done|]. split; [by right|]. split; [done|]. by intros e' _. }
  assert (Hkey : ∀ k : string,
            (∀ task0, Ok task = Ok task0 →
                      k ≠ Kafka.attemptsKey (Model.task_FileMD5 task0)) →
            k ≠ Kafka.attemptsKey (Model.task_FileMD5 task))
    by (intros k Hk; by apply Hk).
  destruct (Process task w) as [[u|e] w1]; cbn [snd].
  - unfold Kafka.Del. destruct (Kafka.del_fails f); cbn.
    + split; [done|]. split; [by right|]. split; [done|]. intros e' He'. discriminate.
    + split; [done|]. split; [by right|]. split; [|intros e' He'; discriminate].
      intros k Hk. apply lookup_delete_ne. intros Heq. by apply (Hkey k Hk).
  - unfold Kafka.Incr. destruct (Kafka.incr_fails f).
    { split; [done|]. split; [by left|]. split; [done|]. intros e' He'. discriminate. }
    destruct (Store.redis_incr _ (Store.rdb w1)) as [[attempts db]|e'] eqn:Hincr.
    2: { split; [done|]. split; [by left|]. split; [done|]. intros e0 He0. discriminate. }
    apply redis_incr_value in Hincr as ->.
    unfold Kafka.Expire, Store.redis_expire.
    destruct (Kafka.expire_fails f); cbn [Store.rdb Store.set_rdb].
    + destruct (attempts >=? 3); cbn;
        (split; [done|]); (split; [first [by right | by left]|]);
        (split; [|intros e0 He0; discriminate]);
        (intros k Hk; apply lookup_insert_ne; intros Heq; by apply (Hkey k Hk)).
    + rewrite lookup_insert_eq.
      destruct (attempts >=? 3); cbn;
        (split; [done|]); (split; [first [by right | by left]|]);
        (split; [|intros e0 He0; discriminate]);
        intros k Hk;
        rewrite !lookup_insert_ne by (intros Heq; by apply (Hkey k Hk)); done.
Qed.

(** ** A run that fails at the embedder *)

Section PartialIndex.
Import Go Model Store Pipeline.

Variable ExtractText : string → string → result string.
Variable CreateEmbedding : string → result (list float32).
Variable embeddingCfg_Model : string.
Variable f : faults.

Local Abbreviation doc := (doc_of CreateEmbedding embeddingCfg_Model).
Local Abbreviation put :=
  (fun (idx : gmap string EsDocument) (row : DocumentVector) =>
     <[es_VectorID (doc row) := doc row]> idx).

(** Indexing stops at the first row the embedder refuses: the rows before
    it are in the index, the others are not put. *)
Lemma index_all_stops (pre post : list DocumentVector) (row : DocumentVector)
    (e : string) :
  (∀ id : string, index_fails f id = false) →
  (∀ r, r ∈ pre → ∃ vector, CreateEmbedding (dv_TextContent r) = Ok vector) →
  CreateEmbedding (dv_TextContent row) = Err e →
  ∀ w : world,
    index_all CreateEmbedding embeddingCfg_Model f (pre ++ row :: post) w
    = (Err ("块 " +:+ itoa (dv_ChunkID row) +:+ " 向量化失败: " +:+ e),
       set_index (foldl put (index w) pre) w).
Proof.
  intros Hindex Hpre Hrow.
  induction pre as [|r pre IH]; intros w; cbn [app index_all foldl].
  - rewrite Hrow. by destruct w.
  - destruct (Hpre r ltac:(left)) as [vector Hr].
    unfold doc_of. rewrite Hr. unfold IndexDocument. rewrite Hindex.
    rewrite IH by (intros r' Hr'; apply Hpre; by right). reflexivity.
Qed.

Lemma foldl_put_lookup_ne (rows : list DocumentVector) (id : string) :
  ∀ idx : gmap string EsDocument,
    id ∉ map (fun row => es_VectorID (doc row)) rows →
    foldl put idx rows !! id = idx !! id.
Proof.
  induction rows as [|row rows IH] using rev_ind; intros idx Hout; [done|].
  rewrite foldl_snoc. rewrite map_app in Hout.
  rewrite lookup_insert_ne.
  - apply IH. intros Hin. apply Hout. apply elem_of_app. by left.
  - intros Heq. apply Hout. apply elem_of_app. right. subst id. by left.
Qed.

Lemma take_number_from (rows : list DocumentVector) :
  ∀ (k : nat) (next : Z),
    take k (number_from next rows) = number_from next (take k rows).
Proof.
  induction rows as [|row rows IH]; intros [|k] next; cbn; try done.
  by rewrite IH.
Qed.

Lemma number_from_lookup (rows : list DocumentVector) :
  ∀ (k : nat) (next : Z) (row : DocumentVector),
    rows !! k = Some row →
    number_from next rows !! k = Some (with_vector_id (next + Z.of_nat k) row).
Proof.
  induction rows as [|r rows IH]; intros [|k] next row Hk; try done.
  - cbn in Hk. injection Hk as <-. cbn [number_from]. cbn. by rewrite Z.add_0_r.
  - cbn [number_from]. rewrite lookup_cons. cbn [lookup] in Hk.
    change ((r :: rows) !! S k) with (rows !! k) in Hk.
    rewrite (IH k (next + 1) row Hk). do 2 f_equal. lia.
Qed.

Lemma dbVectors_of_id (task : FileProcessingTask) (chunks : list string)
    (k : nat) (row : DocumentVector) :
  dbVectors_of task chunks !! k = Some row →
  es_VectorID (doc row) = task_FileMD5 task +:+ "_" +:+ itoa (Z.of_nat k).
Proof.
  intros Hk. apply dbVectors_of_lookup in Hk as (_ & _ & Hmd5 & Hid & _).
  cbn. by rewrite Hmd5, Hid.
Qed.

(** When the embedder refuses chunk [k] and answers for the chunks before
    it, with the stores working, the run fails with the error of that
    chunk after it has replaced the rows of the file: all chunks are in
    [document_vectors], the chunks before [k] are in the index, and the
    index entries from [k] on are the ones from before the run. *)
Theorem Process_stops_at_embedder (fuel : nat) (task : FileProcessingTask)
    (w : world) (content text : string) (chunks : list string) (k : nat)
    (chunk e : string) :
  get_object_fails f = false →
  read_fails f = false →
  delete_fails f = false →
  batch_create_fails f = false →
  find_fails f = false →
  (∀ id : string, index_fails f id = false) →
  bucket w !! ("merged/" +:+ task_FileName task) = Some content →
  content ≠ "" →
  ExtractText content (task_FileName task) = Ok text →
  text ≠ "" →
  splitText fuel text 1000 100 = Ret chunks →
  chunks !! k = Some chunk →
  (∀ (j : nat) (c : string), (j < k)%nat → chunks !! j = Some c →
     ∃ vector, CreateEmbedding c = Ok vector) →
  CreateEmbedding chunk = Err e →
  let md5 := task_FileMD5 task in
  ∃ w' : world,
    Process ExtractText CreateEmbedding embeddingCfg_Model f fuel task w
    = Ret (Err ("块 " +:+ itoa (Z.of_nat k) +:+ " 向量化失败: " +:+ e), w') ∧
    map (fun v => (dv_ChunkID v, dv_TextContent v)) (vectors_of md5 w')
      = imap (fun i c => (Z.of_nat i, c)) chunks ∧
    (∀ (j : nat) (c : string), (j < k)%nat → chunks !! j = Some c →
       ∃ d : EsDocument,
         index w' !! (md5 +:+ "_" +:+ itoa (Z.of_nat j)) = Some d ∧
         es_TextContent d = c) ∧
    (∀ j : nat, (k ≤ j)%nat →
       index w' !! (md5 +:+ "_" +:+ itoa (Z.of_nat j))
       = index w !! (md5 +:+ "_" +:+ itoa (Z.of_nat j))).
Proof.
  intros Hget Hread Hdel Hbatch Hfind Hindex Hobj Hcontent Hext Htext Hsplit Hk
    Hbefore Hfail md5.
  set (rows := dbVectors_of task chunks).
  set (saved := insert_vectors rows (delete_vectors md5 w)).
  assert (Hrowk : ∃ row, rows !! k = Some row).
  { apply lookup_lt_is_Some. subst rows. unfold dbVectors_of.
    rewrite length_imap. by apply lookup_lt_Some in Hk. }
  destruct Hrowk as [row Hrow].
  pose proof (dbVectors_of_lookup _ _ _ _ Hrow) as (chunk' & Hk' & _ & Hid & Htxt).
  rewrite Hk in Hk'. injection Hk' as <-.
  assert (Hsaved : vectors_of md5 saved = number_from (next_vector_id w) rows)
    by (subst saved rows md5; apply vectors_of_fresh).
  assert (Hcut : number_from (next_vector_id w) rows
                 = number_from (next_vector_id w) (take k rows)
                   ++ with_vector_id (next_vector_id w + Z.of_nat k) row
                   :: drop (S k) (number_from (next_vector_id w) rows)).
  { rewrite <- take_number_from.
    rewrite <- (take_drop_middle (number_from (next_vector_id w) rows) k
                  (with_vector_id (next_vector_id w + Z.of_nat k) row)) at 1;
      [done|].
    by apply number_from_lookup. }
  exists (set_index (foldl put (index w) (take k rows)) saved).
  split; [|split; [|split]].
  - unfold Process, read_object. rewrite Hget, Hread, Hobj.
    destruct (Z.eqb_spec (len content) 0) as [Hlen|_].
    { destruct content; [done|]. unfold len in Hlen. cbn in Hlen. lia. }
    rewrite Hext.
    destruct (String.eqb_spec text "") as [|_]; [done|].
    rewrite Hsplit.
    assert (Hlen : slen chunks ≠ 0).
    { apply lookup_lt_Some in Hk. unfold slen. lia. }
    destruct (Z.eqb_spec (slen chunks) 0) as [|_]; [done|].
    unfold BatchCreate.
    assert (Hrows : slen (dbVectors_of task chunks) = slen chunks)
      by (unfold slen, dbVectors_of; by rewrite length_imap).
    rewrite Hrows.
    destruct (Z.eqb_spec (slen chunks) 0) as [|_]; [done|].
    rewrite Hbatch, Hfind, Hdel. fold md5 rows saved.
    rewrite Hsaved, Hcut.
    rewrite (index_all_stops _ _ _ e Hindex).
    + cbn [dv_ChunkID with_vector_id]. rewrite Hid.
      rewrite foldl_put_number_from. reflexivity.
    + intros r Hr. apply number_from_elem in Hr as (id & r0 & Hr0 & ->).
      cbn [dv_TextContent with_vector_id].
      apply list_elem_of_lookup in Hr0 as [j Hj].
      apply lookup_take_Some in Hj as [Hj Hlt].
      apply dbVectors_of_lookup in Hj as (c & Hc & _ & _ & ->).
      by apply (Hbefore j c).
    + cbn [dv_TextContent with_vector_id]. by rewrite Htxt.
  - cbn [document_vectors set_index]. unfold vectors_of in Hsaved |- *.
    cbn [document_vectors set_index]. rewrite Hsaved.
    apply chunk_view_dbVectors.
  - intros j c Hj Hc. cbn [index set_index]. unfold md5.
    assert (Hrowj : ∃ rowj, rows !! j = Some rowj).
    { apply lookup_lt_is_Some. subst rows. unfold dbVectors_of.
      rewrite length_imap. by apply lookup_lt_Some in Hc. }
    destruct Hrowj as [rowj Hrowj].
    exists (doc rowj).
    rewrite <- (dbVectors_of_id task chunks j rowj Hrowj).
    split.
    + apply foldl_put_lookup.
      * apply (sublist_NoDup _ (map (fun r => es_VectorID (doc r)) rows)).
        -- apply dbVectors_of_ids_NoDup.
        -- apply fmap_sublist, sublist_take.
      * apply list_elem_of_lookup. exists j. by apply lookup_take_Some.
    + apply dbVectors_of_lookup in Hrowj as (c' & Hc' & _ & _ & Htxt').
      rewrite Hc in Hc'. injection Hc' as <-. cbn. exact Htxt'.
  - intros j Hj. cbn [index set_index]. unfold md5.
    apply foldl_put_lookup_ne.
    intros (r & Heq & Hr)%list_elem_of_fmap.
    apply list_elem_of_lookup in Hr as [i Hi].
    apply lookup_take_Some in Hi as [Hi Hlt].
    rewrite (dbVectors_of_id task chunks i r Hi) in Heq.
    apply String.app_inj, String.app_inj in Heq.
    apply (inj pretty) in Heq. lia.
Qed.

End PartialIndex.

Lemma Process_stops_at_embedder_witness :
  let picky := fun s : string =>
                 if Go.rune_count s =? 1000 then Ok (Go.bytes_of "v")
                 else Err "quota" in
  ∃ w' : Store.world,
    Pipeline.Process Sample.extract picky "text-embedding-v4" Sample.pipeline_up 1002
      Sample.task Sample.merged_world
    = Ret (Err "块 1 向量化失败: quota", w') ∧
    map Model.dv_ChunkID (Store.vectors_of Sample.md5 w') = [0; 1] ∧
    (∃ d, Store.index w' !! (Sample.md5 +:+ "_0") = Some d) ∧
    Store.index w' !! (Sample.md5 +:+ "_1") = None.
Proof.
  intros picky.
  assert (Hsplit : Pipeline.splitText 1002 (Sample.han 1001) 1000 100
                   = Ret [Sample.han 1000; Sample.han 101])
    by (vm_compute; reflexivity).
  assert (H0 : picky (Sample.han 1000) = Ok (Go.bytes_of "v"))
    by (vm_compute; reflexivity).
  assert (H1 : picky (Sample.han 101) = Err "quota") by (vm_compute; reflexivity).
  assert (Hne : Sample.han 1001 ≠ "") by (vm_compute; discriminate).
  assert (Hobj : Store.bucket Sample.merged_world
                   !! ("merged/" +:+ Model.task_FileName Sample.task)
                 = Some (Sample.han 1001)) by reflexivity.
  destruct (Process_stops_at_embedder Sample.extract picky "text-embedding-v4"
              Sample.pipeline_up 1002 Sample.task Sample.merged_world
              (Sample.han 1001) (Sample.han 1001) [Sample.han 1000; Sample.han 101]
              1 (Sample.han 101) "quota"
              eq_refl eq_refl eq_refl eq_refl eq_refl (fun _ => eq_refl)
              Hobj Hne eq_refl Hne Hsplit eq_refl)
    as (w' & Hrun & Hrows & Hbefore & Hafter).
  - intros [|j] c Hj Hc; [|lia]. apply (inj Some) in Hc as <-. eexists. exact H0.
  - exact H1.
  - exists w'. split; [exact Hrun|]. split; [|split].
    + apply (f_equal (map fst)) in Hrows. rewrite List.map_map in Hrows.
      exact Hrows.
    + destruct (Hbefore 0%nat (Sample.han 1000) ltac:(lia) eq_refl) as (d & Hd & _).
      exists d. exact Hd.
    + exact (Hafter 1%nat ltac:(lia)).
Defined.

(** ** The history of a conversation *)

Section History.
Import Go Conversation.





End History.


(** ** The primary organization *)

Section PrimaryOrg.
Import Go Model UserService.

Lemma has_prefix_app (p s : string) : has_prefix p (p +:+ s) = true.
Proof.
  induction p as [|c p IH]; [done|].
  change (String c p +:+ s) with (String c (p +:+ s)). cbn [has_prefix].
  by rewrite Ascii.eqb_refl.
Qed.

Lemma Contains_prefix (p s : string) : Contains (p +:+ s) p = true.
Proof.
  destruct p as [|c p]; [by destruct s|].
  change (String c p +:+ s) with (String c (p +:+ s)). cbn [Contains].
  change (String c (p +:+ s)) with (String c p +:+ s).
  by rewrite has_prefix_app.
Qed.

Lemma Contains_suffix (p s t : string) :
  Contains s t = true → Contains (p +:+ s) t = true.
Proof.
  intros Hs. induction p as [|c p IH]; [done|].
  change (String c p +:+ s) with (String c (p +:+ s)). cbn [Contains].
  rewrite IH. apply orb_true_r.
Qed.

Lemma append_assoc (a b c : string) : (a +:+ b) +:+ c = a +:+ (b +:+ c).
Proof.
  induction a as [|x a IH]; [done|].
  change ((String x a +:+ b) +:+ c) with (String x ((a +:+ b) +:+ c)).
  by rewrite IH.
Qed.

(** A field of [strings.Split] is a part of the text that was split. *)
Lemma split_on_Contains (sep : ascii) (s : string) :
  ∀ (cur t : string), t ∈ split_on sep cur s → Contains (cur +:+ s) t = true.
Proof.
  induction s as [|c s IH]; intros cur t Hin; cbn [split_on] in Hin.
  - apply list_elem_of_singleton in Hin as ->. apply Contains_prefix.
  - destruct (Ascii.eqb c sep).
    + apply elem_of_cons in Hin as [-> | Hin]; [apply Contains_prefix|].
      apply Contains_suffix.
      change (String c s) with (String c EmptyString +:+ s).
      apply Contains_suffix. by apply (IH EmptyString).
    + apply IH in Hin. rewrite append_assoc in Hin. exact Hin.
Qed.

(** A user can make every tag assigned to them their primary organization:
    the request is accepted, the row of the user gets the tag and nothing
    else of it changes, and the rows of users with another id stay. *)
Theorem SetUserPrimaryOrg_assigned_tag (f : faults) (username orgTag : string)
    (users : list User) (user : User) :
  FindByUsername f username users = Ok user →
  update_fails f = false →
  orgTag ∈ Split (user_OrgTags user) "," →
  ∃ users' : list User,
    SetUserPrimaryOrg f username orgTag users = (Ok (), users') ∧
    FindByUsername f username users' = Ok (with_PrimaryOrg orgTag user) ∧
    List.length users' = List.length users ∧
    ∀ u : User, u ∈ users → user_ID u ≠ user_ID user → u ∈ users'.
Proof.
  intros Hfind Hupdate Htag.
  unfold SetUserPrimaryOrg. rewrite Hfind.
  pose proof (split_on_Contains _ _ EmptyString orgTag Htag) as Hpart.
  change (EmptyString +:+ user_OrgTags user) with (user_OrgTags user) in Hpart.
  rewrite Hpart. cbn [negb].
  unfold Update. rewrite Hupdate. eexists. split; [reflexivity|].
  unfold FindByUsername in *. destruct (find_fails f); [discriminate|].
  destruct (List.find _ users) as [found|] eqn:Hfound; [|discriminate].
  injection Hfind as ->.
  split; [|split].
  - induction users as [|u users IH]; [discriminate|].
    cbn [List.find] in Hfound. cbn [map user_ID with_PrimaryOrg] in IH |- *.
    destruct (String.eqb (user_Username u) username) eqn:Hname.
    + injection Hfound as ->. rewrite Z.eqb_refl.
      cbn [List.find user_Username with_PrimaryOrg]. by rewrite Hname.
    + destruct (Z.eqb_spec (user_ID u) (user_ID user)) as [Hid|Hid].
      * cbn [List.find user_Username with_PrimaryOrg].
        apply List.find_some in Hfound as [_ Hfound]. by rewrite Hfound.
      * cbn [List.find]. rewrite Hname. apply IH. exact Hfound.
  - by rewrite length_map.
  - intros u Hu Hid. apply list_elem_of_fmap. exists u.
    cbn [user_ID with_PrimaryOrg].
    destruct (Z.eqb_spec (user_ID u) (user_ID user)); [done | by split].
Qed.

End PrimaryOrg.

Lemma SetUserPrimaryOrg_assigned_tag_witness :
  let tables_up := {| UserService.find_fails := false;
                      UserService.update_fails := false |} in
  let member := Sample.user 3 "USER" "T_child,T_other" in
  ∃ users' : list Model.User,
    UserService.SetUserPrimaryOrg tables_up "u3" "T_other" [Sample.U1; member]
      = (Ok (), users') ∧
    map Model.user_PrimaryOrg users' = [""; "T_other"].
Proof.
  intros tables_up member.
  destruct (SetUserPrimaryOrg_assigned_tag tables_up "u3" "T_other"
              [Sample.U1; member] member) as (users' & Hrun & _).
  - vm_compute. reflexivity.
  - reflexivity.
  - vm_compute. apply elem_of_cons. right. apply elem_of_cons. by left.
  - exists users'. split; [exact Hrun|].
    revert Hrun. vm_compute. intros [= <-]. reflexivity.
Defined.

(** The check is on the text of the field, not on its tags: a piece of a
    tag passes it, and so does the empty text. *)
Example SetUserPrimaryOrg_piece_of_a_tag :
  let tables_up := {| UserService.find_fails := false;
                      UserService.update_fails := false |} in
  map Model.user_PrimaryOrg
      (UserService.SetUserPrimaryOrg tables_up "u1" "T_ch" [Sample.U1]).2 = ["T_ch"] ∧
  (UserService.SetUserPrimaryOrg tables_up "u1" "" [Sample.U1]).1 = Ok () ∧
  (UserService.SetUserPrimaryOrg tables_up "u1" "T_parent" [Sample.U1]).1
    = Err "user does not belong to this organization".
Proof. repeat split; vm_compute; reflexivity. Qed.
